(** * Apollo Server request core: HTTP translation, batching, document store

    A shallow embedding of
      - [packages/server/src/runHttpQuery.ts]  (translation of one HTTP
        request into a GraphQL request, response shaping, [cloneObject]),
      - [packages/server/src/httpBatching.ts]  ([runBatchHttpQuery]),
      - [packages/server/src/utils/KeyvLRU.ts] (the document store),
      - the Express integration ([getMiddleware] of [ApolloServerExpress]),
    together with the properties of the specification that concern them.

    Conventions of the embedding.
      - A JavaScript value without identity is a [value]; [VUndefined] is
        JavaScript's [undefined].  A number is a binary64 floating-point
        number, as in JavaScript.
      - A JavaScript string is represented by its UTF-8 encoding, one
        [ascii] per byte, so that [Buffer.byteLength(s, 'utf8')] is
        [String.length s].
      - The properties of an object are listed in the order in which
        [[OwnPropertyKeys]] enumerates them; a lookup returns the first
        binding of the key.
      - A function that can [throw] returns a sum: the thrown error or the
        returned value.
      - What the JavaScript engine decides (the decimal text of a number,
        the messages of the errors it raises) is a parameter, the class
        [Engine]. *)

From stdpp Require Import gmap strings list fin_maps pretty.
From Stdlib Require Import ZArith Ascii String Permutation.
From Stdlib.Strings Require Import Byte.
From Stdlib Require Import PrimFloat SpecFloat FloatOps.

Open Scope string_scope.
Open Scope list_scope.
Open Scope Z_scope.

Local Set Warnings "-register-all".

(** ** JavaScript values and [JSON.stringify] *)

Module JS.

Inductive value : Type :=
| VUndefined
| VNull
| VBool (b : bool)
| VNum (x : float)
| VStr (s : string)
| VBuffer (bytes : list byte)
| VArr (items : list value)
| VObj (props : list (string * value)).

(** [!v] is [negb (truthy v)]: of the numbers, [0], [-0] and [NaN] are
    falsy. *)
Definition truthy (v : value) : bool :=
  match v with
  | VUndefined | VNull => false
  | VBool b => b
  | VNum x => negb (PrimFloat.eqb x 0 || PrimFloat.is_nan x)
  | VStr s => negb (String.eqb s "")
  | VBuffer _ | VArr _ | VObj _ => true
  end.

Inductive type_tag := TUndefined | TObject | TBoolean | TNumber | TString.

Definition typeof (v : value) : type_tag :=
  match v with
  | VUndefined => TUndefined
  | VNull => TObject
  | VBool _ => TBoolean
  | VNum _ => TNumber
  | VStr _ => TString
  | VBuffer _ | VArr _ | VObj _ => TObject
  end.

Definition is_string (v : value) : bool :=
  match typeof v with TString => true | _ => false end.

Definition is_undefined (v : value) : bool :=
  match typeof v with TUndefined => true | _ => false end.

Definition is_object (v : value) : bool :=
  match typeof v with TObject => true | _ => false end.

Definition Buffer_isBuffer (v : value) : bool :=
  match v with VBuffer _ => true | _ => false end.

Definition Array_isArray (v : value) : bool :=
  match v with VArr _ => true | _ => false end.

Fixpoint assoc (k : string) (props : list (string * value)) : value :=
  match props with
  | [] => VUndefined
  | (k', v) :: rest => if String.eqb k' k then v else assoc k rest
  end.

(** [o[k]] for an own data property; [undefined] when there is none. *)
Definition get (o : value) (k : string) : value :=
  match o with
  | VObj props => assoc k props
  | _ => VUndefined
  end.

(** [Object.keys(o)] on an object. *)
Definition Object_keys (o : value) : list string :=
  match o with
  | VObj props => map fst props
  | _ => []
  end.

(** A property key: a string or a symbol. *)
Inductive key :=
| KString (s : string)
| KSymbol (id : positive).

#[global] Instance key_eq_dec : EqDecision key.
Proof. solve_decision. Defined.

(** The errors that the engine itself raises in the code at hand: a
    [ReferenceError] for an identifier without binding, and the
    [TypeError]s for spreading what cannot be iterated, for a property of
    [undefined] or [null], for an assignment that strict mode refuses
    (on a primitive, to a read-only property, to an accessor without
    setter, on an object that cannot be extended), and for
    [Buffer.byteLength] of what is not a string. *)
Inductive engine_error :=
| NotDefined (identifier : string)
| NotIterable (v : value)
| PropertyOfNothing (v : value) (property : string)
| PropertyOfPrimitive (v : value) (property : string)
| ReadOnlyProperty (k : key)
| NoSetter (k : key)
| NotExtensible (k : key)
| InvalidArgument (v : value).

Definition error_name (x : engine_error) : string :=
  match x with
  | NotDefined _ => "ReferenceError"
  | _ => "TypeError"
  end.

(** What is left to the engine: [Number.prototype.toString] (Number::toString
    of ECMA-262) and the message of each error that it raises. *)
Class Engine := {
  Number_toString : float -> string;
  error_message : engine_error -> string
}.

(** The double quote and the line feed. *)
Definition dquote : string := String (ascii_of_nat 34) EmptyString.
Definition newline : string := String (ascii_of_nat 10) EmptyString.

Definition hex_digit (n : nat) : string :=
  String (ascii_of_nat (if (n <? 10)%nat then 48 + n else 87 + n)) EmptyString.

(** The escape of one character in a JSON string literal
    (QuoteJSONString of ECMA-262). *)
Definition escape_char (c : ascii) : string :=
  let n := nat_of_ascii c in
  if (n =? 34)%nat then "\" +:+ dquote
  else if (n =? 92)%nat then "\\"
  else if (n =? 8)%nat then "\b"
  else if (n =? 12)%nat then "\f"
  else if (n =? 10)%nat then "\n"
  else if (n =? 13)%nat then "\r"
  else if (n =? 9)%nat then "\t"
  else if (n <? 32)%nat then "\u00" +:+ hex_digit (n / 16) +:+ hex_digit (n mod 16)
  else String c EmptyString.

Fixpoint escape (s : string) : string :=
  match s with
  | EmptyString => EmptyString
  | String c rest => escape_char c +:+ escape rest
  end.

Definition quote (s : string) : string := dquote +:+ escape s +:+ dquote.

Section Stringify.

Context `{Engine}.

(** [JSON.stringify(v)] without indentation.  The result is [None] where
    JavaScript returns [undefined].  A number that is not finite is
    written [null].  A property whose value serializes to [undefined] is
    left out of an object; in an array it becomes [null]. *)
Fixpoint JSON_stringify (v : value) : option string :=
  match v with
  | VUndefined => None
  | VNull => Some "null"
  | VBool b => Some (if b then "true" else "false")
  | VNum x => Some (if PrimFloat.is_finite x then Number_toString x else "null")
  | VStr s => Some (quote s)
  | VBuffer bytes =>
      Some ("{" +:+ quote "type" +:+ ":" +:+ quote "Buffer" +:+ ","
                +:+ quote "data" +:+ ":["
                +:+ String.concat "," (map (fun b => pretty (Byte.to_N b)) bytes)
                +:+ "]}")
  | VArr items =>
      Some ("[" +:+ String.concat ","
                   (map (fun x => default "null" (JSON_stringify x)) items)
                +:+ "]")
  | VObj props =>
      Some ("{" +:+ String.concat ","
                   ((fix members (l : list (string * value)) : list string :=
                       match l with
                       | [] => []
                       | (k, x) :: rest =>
                           match JSON_stringify x with
                           | Some s => (quote k +:+ ":" +:+ s) :: members rest
                           | None => members rest
                           end
                       end) props)
                +:+ "}")
  end.

(** The members of an object literal, as [JSON_stringify] writes them. *)
Fixpoint members (l : list (string * value)) : list string :=
  match l with
  | [] => []
  | (k, x) :: rest =>
      match JSON_stringify x with
      | Some s => (quote k +:+ ":" +:+ s) :: members rest
      | None => members rest
      end
  end.

End Stringify.

(** [Buffer.byteLength(s, 'utf8')] *)
Definition Buffer_byteLength (s : string) : Z := Z.of_nat (String.length s).

End JS.

Import JS.

(** ** Errors and HTTP messages *)

(** [class HttpQueryError extends Error]; [headers] is optional. *)
Module HttpQueryError.
Record t := mk {
  statusCode : Z;
  message : string;
  isGraphQLError : bool;
  headers : option (gmap string string)
}.
(** [new HttpQueryError(statusCode, message)]: the two defaults of the
    constructor. *)
Definition new (statusCode : Z) (message : string) : t :=
  mk statusCode message false None.
End HttpQueryError.

(** What a [throw] carries: an [HttpQueryError], or any other [Error]
    (its name and message). *)
Inductive error :=
| EHttpQueryError (e : HttpQueryError.t)
| EError (name message : string).

Definition isHttpQueryError (e : error) : bool :=
  match e with EHttpQueryError _ => true | EError _ _ => false end.

(** [HTTPGraphQLRequest] of [@apollo/server-types], with the fields the
    Express middleware fills in. *)
Module HTTPGraphQLRequest.
Record t := mk {
  method : string;
  headers : gmap string string;
  pathname : string;
  searchParams : value;
  body : value
}.
(** [{ ...request, body }] *)
Definition with_body (request : t) (body : value) : t :=
  mk (method request) (headers request) (pathname request)
     (searchParams request) body.
End HTTPGraphQLRequest.

(** [HTTPGraphQLResponse]: [statusCode] is optional, [completeBody] and
    [bodyChunks] are nullable. *)
Module HTTPGraphQLResponse.
Record t := mk {
  statusCode : option Z;
  headers : gmap string string;
  completeBody : option string;
  bodyChunks : option (list string)
}.
End HTTPGraphQLResponse.

(** [Pick<HTTPGraphQLResponse, 'headers' | 'statusCode'>] *)
Module HTTPResponsePartial.
Record t := mk {
  headers : gmap string string;
  statusCode : option Z
}.
End HTTPResponsePartial.

(** [if (statusCode)] on an optional number. *)
Definition status_truthy (statusCode : option Z) : bool :=
  match statusCode with
  | Some n => negb (n =? 0)
  | None => false
  end.

(** [statusCode || fallback] *)
Definition status_or (statusCode : option Z) (fallback : Z) : Z :=
  match statusCode with
  | Some n => if n =? 0 then fallback else n
  | None => fallback
  end.

Module GraphQLRequest.
Record t := mk {
  query : value;
  operationName : value;
  variables : value;
  extensions : value;
  http : HTTPGraphQLRequest.t
}.
End GraphQLRequest.

Module GraphQLResponse.
Record t := mk {
  errors : value;
  data : value;
  extensions : value;
  http : option HTTPResponsePartial.t
}.
End GraphQLResponse.

(** An error that the engine raises, as a thrown [Error]. *)
Definition raise `{Engine} (x : engine_error) : error :=
  EError (error_name x) (error_message x).

(** ** Objects with identity: the heap on which [cloneObject] works

    The context object handed to [runHttpQuery] is a JavaScript object
    with identity.  Its properties are data properties, which hold
    primitive data or references to other objects, or accessor properties,
    which hold functions.  The objects are ordinary objects as far as
    [[GetOwnProperty]], [[Get]], [[Set]] and [[OwnPropertyKeys]] go (no
    [Proxy]); the attribute [configurable], which the code at hand does not
    read, is left out.  A prototype chain has no cycle. *)

Module Heap.

Definition loc := positive.

Inductive slot :=
| Prim (v : value)
| Ref (l : loc).

(** A function is known by a name. *)
Definition function := positive.

Inductive property :=
| Data (v : slot) (writable enumerable : bool)
| Accessor (getter setter : option function) (enumerable : bool).

Definition enumerable (p : property) : bool :=
  match p with
  | Data _ _ e => e
  | Accessor _ _ e => e
  end.

Record object := mkObject {
  prototype : option loc;
  extensible : bool;
  properties : list (key * property)
}.

Abbreviation heap := (gmap loc object).

(** A computation on the heap that returns or throws. *)
Definition M (A : Type) : Type := heap -> heap * (error + A).

Definition ret {A : Type} (a : A) : M A := fun h => (h, inr a).

Definition throw {A : Type} (e : error) : M A := fun h => (h, inl e).

Definition bind {A B : Type} (m : M A) (f : A -> M B) : M B :=
  fun h =>
    match m h with
    | (h', inl e) => (h', inl e)
    | (h', inr a) => f a h'
    end.

Notation "'let*' x ':=' m 'in' k" := (bind m (fun x => k))
  (at level 10, x name, m at level 100, k at level 200).

(** What the call [f.call(this, ...arguments)] of a function does. *)
Class Functions := {
  call : function -> slot -> list slot -> M slot
}.

(** [[GetOwnProperty]] *)
Fixpoint own (k : key) (props : list (key * property)) : option property :=
  match props with
  | [] => None
  | (k', p) :: rest => if decide (k' = k) then Some p else own k rest
  end.

Definition GetOwnProperty (h : heap) (o : loc) (k : key) : option property :=
  match h !! o with
  | Some obj => own k (properties obj)
  | None => None
  end.

(** The value of the own enumerable data property [k] of the object at
    [o]. *)
Definition own_enumerable (h : heap) (o : loc) (k : key) : option slot :=
  match GetOwnProperty h o k with
  | Some (Data v _ true) => Some v
  | _ => None
  end.

(** [Object.keys]-like: the keys of [[OwnPropertyKeys]]. *)
Definition OwnPropertyKeys (h : heap) (o : loc) : list key :=
  match h !! o with
  | Some obj => (properties obj).*1
  | None => []
  end.

(** The objects of a prototype chain, from [o] on.  A chain without
    cycle is not longer than the heap is large. *)
Fixpoint chain (fuel : nat) (h : heap) (o : option loc) : list loc :=
  match fuel, o with
  | S fuel', Some l =>
      match h !! l with
      | Some obj => l :: chain fuel' h (prototype obj)
      | None => []
      end
  | _, _ => []
  end.

Definition prototype_chain (h : heap) (o : option loc) : list loc :=
  chain (size h) h o.

(** The first property named [k] along a chain, with its owner. *)
Fixpoint lookup_property (h : heap) (k : key) (objects : list loc)
  : option (loc * property) :=
  match objects with
  | [] => None
  | l :: rest =>
      match GetOwnProperty h l k with
      | Some p => Some (l, p)
      | None => lookup_property h k rest
      end
  end.

(** [[DefineOwnProperty]](k, { value: v }) on an own data property: the
    value changes, the attributes stay. *)
Fixpoint update (k : key) (v : slot) (props : list (key * property))
  : list (key * property) :=
  match props with
  | [] => []
  | (k', p) :: rest =>
      if decide (k' = k)
      then (k', match p with
                | Data _ w e => Data v w e
                | Accessor _ _ _ => p
                end) :: rest
      else (k', p) :: update k v rest
  end.

Section Operations.

Context `{Engine} `{Functions}.

Definition Object_getPrototypeOf (o : loc) : M (option loc) :=
  fun h => (h, inr (match h !! o with
                    | Some obj => prototype obj
                    | None => None
                    end)).

(** [Object.create(proto)]: a new object without own properties. *)
Definition Object_create (proto : option loc) : M loc :=
  fun h =>
    let l := fresh (dom h) in
    (<[l := mkObject proto true []]> h, inr l).

(** CreateDataProperty, whose failure [Set] turns into a [TypeError]: the
    new property is writable and enumerable and comes last. *)
Definition CreateDataProperty (o : loc) (k : key) (v : slot) : M unit :=
  fun h =>
    match h !! o with
    | Some obj =>
        if extensible obj then
          (<[o := mkObject (prototype obj) true
                    (properties obj ++ [(k, Data v true true)])]> h,
           inr tt)
        else (h, inl (raise (NotExtensible k)))
    | None => (h, inr tt)
    end.

(** [Set(o, k, v, true)], the assignment [o[k] = v] of strict mode
    (OrdinarySet of ECMA-262 with [o] as receiver): the first property
    named [k] on the prototype chain of [o] decides.  A read-only
    property and an accessor without setter refuse the assignment; a
    setter is called; a writable data property of [o] itself takes the
    value; otherwise [o] gets a new property. *)
Definition Set_strict (o : loc) (k : key) (v : slot) : M unit :=
  fun h =>
    match lookup_property h k (prototype_chain h (Some o)) with
    | Some (_, Data _ false _) => (h, inl (raise (ReadOnlyProperty k)))
    | Some (owner, Data _ true _) =>
        if decide (owner = o) then
          (alter (fun obj => mkObject (prototype obj) (extensible obj)
                               (update k v (properties obj))) o h,
           inr tt)
        else CreateDataProperty o k v h
    | Some (_, Accessor _ None _) => (h, inl (raise (NoSetter k)))
    | Some (_, Accessor _ (Some setter) _) =>
        (let* _ := call setter (Ref o) [v] in ret tt) h
    | None => CreateDataProperty o k v h
    end.

(** [Get(o, k)] for the own property [p] of [o]. *)
Definition Get_own (o : loc) (p : property) : M slot :=
  match p with
  | Data v _ _ => ret v
  | Accessor None _ _ => ret (Prim VUndefined)
  | Accessor (Some getter) _ _ => call getter (Ref o) []
  end.

(** The loop of [Object.assign]: for each key, if [source] has an own
    enumerable property of this name by now, its value is read and set
    on [target]. *)
Fixpoint assign_keys (keys : list key) (target source : loc) : M unit :=
  match keys with
  | [] => ret tt
  | k :: rest =>
      fun h =>
        match GetOwnProperty h source k with
        | Some p =>
            if enumerable p then
              (let* v := Get_own source p in
               let* _ := Set_strict target k v in
               assign_keys rest target source) h
            else assign_keys rest target source h
        | None => assign_keys rest target source h
        end
  end.

(** [Object.assign(target, source)] *)
Definition Object_assign (target source : loc) : M loc :=
  fun h =>
    (let* _ := assign_keys (OwnPropertyKeys h source) target source in
     ret target) h.

End Operations.

(** The own properties of a clone of an object with the properties
    [props]: its enumerable data properties, in order, with their
    values, all writable and enumerable. *)
Definition clone_properties (props : list (key * property))
  : list (key * property) :=
  omap (fun kp => match kp.2 with
                  | Data v _ true => Some (kp.1, Data v true true)
                  | _ => None
                  end) props.

(** No reference to a prototype dangles. *)
Definition closed (h : heap) : bool :=
  forallb (fun lo => match prototype lo.2 with
                     | Some p => bool_decide (is_Some (h !! p))
                     | None => true
                     end) (map_to_list h).

(** Nothing stands in the way of an assignment [o[k] = v] on a new
    object with the prototype [proto]: the prototype chain has no
    property [k], or a writable data property. *)
Definition unhindered (h : heap) (proto : option loc) (k : key) : bool :=
  match lookup_property h k (prototype_chain h proto) with
  | None | Some (_, Data _ true _) => true
  | Some (_, Data _ false _) | Some (_, Accessor _ _ _) => false
  end.

(** The enumerable own properties of [obj] are data properties, and no
    object on its prototype chain has a read-only property or an accessor
    under one of their names. *)
Definition plain (h : heap) (obj : object) : bool :=
  forallb (fun kp => match kp.2 with
                     | Data _ _ true => unhindered h (prototype obj) kp.1
                     | Data _ _ false => true
                     | Accessor _ _ e => negb e
                     end) (properties obj).

End Heap.

Import Heap.

(** [cloneObject] (runHttpQuery.ts):
    [Object.assign(Object.create(Object.getPrototypeOf(object)), object)] *)
Definition cloneObject `{Engine} `{Functions} (object : loc) : M loc :=
  let* proto := Object_getPrototypeOf object in
  let* target := Object_create proto in
  Object_assign target object.

(** ** The collaborators of [runHttpQuery] *)

Inductive OperationType := OpQuery | OpMutation | OpSubscription.

(** A plugin, as far as this core meets it: what it does when the request
    starts and at the [didResolveOperation] checkpoint.  A hook sees the
    partial HTTP response and may change it, or throw. *)
Module Plugin.
Record t := mk {
  requestDidStart :
    HTTPResponsePartial.t -> error + HTTPResponsePartial.t;
  didResolveOperation :
    OperationType -> HTTPResponsePartial.t -> error + HTTPResponsePartial.t
}.
End Plugin.

(** [GraphQLServerOptions]: the fields that [runHttpQuery] reads. *)
Module GraphQLServerOptions.
Record t := mk {
  debug : option bool;
  nodeEnv : option string;
  plugins : option (list Plugin.t)
}.
End GraphQLServerOptions.

(** [GraphQLRequestContext]: [logger], [schema], [cache], [metrics] and
    [overallCachePolicy] are passed through untouched and are left out. *)
Module GraphQLRequestContext.
Record t := mk {
  request : GraphQLRequest.t;
  response_http : HTTPResponsePartial.t;
  context : loc;
  debug : bool
}.
End GraphQLRequestContext.

(** [processGraphQLRequest(options, requestContext)], on a heap. *)
Definition pipeline : Type :=
  GraphQLServerOptions.t -> GraphQLRequestContext.t -> heap ->
  heap * (error + GraphQLResponse.t).

(** What the host provides: [JSON.parse] ([None] where it throws),
    [process.env.NODE_ENV ?? ''], [formatApolloErrors] of [./errors] with
    the configured formatter, and the object that [JSON.stringify] sees in
    a thrown error. *)
Class Host := {
  JSON_parse : string -> option value;
  NODE_ENV : string;
  formatApolloErrors : list error -> option bool -> value;
  errorObject : error -> value
}.

(** ** runHttpQuery.ts *)

Section RunHttpQuery.

Context `{Engine} `{Functions} `{Host}.

(** [JSON.stringify(value) + '\n']; an [undefined] result of
    [JSON.stringify] concatenates as the text [undefined]. *)
Definition prettyJSONStringify (v : value) : string :=
  default "undefined" (JSON_stringify v) +:+ newline.

Definition serializeGraphQLResponse (response : GraphQLResponse.t) : value :=
  VObj [ ("errors", GraphQLResponse.errors response);
         ("data", GraphQLResponse.data response);
         ("extensions", GraphQLResponse.extensions response) ].

(** [new Map(entries)] and a loop of [map.set(key, value)] over entries. *)
Definition Map_set_all (entries : list (string * string))
  (m : gmap string string) : gmap string string :=
  fold_left (fun acc kv => <[kv.1 := kv.2]> acc) entries m.

(** [throwHttpGraphQLError]: the function never returns; the model yields
    the [HttpQueryError] that it throws. *)
Definition throwHttpGraphQLError (statusCode : Z) (errors : list error)
  (options : option (option bool)) (extensions : value)
  (headers : option (gmap string string)) : error :=
  let allHeaders :=
    Map_set_all (match headers with
                 | Some hs => map_to_list hs
                 | None => []
                 end)
                {[ "Content-Type" := "application/json" ]} in
  let result :=
    VObj (("errors",
           match options with
           | Some debug => formatApolloErrors errors debug
           | None => VArr (map errorObject errors)
           end)
          :: (if truthy extensions then [("extensions", extensions)] else [])) in
  EHttpQueryError
    (HttpQueryError.mk statusCode (prettyJSONStringify result) true
       (Some allHeaders)).

Definition debugFromNodeEnv (nodeEnv : option string) : bool :=
  let nodeEnv := default NODE_ENV nodeEnv in
  negb (String.eqb nodeEnv "production") && negb (String.eqb nodeEnv "test").

Definition fieldIfString (o : value) (fieldName : string) : value :=
  if is_string (get o fieldName) then get o fieldName else VUndefined.

Definition isStringRecord (o : value) : bool :=
  truthy o && is_object o && negb (Buffer_isBuffer o) && negb (Array_isArray o).

Definition isNonEmptyStringRecord (o : value) : bool :=
  isStringRecord o && (0 <? List.length (Object_keys o))%nat.

Definition jsonParsedFieldIfNonEmptyString (o : value) (fieldName : string)
  : error + value :=
  match get o fieldName with
  | VStr s =>
      if truthy (VStr s) then
        match JSON_parse s with
        | None =>
            inl (EHttpQueryError (HttpQueryError.new 400
                   ("The " +:+ fieldName +:+
                    " search parameter contains invalid JSON.")))
        | Some hopefullyRecord =>
            if negb (isStringRecord hopefullyRecord) then
              inl (EHttpQueryError (HttpQueryError.new 400
                     ("The " +:+ fieldName +:+
                      " search parameter should contain a JSON-encoded object.")))
            else inr hopefullyRecord
        end
      else inr VUndefined
  | _ => inr VUndefined
  end.

Definition fieldIfRecord (o : value) (fieldName : string) : value :=
  if isStringRecord (get o fieldName) then get o fieldName else VUndefined.

(** [query.kind === 'Document'] *)
Definition kind_is_Document (query : value) : bool :=
  match get query "kind" with
  | VStr s => String.eqb s "Document"
  | _ => false
  end.

Definition AST_guidance : string :=
  "GraphQL queries must be strings. It looks like you're sending the " +:+
  "internal graphql-js representation of a parsed query in your " +:+
  "request instead of a request in the GraphQL query language. You " +:+
  "can convert an AST to a string using the `print` function from " +:+
  "`graphql`, or use a client like `apollo-client` which converts " +:+
  "the internal representation to a string for you.".

(** [None]: the function returns; [Some e]: it throws [e]. *)
Definition ensureQueryIsStringOrMissing (query : value) : option error :=
  if negb (truthy query) || is_string query then None
  else if kind_is_Document query then
    Some (EHttpQueryError (HttpQueryError.new 400 AST_guidance))
  else
    Some (EHttpQueryError
            (HttpQueryError.new 400 "GraphQL queries must be strings.")).

(** The [switch (httpRequest.method)] of [runHttpQuery], which the
    specification calls the translator. *)
Definition Translate (httpRequest : HTTPGraphQLRequest.t)
  : error + GraphQLRequest.t :=
  let body := HTTPGraphQLRequest.body httpRequest in
  let searchParams := HTTPGraphQLRequest.searchParams httpRequest in
  if String.eqb (HTTPGraphQLRequest.method httpRequest) "POST" then
    if negb (isNonEmptyStringRecord body) then
      inl (EHttpQueryError (HttpQueryError.new 400
             "POST body missing, invalid Content-Type, or JSON object has no keys."))
    else
      match ensureQueryIsStringOrMissing (get body "query") with
      | Some e => inl e
      | None =>
          inr (GraphQLRequest.mk
                 (fieldIfString body "query")
                 (fieldIfString body "operationName")
                 (fieldIfRecord body "variables")
                 (fieldIfRecord body "extensions")
                 httpRequest)
      end
  else if String.eqb (HTTPGraphQLRequest.method httpRequest) "GET" then
    if negb (isNonEmptyStringRecord searchParams) then
      inl (EHttpQueryError (HttpQueryError.new 400 "GET query missing."))
    else
      match ensureQueryIsStringOrMissing (get searchParams "query") with
      | Some e => inl e
      | None =>
          match jsonParsedFieldIfNonEmptyString searchParams "variables" with
          | inl e => inl e
          | inr variables =>
              match jsonParsedFieldIfNonEmptyString searchParams "extensions" with
              | inl e => inl e
              | inr extensions =>
                  inr (GraphQLRequest.mk
                         (fieldIfString searchParams "query")
                         (fieldIfString searchParams "operationName")
                         variables extensions httpRequest)
              end
          end
      end
  else
    inl (EHttpQueryError
           (HttpQueryError.mk 405
              "Apollo Server supports only GET/POST requests." false
              (Some {[ "Allow" := "GET, POST" ]}))).

(** The plugin that [runHttpQuery] puts in front for a GET request. *)
Definition GET_guard : Plugin.t :=
  Plugin.mk
    (fun http => inr http)
    (fun operation http =>
       match operation with
       | OpQuery => inr http
       | _ =>
           inl (EHttpQueryError
                  (HttpQueryError.mk 405 "GET supports only query operation"
                     false (Some {[ "Allow" := "POST" ]})))
       end).

(** [plugins] after the [unshift]. *)
Definition installed_plugins (httpRequest : HTTPGraphQLRequest.t)
  (options : GraphQLServerOptions.t) : list Plugin.t :=
  let plugins := default [] (GraphQLServerOptions.plugins options) in
  if String.eqb (HTTPGraphQLRequest.method httpRequest) "GET"
  then GET_guard :: plugins
  else plugins.

(** What the [return] statements of [runHttpQuery] return: the
    [HTTPGraphQLResponse] of the early return for a response without
    data, or the object [{ graphqlResponse: body, responseInit }] of the
    last statement. *)
Inductive HttpQueryResult :=
| Response (r : HTTPGraphQLResponse.t)
| HttpQueryResponse (graphqlResponse : string).

(** The body that [runHttpQuery] assigns at the end of its [try] block. *)
Definition response_body (response : GraphQLResponse.t) : string :=
  prettyJSONStringify (serializeGraphQLResponse response).

(** The [catch] of [runHttpQuery]: what it throws for what it catches. *)
Definition rethrown (debug : bool) (caught : error) : error :=
  if isHttpQueryError caught then caught
  else throwHttpGraphQLError 500 [caught] (Some (Some debug)) VUndefined None.

(** [runHttpQuery].  The clone of the context is made inside the [try]
    block.  After the [try] block, the statement
    [responseInit.headers!['Content-Length'] = ...] evaluates the
    identifier [responseInit], which has no binding in the function or
    around it: a [ReferenceError] is thrown there, outside the [try], and
    the last [return] is not reached. *)
Definition runHttpQuery (processGraphQLRequest : pipeline)
  (httpRequest : HTTPGraphQLRequest.t) (context : loc)
  (options : GraphQLServerOptions.t) (h : heap)
  : heap * (error + HttpQueryResult) :=
  let debug :=
    match GraphQLServerOptions.debug options with
    | Some d => d
    | None => debugFromNodeEnv (GraphQLServerOptions.nodeEnv options)
    end in
  match Translate httpRequest with
  | inl e => (h, inl e)
  | inr graphqlRequest =>
      let options :=
        GraphQLServerOptions.mk (Some debug)
          (GraphQLServerOptions.nodeEnv options)
          (Some (installed_plugins httpRequest options)) in
      let partialResponse :=
        HTTPResponsePartial.mk
          (Map_set_all [("content-type", "application/json")] ∅) None in
      match cloneObject context h with
      | (h1, inl error) => (h1, inl (rethrown debug error))
      | (h1, inr context') =>
          let requestContext :=
            GraphQLRequestContext.mk graphqlRequest partialResponse context'
              debug in
          match processGraphQLRequest options requestContext h1 with
          | (h2, inl error) => (h2, inl (rethrown debug error))
          | (h2, inr response) =>
              if truthy (GraphQLResponse.errors response)
                 && is_undefined (GraphQLResponse.data response)
              then
                match GraphQLResponse.http response with
                | Some http =>
                    (h2,
                     inr (Response
                            (HTTPGraphQLResponse.mk
                               (Some (status_or (HTTPResponsePartial.statusCode http) 400))
                               (Map_set_all
                                  (("content-type", "application/json")
                                   :: map_to_list (HTTPResponsePartial.headers http))
                                  ∅)
                               (Some (prettyJSONStringify
                                        (VObj [ ("errors", GraphQLResponse.errors response);
                                                ("extensions", GraphQLResponse.extensions response) ])))
                               None)))
                | None =>
                    (* [...undefined] throws inside the [try] *)
                    (h2, inl (rethrown debug (raise (NotIterable VUndefined))))
                end
              else
                let body := response_body response in
                (h2, inl (raise (NotDefined "responseInit")))
          end
      end
  end.

End RunHttpQuery.

(** ** The request pipeline *)

Inductive Stage := Parsed | Validated | OperationResolved | Executed.

Module ExecutionResult.
Record t := mk { data : value; errors : value; extensions : value }.
End ExecutionResult.

(** Modelled from the spec: the execution capability of section 6, and
    what the pipeline answers to a request without a query string, which
    the specification leaves open.  Section 4.3: the result of an
    execution always includes a [data] key, possibly null. *)
Class Execution := {
  document : Type;
  parse : string -> list value + document;
  validate : document -> list value;
  operationOf : document -> value -> OperationType;
  execute : document -> GraphQLRequest.t -> loc -> heap ->
            heap * ExecutionResult.t;
  withoutQuery : GraphQLRequestContext.t -> error + GraphQLResponse.t;
  execute_data :
    forall doc request context h,
      ExecutionResult.data (execute doc request context h).2 <> VUndefined
}.

Section Pipeline.

Context `{Execution}.

(** Modelled from the spec: the invocation of a hook of the plugins, part
    of [./requestPipeline].  Section 6: a hook may raise a protocol error
    to short-circuit the operation.  The plugins are invoked in order; the
    first [throw] ends the round. *)
Fixpoint invokeHook
  (hook : Plugin.t -> HTTPResponsePartial.t -> error + HTTPResponsePartial.t)
  (plugins : list Plugin.t) (http : HTTPResponsePartial.t)
  : error + HTTPResponsePartial.t :=
  match plugins with
  | [] => inr http
  | p :: rest =>
      match hook p http with
      | inl e => inl e
      | inr http' => invokeHook hook rest http'
      end
  end.

(** Modelled from the spec: the response of the pipeline to a failure
    before execution.  Section 4.3: structured errors and no [data]. *)
Definition errorResponse (errors : list value) (http : HTTPResponsePartial.t)
  : GraphQLResponse.t :=
  GraphQLResponse.mk (VArr errors) VUndefined VUndefined (Some http).

(** Modelled from the spec: [processGraphQLRequest] of
    [./requestPipeline], which is not among the source files.  Sections
    4.2, 4.3 and 6: the plugins are invoked at request start; the query
    text is parsed, the document validated, the operation resolved, the
    plugins are invoked at the operation-resolution checkpoint, and the
    operation is executed.  A parse or validation failure is reported as a
    response with [errors] and without [data]; a protocol error raised by
    a hook is thrown.  The stages passed are recorded.  (The lookup of the
    parsed document in the document store, step 2 of section 4.3, yields
    the document that parsing yields and is left out.) *)
Definition processGraphQLRequest_stages
  (options : GraphQLServerOptions.t)
  (requestContext : GraphQLRequestContext.t) (h : heap)
  : heap * (error + GraphQLResponse.t) * list Stage :=
  let plugins := default [] (GraphQLServerOptions.plugins options) in
  let request := GraphQLRequestContext.request requestContext in
  match invokeHook Plugin.requestDidStart plugins
          (GraphQLRequestContext.response_http requestContext) with
  | inl e => (h, inl e, [])
  | inr http =>
      match GraphQLRequest.query request with
      | VStr text =>
          match parse text with
          | inl errors => (h, inr (errorResponse errors http), [])
          | inr doc =>
              match validate doc with
              | e :: es => (h, inr (errorResponse (e :: es) http), [Parsed])
              | [] =>
                  let operation :=
                    operationOf doc (GraphQLRequest.operationName request) in
                  match invokeHook
                          (fun p => Plugin.didResolveOperation p operation)
                          plugins http with
                  | inl e => (h, inl e, [Parsed; Validated; OperationResolved])
                  | inr http' =>
                      let '(h', result) :=
                        execute doc request
                          (GraphQLRequestContext.context requestContext) h in
                      (h',
                       inr (GraphQLResponse.mk
                              (ExecutionResult.errors result)
                              (ExecutionResult.data result)
                              (ExecutionResult.extensions result)
                              (Some http')),
                       [Parsed; Validated; OperationResolved; Executed])
                  end
              end
          end
      | _ => (h, withoutQuery requestContext, [])
      end
  end.

(** Modelled from the spec: [processGraphQLRequest], without the record
    of the stages. *)
Definition processGraphQLRequest : pipeline :=
  fun options requestContext h =>
    (processGraphQLRequest_stages options requestContext h).1.

End Pipeline.

(** ** httpBatching.ts *)

Module BatchRequest.
(** [Omit<HTTPGraphQLRequest, 'body'> & { body: any[] }] *)
Record t := mk {
  method : string;
  headers : gmap string string;
  pathname : string;
  searchParams : value;
  body : list value
}.
(** [{ ...batchRequest, body }] *)
Definition singleRequest (batchRequest : t) (body : value)
  : HTTPGraphQLRequest.t :=
  HTTPGraphQLRequest.mk (method batchRequest) (headers batchRequest)
    (pathname batchRequest) (searchParams batchRequest) body.
End BatchRequest.

Module Batch.

(** The shared state of the concurrent callbacks: [combinedResponse],
    the result slots of [Promise.all], and the first rejection. *)
Record state := mkState {
  combinedResponse : HTTPGraphQLResponse.t;
  responseBodies : list (option string);
  rejection : option error
}.

(** [combinedResponse] as declared, and [n] empty slots.  [HeaderMap],
    which httpBatching.ts imports and the files at hand do not define, is
    taken to be a [Map] from strings to strings. *)
Definition initial (n : nat) : state :=
  mkState (HTTPGraphQLResponse.mk None ∅ (Some "") None)
          (replicate n None) None.

(** A callback throws: [Promise.all] rejects with the first such error. *)
Definition reject (e : error) (st : state) : state :=
  mkState (combinedResponse st) (responseBodies st)
          (match rejection st with
           | Some first => Some first
           | None => Some e
           end).

Section Callbacks.

(** [run singleRequest] is how the promise
    [runHttpQuery(singleRequest, context, serverOptions)] settles. *)
Variable run : HTTPGraphQLRequest.t -> error + HTTPGraphQLResponse.t.
Variable batchRequest : BatchRequest.t.

(** The rest of the [i]-th callback, from the moment its
    [await runHttpQuery(...)] is over. *)
Definition resume (i : nat) (st : state) : state :=
  match BatchRequest.body batchRequest !! i with
  | None => st
  | Some body =>
      match run (BatchRequest.singleRequest batchRequest body) with
      | inl e => reject e st
      | inr response =>
          match HTTPGraphQLResponse.completeBody response with
          | None =>
              reject (EError "Error" "Incremental delivery not implemented") st
          | Some completeBody =>
              let combined := combinedResponse st in
              mkState
                (HTTPGraphQLResponse.mk
                   (if status_truthy (HTTPGraphQLResponse.statusCode response)
                    then HTTPGraphQLResponse.statusCode response
                    else HTTPGraphQLResponse.statusCode combined)
                   (Map_set_all
                      (map_to_list (HTTPGraphQLResponse.headers response))
                      (HTTPGraphQLResponse.headers combined))
                   (HTTPGraphQLResponse.completeBody combined)
                   (HTTPGraphQLResponse.bodyChunks combined))
                (<[i := Some completeBody]> (responseBodies st))
                (rejection st)
          end
      end
  end.

(** [runBatchHttpQuery], given the order [completion] in which the [N]
    calls of [runHttpQuery] settle.  The result is [None] as long as
    [Promise.all] is pending: no callback has thrown and some call has
    not settled. *)
Definition runBatchHttpQuery (completion : list nat)
  : option (error + HTTPGraphQLResponse.t) :=
  let st :=
    fold_left (fun st i => resume i st) completion
      (initial (List.length (BatchRequest.body batchRequest))) in
  match rejection st with
  | Some e => Some (inl e)
  | None =>
      match mapM id (responseBodies st) with
      | Some responseBodies =>
          let combined := combinedResponse st in
          Some (inr (HTTPGraphQLResponse.mk
                       (HTTPGraphQLResponse.statusCode combined)
                       (HTTPGraphQLResponse.headers combined)
                       (Some ("[" +:+ String.concat "," responseBodies +:+ "]"))
                       (HTTPGraphQLResponse.bodyChunks combined)))
      | None => None
      end
  end.

(** The responses of the calls whose indices are listed, in that order. *)
Definition responses (indices : list nat) : list HTTPGraphQLResponse.t :=
  omap (fun i =>
          match BatchRequest.body batchRequest !! i with
          | Some body =>
              match run (BatchRequest.singleRequest batchRequest body) with
              | inr response => Some response
              | inl _ => None
              end
          | None => None
          end) indices.

(** The [i]-th callback has run: its body is in the [i]-th slot. *)
Definition fill (slots : list (option string)) (i : nat)
  : list (option string) :=
  match BatchRequest.body batchRequest !! i with
  | Some body =>
      match run (BatchRequest.singleRequest batchRequest body) with
      | inr response =>
          match HTTPGraphQLResponse.completeBody response with
          | Some completeBody => <[i := Some completeBody]> slots
          | None => slots
          end
      | inl _ => slots
      end
  | None => slots
  end.

(** The call for [body] returns a response with a complete body. *)
Definition completes (body : value) : bool :=
  match run (BatchRequest.singleRequest batchRequest body) with
  | inr response =>
      match HTTPGraphQLResponse.completeBody response with
      | Some _ => true
      | None => false
      end
  | inl _ => false
  end.

(** The serialized body of the operation for [body]. *)
Definition operationBody (body : value) : string :=
  match run (BatchRequest.singleRequest batchRequest body) with
  | inr response => default "" (HTTPGraphQLResponse.completeBody response)
  | inl _ => ""
  end.

(** The operation for [body] sets no status code. *)
Definition silent_on_status (body : value) : bool :=
  match run (BatchRequest.singleRequest batchRequest body) with
  | inr response => negb (status_truthy (HTTPGraphQLResponse.statusCode response))
  | inl _ => true
  end.

End Callbacks.

(** One response after another is merged into [combined]. *)
Definition merge_into (combined : HTTPGraphQLResponse.t)
  (rs : list HTTPGraphQLResponse.t) : HTTPGraphQLResponse.t :=
  HTTPGraphQLResponse.mk
    (fold_left (fun acc r =>
                  if status_truthy (HTTPGraphQLResponse.statusCode r)
                  then HTTPGraphQLResponse.statusCode r
                  else acc) rs (HTTPGraphQLResponse.statusCode combined))
    (fold_left (fun acc r => HTTPGraphQLResponse.headers r ∪ acc) rs
       (HTTPGraphQLResponse.headers combined))
    (HTTPGraphQLResponse.completeBody combined)
    (HTTPGraphQLResponse.bodyChunks combined).

(** One pass over a list of responses: the headers of a later response
    overwrite those of an earlier one, and so does its status code when
    it has one. *)
Definition merged_headers (rs : list HTTPGraphQLResponse.t)
  : gmap string string :=
  fold_left (fun acc r => HTTPGraphQLResponse.headers r ∪ acc) rs ∅.

Definition merged_statusCode (rs : list HTTPGraphQLResponse.t) : option Z :=
  fold_left (fun acc r =>
               if status_truthy (HTTPGraphQLResponse.statusCode r)
               then HTTPGraphQLResponse.statusCode r
               else acc) rs None.

End Batch.

(** ** utils/KeyvLRU.ts: the document store

    [KeyvLRU] extends the class [Keyv] of the package [keyv]; its store is
    an [LRU], which extends the class [LRUCache] of the package
    [lru-cache] (of the version with the options [max] and [length] and
    the methods [del] and [reset]).  Neither package is among the source
    files; what the document store uses of them is modelled here. *)

Module LRU.

(** [LRU.jsonBytesSizeCalculator]:
    [Buffer.byteLength(JSON.stringify(obj), 'utf8')]; [Buffer.byteLength]
    throws for the [undefined] that [JSON.stringify] yields for
    [undefined]. *)
Definition jsonBytesSizeCalculator `{Engine} (obj : value) : error + Z :=
  match JSON_stringify obj with
  | Some text => inr (Buffer_byteLength text)
  | None => inl (raise (InvalidArgument VUndefined))
  end.

(** An entry of the cache: its key, its value, and the length computed
    for it when it was set.  (No entry has an age: nothing at hand sets
    [maxAge].) *)
Record entry := mkEntry { key : string; val : value; size : Z }.

(** The state of an [LRUCache]: the options [max] and [length], and the
    entries, the most recently used first. *)
Record t := mk {
  max : Z;
  lengthCalculator : value -> error + Z;
  entries : list entry
}.

Definition with_entries (c : t) (es : list entry) : t :=
  mk (max c) (lengthCalculator c) es.

(** The [length] property of the cache: the lengths of its entries. *)
Definition total (es : list entry) : Z :=
  fold_right (fun e acc => size e + acc) 0 es.

Definition length (c : t) : Z := total (entries c).

Definition without (k : string) (es : list entry) : list entry :=
  filter (fun e => key e ≠ k) es.

Fixpoint find (k : string) (es : list entry) : option entry :=
  match es with
  | [] => None
  | e :: rest => if decide (key e = k) then Some e else find k rest
  end.

(** [trim] of [lru-cache]: entries are deleted from the least recently
    used end for as long as the length exceeds [max]. *)
Fixpoint evict (fuel : nat) (max : Z) (es : list entry) : list entry :=
  match fuel with
  | O => es
  | S fuel' =>
      if max <? total es then evict fuel' max (removelast es) else es
  end.

Definition trim (max : Z) (es : list entry) : list entry :=
  evict (List.length es) max es.

(** [get] of [LRUCache]: a hit becomes the most recently used entry. *)
Definition get (k : string) (c : t) : value * t :=
  match find k (entries c) with
  | Some e => (val e, with_entries c (e :: without k (entries c)))
  | None => (VUndefined, c)
  end.

(** [set] of [LRUCache].  The length of the value is computed first.  A
    value longer than [max] is not stored, and an entry of the same key is
    deleted; otherwise the entry becomes the most recently used one, with
    the new value and length, and the cache is trimmed.  The result says
    whether the value has been stored. *)
Definition set (k : string) (v : value) (c : t) : error + bool * t :=
  match lengthCalculator c v with
  | inl e => inl e
  | inr len =>
      if max c <? len then
        inr (false, with_entries c (without k (entries c)))
      else
        inr (true,
             with_entries c
               (trim (max c) (mkEntry k v len :: without k (entries c))))
  end.

(** [del] of [LRUCache] *)
Definition del (k : string) (c : t) : t :=
  with_entries c (without k (entries c)).

(** [reset] of [LRUCache] *)
Definition reset (c : t) : t := with_entries c [].

(** [LRU.delete]: [super.del(key)], which does not throw, then [true]. *)
Definition delete (k : string) (c : t) : bool * t := (true, del k c).

(** [LRU.clear]: [super.reset()]. *)
Definition clear (c : t) : t := reset c.

End LRU.

(** The options [serialize] and [deserialize] of [Keyv] ([opts.serialize],
    [opts.deserialize] of [KeyvClassOpts]). *)
Class Serializer := {
  serialize : value -> string;
  deserialize : string -> value
}.

Module KeyvLRU.

Section Store.

Context `{Engine} `{Serializer}.

(** [new KeyvLRU()], without options: the namespace, and the store
    [new LRU({ max: Math.pow(2, 20) * 30, length: jsonBytesSizeCalculator })]. *)
Definition namespace : string := "apollo".

Definition new : LRU.t := LRU.mk (2 ^ 20 * 30) LRU.jsonBytesSizeCalculator [].

(** The key under which [Keyv] stores: [`${namespace}:${key}`]. *)
Definition keyPrefix (key : string) : string := namespace +:+ ":" +:+ key.

(** What [Keyv] hands to its store for a value set without [ttl]: the
    text of the record [{ value, expires: null }]. *)
Definition record (v : value) : value :=
  VObj [("value", v); ("expires", VNull)].

Definition stored (v : value) : value := VStr (serialize (record v)).

(** [set] of [Keyv], without [ttl]: [store.set(keyPrefixed, stored)]. *)
Definition set (key : string) (v : value) (store : LRU.t) : error + LRU.t :=
  match LRU.set (keyPrefix key) (stored v) store with
  | inl e => inl e
  | inr (_, store') => inr store'
  end.

(** [delete] of [Keyv]: [store.delete(keyPrefixed)]. *)
Definition delete (key : string) (store : LRU.t) : bool * LRU.t :=
  LRU.delete (keyPrefix key) store.

(** [get] of [Keyv] at the time [now]: the text found in the store is
    deserialized; [undefined] reads as [undefined]; a record whose
    [expires] is a number below [now] is deleted and reads as [undefined];
    otherwise the result is the [value] of the record.  ([null] has no
    property [expires]: a [TypeError].) *)
Definition get (key : string) (now : float) (store : LRU.t)
  : (error + value) * LRU.t :=
  let '(found, store') := LRU.get (keyPrefix key) store in
  let data :=
    match found with
    | VStr text => deserialize text
    | _ => found
    end in
  match data with
  | VUndefined => (inr VUndefined, store')
  | VNull => (inl (raise (PropertyOfNothing VNull "expires")), store')
  | _ =>
      match JS.get data "expires" with
      | VNum expires =>
          if PrimFloat.ltb expires now
          then (inr VUndefined, (delete key store').2)
          else (inr (JS.get data "value"), store')
      | _ => (inr (JS.get data "value"), store')
      end
  end.

(** [clear] of [Keyv]: [store.clear()]. *)
Definition clear (store : LRU.t) : LRU.t := LRU.clear store.

(** The operations of the contract of section 4.1. *)
Inductive operation :=
| OpGet (hash : string) (now : float)
| OpSet (hash : string) (document : value)
| OpDelete (hash : string)
| OpClear.

Definition apply (store : LRU.t) (op : operation) : LRU.t :=
  match op with
  | OpGet hash now => (get hash now store).2
  | OpSet hash document =>
      match set hash document store with
      | inr store' => store'
      | inl _ => store
      end
  | OpDelete hash => (delete hash store).2
  | OpClear => clear store
  end.

Definition run (ops : list operation) (store : LRU.t) : LRU.t :=
  fold_left apply ops store.

End Store.

(** [this.opts.store]: the [LRU] of the constructor, or a store that the
    options have put in its place, of which only the [length] property,
    if it has one, is looked at. *)
Inductive Store :=
| OfLRU (cache : LRU.t)
| Foreign (length : option Z).

(** [getTotalSize] *)
Definition getTotalSize (store : Store) : error + Z :=
  match store with
  | OfLRU cache => inr (LRU.length cache)
  | Foreign (Some length) => inr length
  | Foreign None => inl (EError "Error" "Keyv.store does not implement length")
  end.

End KeyvLRU.

(** An entry that [Keyv] has set: its key has the prefix of the
    namespace, and its value is the text of a record. *)
Definition set_by_Keyv `{Serializer} (e : LRU.entry) : Prop :=
  exists hash document,
    LRU.key e = KeyvLRU.keyPrefix hash
    /\ LRU.val e = KeyvLRU.stored document.

(** The invariant of the store of a [KeyvLRU]: a key occurs once, every
    entry has been set by [Keyv], the length of an entry is the byte
    length of the JSON text of its value, and the total is within the
    capacity. *)
Definition store_ok `{Engine} `{Serializer} (c : LRU.t) : Prop :=
  LRU.lengthCalculator c = LRU.jsonBytesSizeCalculator
  /\ 0 <= LRU.max c
  /\ NoDup (LRU.key <$> LRU.entries c)
  /\ Forall (fun e => set_by_Keyv e
                      /\ LRU.jsonBytesSizeCalculator (LRU.val e)
                         = inr (LRU.size e))
       (LRU.entries c)
  /\ LRU.length c <= LRU.max c.

(** ** Wording of the specification *)

(** The text of one field of a response object: nothing when the field is
    absent. *)
Definition field `{Engine} (k : string) (v : value) : list string :=
  match JSON_stringify v with
  | Some s => [quote k +:+ ":" +:+ s]
  | None => []
  end.

(** A JSON object literal with the given member texts, and the newline
    that ends a body. *)
Definition object_literal (members : list string) : string :=
  "{" +:+ String.concat "," members +:+ "}".

Definition with_newline (s : string) : string := s +:+ newline.

Definition POST_body_message : string :=
  "POST body missing, invalid Content-Type, or JSON object has no keys.".

(** The record in which the translator looks for the fields of the
    operation: the body of a POST request, the search parameters of a GET
    request. *)
Definition operation_fields (httpRequest : HTTPGraphQLRequest.t) : value :=
  if String.eqb (HTTPGraphQLRequest.method httpRequest) "POST"
  then HTTPGraphQLRequest.body httpRequest
  else HTTPGraphQLRequest.searchParams httpRequest.

(** What [runHttpQuery] hands to [processGraphQLRequest]: the local copy
    of the options, with [debug] settled and the plugins in place, and the
    request context, whose [context] is the clone made on the heap. *)
Definition effective_debug `{Host} (options : GraphQLServerOptions.t) : bool :=
  match GraphQLServerOptions.debug options with
  | Some d => d
  | None => debugFromNodeEnv (GraphQLServerOptions.nodeEnv options)
  end.

Definition pipeline_options `{Host} (httpRequest : HTTPGraphQLRequest.t)
  (options : GraphQLServerOptions.t) : GraphQLServerOptions.t :=
  GraphQLServerOptions.mk (Some (effective_debug options))
    (GraphQLServerOptions.nodeEnv options)
    (Some (installed_plugins httpRequest options)).

Definition initial_partialResponse : HTTPResponsePartial.t :=
  HTTPResponsePartial.mk {[ "content-type" := "application/json" ]} None.

Definition requestContext_of `{Host} (graphqlRequest : GraphQLRequest.t)
  (clone : loc) (options : GraphQLServerOptions.t)
  : GraphQLRequestContext.t :=
  GraphQLRequestContext.mk graphqlRequest initial_partialResponse
    clone (effective_debug options).

(** The response of [runHttpQuery] to a pipeline response with errors and
    without data. *)
Definition error_only_response `{Engine} (errors extensions : value)
  (http : HTTPResponsePartial.t) : HTTPGraphQLResponse.t :=
  HTTPGraphQLResponse.mk
    (Some (status_or (HTTPResponsePartial.statusCode http) 400))
    (HTTPResponsePartial.headers http ∪ {[ "content-type" := "application/json" ]})
    (Some (with_newline
             (object_literal
                (field "errors" errors ++ field "extensions" extensions))))
    None.

(** The error that the guard of GET requests throws. *)
Definition GET_only_query : error :=
  EHttpQueryError
    (HttpQueryError.mk 405 "GET supports only query operation" false
       (Some {[ "Allow" := "POST" ]})).

(** ** A concrete engine: the decimal text of a number *)

Module Number.

(** Number::toString of ECMA-262: the shortest decimal digits that
    round to the number, laid out with or without exponent.

    The order of [a * 10 ^ p] and [b * 2 ^ q]. *)
Definition compare_scaled (a p b q : Z) : comparison :=
  Z.compare (a * 10 ^ Z.max p 0 * 2 ^ Z.max (- q) 0)
            (b * 2 ^ Z.max q 0 * 10 ^ Z.max (- p) 0).

Section Digits.

(** The number is [m * 2 ^ e], with [m] positive. *)
Variables (m e : Z).

(** The ends of the interval of the reals that round to the number;
    they belong to it when [m] is even. *)
Definition upper : Z * Z := (2 * m + 1, e - 1).
Definition lower : Z * Z :=
  if (m =? 2 ^ 52) && (-1074 <? e) then (4 * m - 1, e - 2) else (2 * m - 1, e - 1).

Definition rounds_here (s p : Z) : bool :=
  match compare_scaled s p lower.1 lower.2 with
  | Gt => true
  | Eq => Z.even m
  | Lt => false
  end
  && match compare_scaled s p upper.1 upper.2 with
     | Lt => true
     | Eq => Z.even m
     | Gt => false
     end.

(** [n] with [10 ^ (n - 1) <= m * 2 ^ e < 10 ^ n], looked for from an
    estimate. *)
Fixpoint down (fuel : nat) (n : Z) : Z :=
  match fuel with
  | O => n
  | S fuel' =>
      match compare_scaled 1 (n - 1) m e with
      | Gt => down fuel' (n - 1)
      | _ => n
      end
  end.

Fixpoint up (fuel : nat) (n : Z) : Z :=
  match fuel with
  | O => n
  | S fuel' =>
      match compare_scaled 1 n m e with
      | Gt => n
      | _ => up fuel' (n + 1)
      end
  end.

Definition magnitude : Z :=
  up 700 (down 700 ((e + Z.log2 m) * 30103 / 100000)).

(** The shortest digits [s] and the exponent [p] with [k] digits, if
    [k] digits are enough: [s * 10 ^ p] rounds to the number and is the
    closest such to it. *)
Definition with_digits (k : Z) : option (Z * Z) :=
  let p := magnitude - k in
  let below :=
    (m * 2 ^ Z.max e 0 * 10 ^ Z.max (- p) 0)
    / (2 ^ Z.max (- e) 0 * 10 ^ Z.max p 0) in
  let above := below + 1 in
  match rounds_here below p, rounds_here above p with
  | true, true =>
      match compare_scaled (below + above) p (2 * m) e with
      | Gt => Some (below, p)
      | Lt => Some (above, p)
      | Eq => Some (if Z.even below then below else above, p)
      end
  | true, false => Some (below, p)
  | false, true => Some (above, p)
  | false, false => None
  end.

Fixpoint shortest (fuel : nat) (k : Z) : Z * Z :=
  match fuel with
  | O => (m, e)
  | S fuel' =>
      match with_digits k with
      | Some (s, p) => if s =? 10 ^ k then (10 ^ (k - 1), p + 1) else (s, p)
      | None => shortest fuel' (k + 1)
      end
  end.

End Digits.

Definition zeros (n : Z) : string :=
  String.concat "" (replicate (Z.to_nat n) "0").

(** Number::toString of ECMA-262 for a positive finite number. *)
Definition positive_toString (m e : Z) : string :=
  let '(s, p) := shortest m e 17 1 in
  let digits := pretty s in
  let k := Z.of_nat (String.length digits) in
  let n := p + k in
  if (k <=? n) && (n <=? 21) then digits +:+ zeros (n - k)
  else if (0 <? n) && (n <=? 21) then
    substring 0 (Z.to_nat n) digits +:+ "." +:+
    substring (Z.to_nat n) (Z.to_nat (k - n)) digits
  else if (-6 <? n) && (n <=? 0) then "0." +:+ zeros (- n) +:+ digits
  else
    let exponent :=
      (if n - 1 <? 0 then "-" else "+") +:+ pretty (Z.abs (n - 1)) in
    if k =? 1 then digits +:+ "e" +:+ exponent
    else substring 0 1 digits +:+ "." +:+
         substring 1 (Z.to_nat (k - 1)) digits +:+ "e" +:+ exponent.

Definition toString (x : float) : string :=
  match Prim2SF x with
  | S754_zero _ => "0"
  | S754_infinity false => "Infinity"
  | S754_infinity true => "-Infinity"
  | S754_nan => "NaN"
  | S754_finite sign m e =>
      (if sign then "-" else "") +:+ positive_toString (Zpos m) e
  end.

End Number.

(** ** Concrete hosts, requests and batches *)

Module Examples.

(** The engine of Node.js: the messages are those of V8. *)
#[global] Instance engine : Engine := {|
  Number_toString := Number.toString;
  error_message := fun x =>
    match x with
    | NotDefined identifier => identifier +:+ " is not defined"
    | NotIterable _ =>
        "undefined is not iterable (cannot read property Symbol(Symbol.iterator))"
    | PropertyOfNothing v property =>
        "Cannot read properties of "
        +:+ (match v with VNull => "null" | _ => "undefined" end)
        +:+ " (reading '" +:+ property +:+ "')"
    | PropertyOfPrimitive v property =>
        "Cannot create property '" +:+ property +:+ "' on "
        +:+ (match v with
             | VStr s => "string '" +:+ s +:+ "'"
             | VNum x => "number '" +:+ Number.toString x +:+ "'"
             | VBool true => "boolean 'true'"
             | _ => "boolean 'false'"
             end)
    | ReadOnlyProperty (KString k) =>
        "Cannot assign to read only property '" +:+ k +:+ "' of object '#<Object>'"
    | ReadOnlyProperty (KSymbol _) =>
        "Cannot assign to read only property 'Symbol()' of object '#<Object>'"
    | NoSetter (KString k) =>
        "Cannot set property " +:+ k +:+ " of #<Object> which has only a getter"
    | NoSetter (KSymbol _) =>
        "Cannot set property Symbol() of #<Object> which has only a getter"
    | NotExtensible (KString k) =>
        "Cannot add property " +:+ k +:+ ", object is not extensible"
    | NotExtensible (KSymbol _) =>
        "Cannot add property Symbol(), object is not extensible"
    | InvalidArgument _ =>
        "The " +:+ quote "string" +:+ " argument must be of type string or an "
        +:+ "instance of Buffer or ArrayBuffer. Received undefined"
    end
|}.

(** Two functions: [function () {}], and
    [function () { throw new Error('boom') }]. *)
#[global] Instance functions : Functions := {|
  call := fun f _ _ =>
    if decide (f = 1%positive) then ret (Prim VUndefined)
    else throw (EError "Error" "boom")
|}.

#[global] Instance host : Host := {|
  JSON_parse := fun s => if String.eqb s "{}" then Some (VObj []) else None;
  NODE_ENV := "test";
  formatApolloErrors := fun errors _ =>
    VArr (map (fun e => VObj [("message",
                               VStr (match e with
                                     | EHttpQueryError e' => HttpQueryError.message e'
                                     | EError _ m => m
                                     end))]) errors);
  errorObject := fun _ => VObj []
|}.

(** A schema with one query field and one mutation field; a document is
    known by the type of its operation.  A request without query text is
    answered with an error. *)
#[global] Instance execution : Execution.
Proof.
  refine {|
    document := OperationType;
    parse := fun text =>
      if String.eqb text "{ hello }" then inr OpQuery
      else if String.eqb text "mutation { bump }" then inr OpMutation
      else if String.eqb text "{ nothing }" then inr OpSubscription
      else inl [VObj [("message", VStr "Syntax Error")]];
    validate := fun doc =>
      match doc with
      | OpSubscription =>
          [VObj [("message", VStr "Cannot query field nothing on type Query.")]]
      | _ => []
      end;
    operationOf := fun doc _ => doc;
    execute := fun doc _ _ h =>
      (h, ExecutionResult.mk
            (match doc with
             | OpQuery => VObj [("hello", VStr "world")]
             | _ => VObj [("bump", VNum 1)]
             end) VUndefined VUndefined);
    withoutQuery := fun requestContext =>
      inr (GraphQLResponse.mk
             (VArr [VObj [("message",
                           VStr ("GraphQL operations must contain a non-empty "
                                 +:+ "`query` or a `persistedQuery` extension."))]])
             VUndefined VUndefined
             (Some (GraphQLRequestContext.response_http requestContext)))
  |}.
  intros doc request context h. by destruct doc.
Defined.

Definition options : GraphQLServerOptions.t :=
  GraphQLServerOptions.mk None None None.

(** A context object [{ user: 'ada', dataSources: <ref 2> }] with a
    property [secret] that is not enumerable and the prototype [1], and the
    two objects that it refers to. *)
Definition heap0 : heap :=
  <[3%positive := mkObject (Some 1%positive) true
                    [(KString "user", Data (Prim (VStr "ada")) true true);
                     (KString "dataSources", Data (Ref 2%positive) true true);
                     (KString "secret", Data (Prim (VNum 7)) true false)]]>
  (<[2%positive := mkObject None true []]>
  (<[1%positive := mkObject None true []]> ∅)).

Definition context0 : loc := 3%positive.

(** Contexts that [cloneObject] does not copy as they are: the prototype
    [1] has a read-only property [x] and an accessor [y] whose setter does
    nothing; the object [2] has an own property [x], the object [3] an own
    property [y], and the object [4] an own accessor [z] whose getter
    throws. *)
Definition heap1 : heap :=
  <[4%positive := mkObject None true
                    [(KString "z", Accessor (Some 2%positive) None true)]]>
  (<[3%positive := mkObject (Some 1%positive) true
                     [(KString "y", Data (Prim (VNum 1)) true true)]]>
  (<[2%positive := mkObject (Some 1%positive) true
                     [(KString "x", Data (Prim (VNum 1)) true true)]]>
  (<[1%positive := mkObject None true
                     [(KString "x", Data (Prim (VNum 0)) false false);
                      (KString "y", Accessor None (Some 1%positive) false)]]>
   ∅))).

Definition post (body : value) : HTTPGraphQLRequest.t :=
  HTTPGraphQLRequest.mk "POST" ∅ "/graphql" (VObj []) body.

Definition get_ (searchParams : value) : HTTPGraphQLRequest.t :=
  HTTPGraphQLRequest.mk "GET" ∅ "/graphql" searchParams VUndefined.

(** A batch of two operations, each with a status code and a header of
    its own, and a batch of one operation that sets neither. *)
Definition body_a : value := VObj [("query", VStr "{ a }")].
Definition body_b : value := VObj [("query", VStr "{ b }")].

Definition batch : BatchRequest.t :=
  BatchRequest.mk "POST" ∅ "/graphql" (VObj []) [body_a; body_b].

Definition single : BatchRequest.t :=
  BatchRequest.mk "POST" ∅ "/graphql" (VObj [])
    [VObj [("query", VStr "{ hello }")]].

Definition data_body (k : string) (n : Z) : string :=
  with_newline
    (object_literal
       [quote "data" +:+ ":" +:+ object_literal [quote k +:+ ":" +:+ pretty n]]).

Definition run (request : HTTPGraphQLRequest.t)
  : error + HTTPGraphQLResponse.t :=
  match get (HTTPGraphQLRequest.body request) "query" with
  | VStr text =>
      if String.eqb text "{ a }" then
        inr (HTTPGraphQLResponse.mk (Some 201) {[ "x-served-by" := "a" ]}
               (Some (data_body "a" 1)) None)
      else if String.eqb text "{ b }" then
        inr (HTTPGraphQLResponse.mk (Some 202) {[ "x-served-by" := "b" ]}
               (Some (data_body "b" 2)) None)
      else
        inr (HTTPGraphQLResponse.mk None
               {[ "content-type" := "application/json" ]}
               (Some (data_body "hello" 0)) None)
  | _ => inl (EHttpQueryError (HttpQueryError.new 400 POST_body_message))
  end.

(** The document that graphql-js parses from [query { hello }], as
    [JSON.stringify] sees it, and the hash of this query text. *)
Definition location (first last : float) : value :=
  VObj [("start", VNum first); ("end", VNum last)].

Definition hello_document : value :=
  VObj
    [("kind", VStr "Document");
     ("definitions",
      VArr
        [VObj
           [("kind", VStr "OperationDefinition");
            ("operation", VStr "query");
            ("name", VUndefined);
            ("variableDefinitions", VArr []);
            ("directives", VArr []);
            ("selectionSet",
             VObj
               [("kind", VStr "SelectionSet");
                ("selections",
                 VArr
                   [VObj
                      [("kind", VStr "Field");
                       ("alias", VUndefined);
                       ("name",
                        VObj [("kind", VStr "Name");
                              ("value", VStr "hello");
                              ("loc", location 8 13)]);
                       ("arguments", VArr []);
                       ("directives", VArr []);
                       ("selectionSet", VUndefined);
                       ("loc", location 8 13)]]);
                ("loc", location 6 15)]);
            ("loc", location 0 15)]]);
     ("loc", location 0 15)].

Definition hello_hash : string :=
  "ec2e01311ab3b02f3d8c8c712f9e579356d332cd007ac4c1ea5df727f482f05f".

(** Short documents, of which a store of capacity 80 holds two. *)
Definition documents : list value :=
  [hello_document; VStr "aaaa"; VStr "bbbb"; VStr "cccc"].

(** What is read back from the JSON text of a value without [Buffer]s:
    a member that is [undefined] is gone, an item that is [undefined] and
    a number that is not finite are [null], and [-0] is [0]. *)
Fixpoint read_back (v : value) : value :=
  match v with
  | VNum x =>
      if PrimFloat.is_finite x
      then (if PrimFloat.eqb x 0 then VNum 0 else v)
      else VNull
  | VArr items =>
      VArr (map (fun x => match x with
                          | VUndefined => VNull
                          | _ => read_back x
                          end) items)
  | VObj props =>
      VObj ((fix members (l : list (string * value)) : list (string * value) :=
               match l with
               | [] => []
               | (k, VUndefined) :: rest => members rest
               | (k, x) :: rest => (k, read_back x) :: members rest
               end) props)
  | _ => v
  end.

(** The serializer that [Keyv] has by default, which writes what
    [JSON.stringify] writes for a record without [Buffer]s and without
    strings that start with a colon; it reads back the records of the
    documents above. *)
#[global] Instance serializer : Serializer := {|
  serialize := fun v => default "" (JSON_stringify v);
  deserialize := fun text =>
    default VUndefined
      (read_back
         <$> List.find
               (fun record =>
                  String.eqb (default "" (JSON_stringify record)) text)
               (KeyvLRU.record <$> documents))
|}.

Definition store_ops : list KeyvLRU.operation :=
  [ KeyvLRU.OpSet "a" (VStr "aaaa");
    KeyvLRU.OpSet "b" (VStr "bbbb");
    KeyvLRU.OpGet "a" 0;
    KeyvLRU.OpSet "c" (VStr "cccc") ].

(** A pipeline that throws an error of its own, and one that answers
    with errors and sets a header. *)
Definition throwing_pipeline : pipeline :=
  fun _ _ h => (h, inl (EError "Error" "boom")).

Definition refusing_pipeline : pipeline :=
  fun _ requestContext h =>
    (h,
     inr (GraphQLResponse.mk (VArr [VObj [("message", VStr "refused")]])
            VUndefined VUndefined
            (Some (HTTPResponsePartial.mk
                     (<["x-reason" := "refused"]>
                        (HTTPResponsePartial.headers
                           (GraphQLRequestContext.response_http requestContext)))
                     None)))).

(** A batch whose second operation is refused by the translator. *)
Definition broken_batch : BatchRequest.t :=
  BatchRequest.mk "POST" ∅ "/graphql" (VObj []) [body_a; VNum 0; body_b].

End Examples.

(** ** The Express middleware ([getMiddleware] of the express package) *)

(** [isHttpQueryError] of runHttpQuery.ts: [e?.name === 'HttpQueryError'].
    (The test [isHttpQueryError] above is [instanceof HttpQueryError], as
    in the [catch] of [runHttpQuery].) *)
Definition isHttpQueryError_name (e : error) : bool :=
  match e with
  | EHttpQueryError _ => true
  | EError name _ => String.eqb name "HttpQueryError"
  end.

(** What [String.prototype.toUpperCase] does. *)
Class Strings := { toUpperCase : string -> string }.

Module Express.

(** A header of [req.headers]: absent, one value, or several. *)
Inductive HeaderValue :=
| HUndefined
| HString (s : string)
| HArray (values : list string).

(** [express.Request]: [headers] are the entries of [req.headers]. *)
Record Request := mkRequest {
  method : string;
  headers : list (string * HeaderValue);
  path : string;
  query : value;
  body : value
}.

(** What the handler does to [res], call by call.  [set_statusCode] is
    an assignment to [res.statusCode], also the one that [res.status]
    makes; [send None] is [res.send(undefined)]. *)
Inductive call :=
| setHeader (name value : string)
| set_statusCode (statusCode : option Z)
| write (chunk : string)
| send (body : option string)
| end_.

(** [res.statusCode] after the calls of [log]. *)
Definition statusCode_after (initial : option Z) (log : list call) : option Z :=
  fold_left (fun current c =>
               match c with
               | set_statusCode statusCode => statusCode
               | _ => current
               end) log initial.

(** [prefersHtml]; [types] is [accepts(req).types()]. *)
Definition prefersHtml (req : Request) (types : list string) : bool :=
  if negb (String.eqb (method req) "GET") then false
  else
    match List.find (fun x => String.eqb x "text/html"
                              || String.eqb x "application/json") types with
    | Some x => String.eqb x "text/html"
    | None => false
    end.

(** [handleError]: [inl]: the error is thrown again. *)
Definition handleError (err : error) : error + list call :=
  if negb (isHttpQueryError_name err) then inl err
  else
    match err with
    | EHttpQueryError e =>
        inr (((fun kv => setHeader kv.1 kv.2)
                <$> match HttpQueryError.headers e with
                    | Some hs => map_to_list hs
                    | None => []
                    end)
             ++ [set_statusCode (Some (HttpQueryError.statusCode e));
                 send (Some (HttpQueryError.message e))])
    | EError _ message =>
        (* an object with this name and neither headers nor status *)
        inr [set_statusCode None; send (Some message)]
    end.

(** What the context function throws: [undefined], [null] or another
    primitive, or an error object.  Of an error object: the error, its
    [extensions] property, and what the assignment to its [message]
    property throws, if it throws (the property can be read-only, or an
    accessor). *)
Inductive primitive :=
| PUndefined
| PNull
| PBoolean (b : bool)
| PNumber (x : float)
| PString (s : string).

Definition value_of (p : primitive) : value :=
  match p with
  | PUndefined => VUndefined
  | PNull => VNull
  | PBoolean b => VBool b
  | PNumber x => VNum x
  | PString s => VStr s
  end.

Inductive thrown :=
| Primitive (p : primitive)
| ErrorObject (e : error) (extensions : value) (assignment : option error).

(** [e.message = `Context creation failed: ${e.message}`] on an error
    object that takes the assignment. *)
Definition context_creation_failed (e : error) : error :=
  match e with
  | EHttpQueryError e' =>
      EHttpQueryError
        (HttpQueryError.mk (HttpQueryError.statusCode e')
           ("Context creation failed: " +:+ HttpQueryError.message e')
           (HttpQueryError.isGraphQLError e') (HttpQueryError.headers e'))
  | EError name message =>
      EError name ("Context creation failed: " +:+ message)
  end.

(** The status for an error of the context function with the given
    [extensions] property. *)
Definition context_error_statusCode (extensions : value) : Z :=
  if truthy extensions
     && truthy (get extensions "code")
     && negb (match get extensions "code" with
              | VStr code => String.eqb code "INTERNAL_SERVER_ERROR"
              | _ => false
              end)
  then 400 else 500.

Definition body_not_set : string :=
  "`req.body` is not set; this probably means you forgot to set up the " +:+
  "`body-parser` middleware before the Apollo Server middleware.".

(** The [Map] made of [req.headers]. *)
Definition request_headers (entries : list (string * HeaderValue))
  : gmap string string :=
  fold_left (fun headers kv =>
               match kv.2 with
               | HUndefined => headers
               | HString s => <[kv.1 := s]> headers
               | HArray values => <[kv.1 := String.concat ", " values]> headers
               end) entries ∅.

(** The state that the callbacks share: the calls made on [res] so far,
    the result slots of [Promise.all] (a callback that has handled an
    error returns [undefined]), and the first rejection. *)
Record state := mkState {
  log : list call;
  responseBodies : list (option (option string));
  rejection : option error
}.

Definition reject (e : error) (st : state) : state :=
  mkState (log st) (responseBodies st)
          (match rejection st with
           | Some first => Some first
           | None => Some e
           end).

(** The calls that a callback makes for the response of its operation. *)
Definition response_calls (response : HTTPGraphQLResponse.t) : list call :=
  ((fun kv => setHeader kv.1 kv.2)
     <$> map_to_list (HTTPGraphQLResponse.headers response))
  ++ (if status_truthy (HTTPGraphQLResponse.statusCode response)
      then [set_statusCode (HTTPGraphQLResponse.statusCode response)]
      else []).

Section Handler.

Context `{Engine} `{Host} `{Strings}.

(** The closure of [getMiddleware]: the landing page, [this.requestOptions],
    the initial [res.statusCode]; of each request: the types that it
    accepts, what the context function returns or throws, and how
    [runHttpQuery(request, context, await this.graphQLServerOptions())]
    settles. *)
Variables (landingPage : option string)
          (requestOptions : GraphQLServerOptions.t)
          (initial_statusCode : option Z)
          (req : Request) (types : list string)
          (contextFunction : thrown + loc)
          (run : loc -> HTTPGraphQLRequest.t -> error + HTTPGraphQLResponse.t).

(** The error that the inner [try] block of the [catch] for the context
    function ends with: the [TypeError] for the property [message] of
    what is not an object, what the assignment to [e.message] throws, or
    the error of [throwHttpGraphQLError]. *)
Definition context_failure (t : thrown) : error :=
  match t with
  | Primitive PUndefined => raise (PropertyOfNothing VUndefined "message")
  | Primitive PNull => raise (PropertyOfNothing VNull "message")
  | Primitive p => raise (PropertyOfPrimitive (value_of p) "message")
  | ErrorObject _ _ (Some refused) => refused
  | ErrorObject e extensions None =>
      throwHttpGraphQLError (context_error_statusCode extensions)
        [context_creation_failed e]
        (Some (Some (effective_debug requestOptions)))
        VUndefined None
  end.

Definition requestBodies : list value :=
  match body req with
  | VArr bodies => bodies
  | single => [single]
  end.

Definition request (body : value) : HTTPGraphQLRequest.t :=
  HTTPGraphQLRequest.mk (toUpperCase (method req))
    (request_headers (headers req)) (path req) (query req) body.

(** The same operations as a request to [runBatchHttpQuery]. *)
Definition batchRequest : BatchRequest.t :=
  BatchRequest.mk (toUpperCase (method req)) (request_headers (headers req))
    (path req) (query req) requestBodies.

(** The rest of the [i]-th callback, once its call has settled. *)
Definition resume (context : loc) (i : nat) (st : state) : state :=
  match requestBodies !! i with
  | None => st
  | Some body =>
      match run context (request body) with
      | inl error =>
          match handleError error with
          | inl rethrown => reject rethrown st
          | inr calls =>
              mkState (log st ++ calls)
                      (<[i := Some None]> (responseBodies st))
                      (rejection st)
          end
      | inr response =>
          match HTTPGraphQLResponse.completeBody response with
          | None =>
              reject (EError "Error" "Incremental delivery not implemented") st
          | Some completeBody =>
              mkState
                (log st
                 ++ ((fun kv => setHeader kv.1 kv.2)
                       <$> map_to_list (HTTPGraphQLResponse.headers response))
                 ++ (if status_truthy (HTTPGraphQLResponse.statusCode response)
                     then [set_statusCode (HTTPGraphQLResponse.statusCode response)]
                     else []))
                (<[i := Some (Some completeBody)]> (responseBodies st))
                (rejection st)
          end
      end
  end.

(** The handler, given the order in which the calls of [runHttpQuery]
    settle: the calls made on [res], and the error with which the handler
    ends if it throws.  [None]: [Promise.all] is pending. *)
Definition handler (completion : list nat)
  : option (list call * option error) :=
  match landingPage, prefersHtml req types with
  | Some html, true =>
      Some ([setHeader "Content-Type" "text/html"; write html; end_], None)
  | _, _ =>
   if negb (truthy (body req)) then
     Some ([set_statusCode (Some 500); send (Some body_not_set)], None)
   else
     match contextFunction with
     | inl t =>
         match handleError (context_failure t) with
         | inl rethrown => Some ([], Some rethrown)
         | inr calls => Some (calls, None)
         end
     | inr context =>
         let st :=
           fold_left (fun st i => resume context i st) completion
             (mkState [] (replicate (List.length requestBodies) None) None) in
         match rejection st with
         | Some e => Some (log st, Some e)
         | None =>
             match mapM id (responseBodies st) with
             | None => None
             | Some responseBodies =>
                 Some (log st
                       ++ (if status_truthy
                                (statusCode_after initial_statusCode (log st))
                           then []
                           else [set_statusCode (Some 200)])
                       ++ [send
                             (if Array_isArray (body req)
                              then Some ("[" +:+ String.concat ","
                                                   (default "" <$> responseBodies)
                                             +:+ "]")
                              else mjoin (head responseBodies))],
                       None)
             end
         end
     end
  end.

End Handler.

End Express.

Module ExpressExamples.

(** Upper case for the letters of ASCII, and an Express request. *)
Definition upper (c : ascii) : ascii :=
  let n := nat_of_ascii c in
  if ((96 <? n) && (n <? 123))%nat then ascii_of_nat (n - 32) else c.

Fixpoint upper_case (s : string) : string :=
  match s with
  | EmptyString => EmptyString
  | String c rest => String (upper c) (upper_case rest)
  end.

#[global] Instance strings : Strings := {| toUpperCase := upper_case |}.

Definition request (body : value) : Express.Request :=
  Express.mkRequest "post" [("host", Express.HString "example.org")]
    "/graphql" (VObj []) body.

(** [runHttpQuery] as the middleware sees it: [run], and a protocol
    error for a body without query. *)
Definition run (context : loc) (request : HTTPGraphQLRequest.t)
  : error + HTTPGraphQLResponse.t :=
  Examples.run request.

Definition failing_run (context : loc) (request : HTTPGraphQLRequest.t)
  : error + HTTPGraphQLResponse.t :=
  inl (EError "Error" "boom").

End ExpressExamples.

(** ** More of httpBatching.ts, in words *)

(** The error with which the callback for [body] ends, if it does: the
    error of [runHttpQuery], or the one about incremental delivery. *)
Definition callback_failure
  (run : HTTPGraphQLRequest.t -> error + HTTPGraphQLResponse.t)
  (batchRequest : BatchRequest.t) (body : value) : option error :=
  match run (BatchRequest.singleRequest batchRequest body) with
  | inl e => Some e
  | inr response =>
      match HTTPGraphQLResponse.completeBody response with
      | Some _ => None
      | None => Some (EError "Error" "Incremental delivery not implemented")
      end
  end.

(** * Properties *)

(** ** JavaScript values *)


Lemma is_undefined_spec (v : value) :
  is_undefined v = true <-> v = VUndefined.
Proof. destruct v; split; intros E; try reflexivity; discriminate E. Qed.

Lemma JSON_stringify_object `{Engine} (props : list (string * value)) :
  JSON_stringify (VObj props) = Some (object_literal (members props)).
Proof.
  (* [members] is the local function of [JSON_stringify], by name *)
  reflexivity.
Qed.

Lemma members_cons `{Engine} (k : string) (v : value)
  (rest : list (string * value)) :
  members ((k, v) :: rest) = field k v ++ members rest.
Proof. unfold field. simpl. by destruct (JSON_stringify v). Qed.

Lemma isStringRecord_spec (o : value) :
  isStringRecord o = true <-> exists props, o = VObj props.
Proof.
  split.
  - unfold isStringRecord.
    destruct o; simpl; rewrite ?andb_false_r; try done; eauto.
  - intros [props ->]. reflexivity.
Qed.

Lemma isNonEmptyStringRecord_spec (o : value) :
  isNonEmptyStringRecord o = true <->
  exists k v rest, o = VObj ((k, v) :: rest).
Proof.
  split.
  - unfold isNonEmptyStringRecord, isStringRecord.
    destruct o as [| | | | | | |[|[k v] rest]];
      simpl; rewrite ?andb_false_r; try done; eauto.
  - intros (k & v & rest & ->). reflexivity.
Qed.

(** ** Serialization *)

Section Serialization.

Context `{Engine} `{Functions} `{Host}.

Lemma prettyJSONStringify_object (props : list (string * value)) :
  prettyJSONStringify (VObj props)
  = with_newline (object_literal (members props)).
Proof.
  unfold prettyJSONStringify. by rewrite JSON_stringify_object.
Qed.

(** C6.  The body of a single response is the JSON object with the fields
    errors, data, extensions in that order, an absent field left out,
    followed by one newline; the body of a response without data, with
    errors and extensions only, follows the same order; and a response
    with data only is the object with the single member data and the
    newline. *)
Theorem response_body_field_order (response : GraphQLResponse.t) :
  prettyJSONStringify (serializeGraphQLResponse response)
  = with_newline
      (object_literal
         (field "errors" (GraphQLResponse.errors response)
          ++ field "data" (GraphQLResponse.data response)
          ++ field "extensions" (GraphQLResponse.extensions response)))
  /\ prettyJSONStringify
       (VObj [ ("errors", GraphQLResponse.errors response);
               ("extensions", GraphQLResponse.extensions response) ])
     = with_newline
         (object_literal
            (field "errors" (GraphQLResponse.errors response)
             ++ field "extensions" (GraphQLResponse.extensions response)))
  /\ prettyJSONStringify
       (serializeGraphQLResponse
          (GraphQLResponse.mk VUndefined (GraphQLResponse.data response)
             VUndefined (GraphQLResponse.http response)))
     = match JSON_stringify (GraphQLResponse.data response) with
       | Some text =>
           with_newline (object_literal [quote "data" +:+ ":" +:+ text])
       | None => with_newline (object_literal [])
       end.
Proof.
  unfold serializeGraphQLResponse.
  rewrite !prettyJSONStringify_object, !members_cons. simpl members.
  rewrite !app_nil_r. split; [reflexivity|]. split; [reflexivity|].
  unfold field. simpl. destruct (JSON_stringify _); reflexivity.
Qed.

End Serialization.

(** ** Translation of the HTTP request *)

Section Translation.

Context `{Engine} `{Functions} `{Host}.

Lemma runHttpQuery_translation_error (process : pipeline)
  (httpRequest : HTTPGraphQLRequest.t) (context : loc)
  (options : GraphQLServerOptions.t) (h : heap) (e : error) :
  Translate httpRequest = inl e ->
  runHttpQuery process httpRequest context options h = (h, inl e).
Proof. intros E. unfold runHttpQuery. by rewrite E. Qed.

(** C7.  A POST request whose body is not an object with at least one key
    makes [runHttpQuery] throw the [HttpQueryError] with status 400 and
    the message about the POST body, whatever the pipeline, the context
    and the options are; nothing else happens. *)
Theorem POST_body_must_be_a_nonempty_object (process : pipeline)
  (httpRequest : HTTPGraphQLRequest.t) (context : loc)
  (options : GraphQLServerOptions.t) (h : heap) :
  HTTPGraphQLRequest.method httpRequest = "POST" ->
  (forall k v rest, HTTPGraphQLRequest.body httpRequest <> VObj ((k, v) :: rest)) ->
  runHttpQuery process httpRequest context options h
  = (h, inl (EHttpQueryError
               (HttpQueryError.mk 400 POST_body_message false None))).
Proof.
  intros Hmethod Hbody. apply runHttpQuery_translation_error.
  unfold Translate. rewrite Hmethod. simpl.
  destruct (isNonEmptyStringRecord _) eqn:E; [|reflexivity].
  apply isNonEmptyStringRecord_spec in E as (k & v & rest & E).
  by destruct (Hbody k v rest).
Qed.

Lemma ensureQueryIsStringOrMissing_throws (query : value) :
  truthy query = true -> is_string query = false ->
  ensureQueryIsStringOrMissing query
  = Some (EHttpQueryError
            (HttpQueryError.new 400
               (if kind_is_Document query then AST_guidance
                else "GraphQL queries must be strings."))).
Proof.
  intros Ht Hs. unfold ensureQueryIsStringOrMissing. rewrite Ht, Hs. simpl.
  by destruct (kind_is_Document query).
Qed.

Lemma get_defined_nonempty (o : value) (k : string) :
  get o k <> VUndefined -> isNonEmptyStringRecord o = true.
Proof.
  intros Hget. apply isNonEmptyStringRecord_spec.
  destruct o as [| | | | | | |[|[k' v] rest]]; try done. eauto.
Qed.

(** C8, as the code has it.  A GET or POST request whose [query] field is
    truthy and not a string makes [runHttpQuery] throw a 400: with the
    guidance about the parsed representation when the [kind] of the value
    is ['Document'], with the generic message otherwise; the two messages
    differ. *)
Theorem query_must_be_a_string (process : pipeline)
  (httpRequest : HTTPGraphQLRequest.t) (context : loc)
  (options : GraphQLServerOptions.t) (h : heap) :
  let query := get (operation_fields httpRequest) "query" in
  HTTPGraphQLRequest.method httpRequest = "POST"
  \/ HTTPGraphQLRequest.method httpRequest = "GET" ->
  truthy query = true ->
  is_string query = false ->
  runHttpQuery process httpRequest context options h
  = (h, inl (EHttpQueryError
               (HttpQueryError.mk 400
                  (if kind_is_Document query then AST_guidance
                   else "GraphQL queries must be strings.")
                  false None)))
  /\ AST_guidance <> "GraphQL queries must be strings.".
Proof.
  intros query Hmethod Ht Hs. split; [|discriminate].
  apply runHttpQuery_translation_error.
  assert (Hne : isNonEmptyStringRecord (operation_fields httpRequest) = true).
  { apply (get_defined_nonempty _ "query"). fold query.
    intros E. by rewrite E in Ht. }
  pose proof (ensureQueryIsStringOrMissing_throws query Ht Hs) as Hthrow.
  subst query. unfold operation_fields in *. unfold Translate.
  destruct Hmethod as [E | E]; rewrite E in *; simpl in *;
    by rewrite Hne, Hthrow.
Qed.

End Translation.

Lemma POST_body_must_be_a_nonempty_object_witness :
  runHttpQuery (fun _ _ h => (h, inl (EError "Error" "unreachable")))
    (Examples.post (VObj [])) Examples.context0 Examples.options Examples.heap0
  = (Examples.heap0,
     inl (EHttpQueryError (HttpQueryError.mk 400 POST_body_message false None))).
Proof.
  apply POST_body_must_be_a_nonempty_object; [reflexivity | discriminate].
Defined.

Lemma query_must_be_a_string_witness :
  runHttpQuery (fun _ _ h => (h, inl (EError "Error" "unreachable")))
    (Examples.post
       (VObj [("query", VObj [("kind", VStr "Document");
                              ("definitions", VArr [])])]))
    Examples.context0 Examples.options Examples.heap0
  = (Examples.heap0,
     inl (EHttpQueryError (HttpQueryError.mk 400 AST_guidance false None)))
  /\ AST_guidance <> "GraphQL queries must be strings.".
Proof.
  apply (query_must_be_a_string _
           (Examples.post
              (VObj [("query", VObj [("kind", VStr "Document");
                                     ("definitions", VArr [])])])));
    [left; reflexivity | reflexivity | reflexivity].
Defined.

(** C8, as stated, fails.  The body [{ query: 0 }] has a [query] field
    that is present and is not a string; the check lets it pass, and the
    translator yields a request without query text, which goes to the
    pipeline.  When the pipeline throws an error of its own,
    [runHttpQuery] throws the 500 made of this error, and no 400 about the
    query. *)
Lemma query_zero_is_not_rejected :
  let httpRequest := Examples.post (VObj [("query", VNum 0)]) in
  get (HTTPGraphQLRequest.body httpRequest) "query" = VNum 0
  /\ is_string (VNum 0) = false
  /\ ensureQueryIsStringOrMissing (VNum 0) = None
  /\ Translate httpRequest
     = inr (GraphQLRequest.mk VUndefined VUndefined VUndefined VUndefined
              httpRequest)
  /\ (runHttpQuery Examples.throwing_pipeline httpRequest Examples.context0
        Examples.options Examples.heap0).2
     = inl (EHttpQueryError
              (HttpQueryError.mk 500
                 (with_newline
                    (object_literal
                       [quote "errors" +:+ ":[" +:+
                        object_literal
                          [quote "message" +:+ ":" +:+ quote "boom"]
                        +:+ "]"]))
                 true (Some {[ "Content-Type" := "application/json" ]}))).
Proof. repeat split; vm_compute; reflexivity. Qed.

(** ** Maps *)

Lemma Map_set_all_list_to_map (entries : list (string * string))
  (m : gmap string string) :
  NoDup entries.*1 -> Map_set_all entries m = list_to_map entries ∪ m.
Proof.
  unfold Map_set_all. revert m.
  induction entries as [|[k v] rest IH]; intros m Hnd.
  - cbn [fold_left]. rewrite list_to_map_nil. by rewrite (left_id_L ∅ (∪)).
  - rewrite fmap_cons in Hnd. apply NoDup_cons in Hnd as [Hk Hnd].
    cbn [fold_left list_to_map foldr fst snd uncurry]. rewrite IH by done.
    rewrite <- insert_union_l. symmetry. apply insert_union_r.
    by apply not_elem_of_list_to_map_1.
Qed.

Lemma Map_set_all_map_to_list (m' m : gmap string string) :
  Map_set_all (map_to_list m') m = m' ∪ m.
Proof.
  rewrite Map_set_all_list_to_map by apply NoDup_fst_map_to_list.
  by rewrite list_to_map_to_list.
Qed.

Lemma Map_of_entries_content_type (m : gmap string string) :
  Map_set_all (("content-type", "application/json") :: map_to_list m) ∅
  = m ∪ {[ "content-type" := "application/json" ]}.
Proof.
  change (Map_set_all (map_to_list m)
            (<["content-type" := "application/json"]> ∅)
          = m ∪ {[ "content-type" := "application/json" ]}).
  by rewrite Map_set_all_map_to_list.
Qed.

(** ** The shape of the response of [runHttpQuery] *)

Section Responses.

Context `{Engine} `{Functions} `{Host}.


Lemma runHttpQuery_clone_fails (process : pipeline)
  (httpRequest : HTTPGraphQLRequest.t) (context : loc)
  (options : GraphQLServerOptions.t) (h h1 : heap)
  (graphqlRequest : GraphQLRequest.t) (e : error) :
  Translate httpRequest = inr graphqlRequest ->
  cloneObject context h = (h1, inl e) ->
  runHttpQuery process httpRequest context options h
  = (h1, inl (rethrown (effective_debug options) e)).
Proof. intros E1 E2. unfold runHttpQuery. by rewrite E1, E2. Qed.

Lemma runHttpQuery_pipeline (process : pipeline)
  (httpRequest : HTTPGraphQLRequest.t) (context : loc)
  (options : GraphQLServerOptions.t) (h h1 : heap) (clone : loc)
  (graphqlRequest : GraphQLRequest.t) :
  Translate httpRequest = inr graphqlRequest ->
  cloneObject context h = (h1, inr clone) ->
  runHttpQuery process httpRequest context options h
  = match process (pipeline_options httpRequest options)
            (requestContext_of graphqlRequest clone options) h1 with
    | (h2, inl error) =>
        (h2, inl (rethrown (effective_debug options) error))
    | (h2, inr response) =>
        if truthy (GraphQLResponse.errors response)
           && is_undefined (GraphQLResponse.data response)
        then
          match GraphQLResponse.http response with
          | Some http =>
              (h2, inr (Response
                          (error_only_response
                             (GraphQLResponse.errors response)
                             (GraphQLResponse.extensions response) http)))
          | None =>
              (h2, inl (rethrown (effective_debug options)
                          (raise (NotIterable VUndefined))))
          end
        else (h2, inl (raise (NotDefined "responseInit")))
    end.
Proof.
  intros E Eclone. unfold runHttpQuery, requestContext_of, pipeline_options.
  rewrite E, Eclone. fold (effective_debug options).
  change (Map_set_all [("content-type", "application/json")] ∅)
    with (HTTPResponsePartial.headers initial_partialResponse).
  change (HTTPResponsePartial.mk
            (HTTPResponsePartial.headers initial_partialResponse) None)
    with initial_partialResponse.
  destruct (process _ _ _) as [h2 [error|response]]; [done|].
  destruct (truthy _ && is_undefined _); [|done].
  destruct (GraphQLResponse.http response) as [http|]; [|done].
  unfold error_only_response.
  rewrite Map_of_entries_content_type, prettyJSONStringify_object.
  by rewrite !members_cons, app_nil_r.
Qed.

End Responses.

(** ** The pipeline and [runHttpQuery] *)

Section PipelineResponses.

Context `{Engine} `{Functions} `{Host} `{Execution}.

Variables (options : GraphQLServerOptions.t)
          (requestContext : GraphQLRequestContext.t) (h : heap)
          (text : string) (http : HTTPResponsePartial.t).

Hypothesis request_started :
  invokeHook Plugin.requestDidStart
    (default [] (GraphQLServerOptions.plugins options))
    (GraphQLRequestContext.response_http requestContext) = inr http.

Hypothesis query_text :
  GraphQLRequest.query (GraphQLRequestContext.request requestContext)
  = VStr text.



Lemma pipeline_hook_throws (doc : document) (e : error) :
  parse text = inr doc -> validate doc = [] ->
  invokeHook
    (fun p => Plugin.didResolveOperation p
                (operationOf doc
                   (GraphQLRequest.operationName
                      (GraphQLRequestContext.request requestContext))))
    (default [] (GraphQLServerOptions.plugins options)) http = inl e ->
  processGraphQLRequest_stages options requestContext h
  = (h, inl e, [Parsed; Validated; OperationResolved]).
Proof.
  intros E1 E2 E3. unfold processGraphQLRequest_stages.
  by rewrite request_started, query_text, E1, E2, E3.
Qed.


End PipelineResponses.

Lemma guard_throws (operation : OperationType)
  (plugins : list Plugin.t) (http : HTTPResponsePartial.t) :
  operation <> OpQuery ->
  invokeHook (fun p => Plugin.didResolveOperation p operation)
    (GET_guard :: plugins) http = inl GET_only_query.
Proof. intros Hop. by destruct operation. Qed.

Lemma guard_starts (plugins : list Plugin.t) (http : HTTPResponsePartial.t) :
  invokeHook Plugin.requestDidStart (GET_guard :: plugins) http
  = invokeHook Plugin.requestDidStart plugins http.
Proof. reflexivity. Qed.

Section SingleOperation.

Context `{Engine} `{Functions} `{Host} `{Execution}.

Variables (httpRequest : HTTPGraphQLRequest.t) (context : loc)
          (options : GraphQLServerOptions.t) (h : heap)
          (graphqlRequest : GraphQLRequest.t) (text : string)
          (http : HTTPResponsePartial.t) (h1 : heap) (clone : loc).

Hypothesis translated : Translate httpRequest = inr graphqlRequest.

Hypothesis query_text : GraphQLRequest.query graphqlRequest = VStr text.

Hypothesis cloned : cloneObject context h = (h1, inr clone).

Hypothesis request_started :
  invokeHook Plugin.requestDidStart (installed_plugins httpRequest options)
    initial_partialResponse = inr http.

Lemma guard_is_thrown (doc : document) :
  HTTPGraphQLRequest.method httpRequest = "GET" ->
  parse text = inr doc ->
  validate doc = [] ->
  operationOf doc (GraphQLRequest.operationName graphqlRequest) <> OpQuery ->
  processGraphQLRequest_stages (pipeline_options httpRequest options)
    (requestContext_of graphqlRequest clone options) h1
  = (h1, inl GET_only_query, [Parsed; Validated; OperationResolved]).
Proof.
  intros Hmethod E1 E2 Hop.
  apply (pipeline_hook_throws (pipeline_options httpRequest options)
           (requestContext_of graphqlRequest clone options) h1
           text http request_started query_text doc _ E1 E2).
  cbn [pipeline_options GraphQLServerOptions.plugins default
       requestContext_of GraphQLRequestContext.request].
  unfold installed_plugins. rewrite Hmethod. by apply guard_throws.
Qed.


(** C9.  For a GET request whose operation, once parsed, validated and
    resolved, is not a query, [runHttpQuery] throws the 405 with the
    header [Allow: POST]; the pipeline has passed parsing, validation and
    the resolution of the operation and has not executed; the guard is
    the first plugin of a GET request and is absent for any other
    method. *)
Theorem GET_supports_only_query (doc : document) :
  HTTPGraphQLRequest.method httpRequest = "GET" ->
  parse text = inr doc ->
  validate doc = [] ->
  operationOf doc (GraphQLRequest.operationName graphqlRequest) <> OpQuery ->
  runHttpQuery processGraphQLRequest httpRequest context options h
  = (h1,
     inl (EHttpQueryError
            (HttpQueryError.mk 405 "GET supports only query operation" false
               (Some {[ "Allow" := "POST" ]}))))
  /\ (processGraphQLRequest_stages (pipeline_options httpRequest options)
        (requestContext_of graphqlRequest clone options) h1).2
     = [Parsed; Validated; OperationResolved]
  /\ installed_plugins httpRequest options
     = GET_guard :: default [] (GraphQLServerOptions.plugins options)
  /\ (forall other : HTTPGraphQLRequest.t,
         HTTPGraphQLRequest.method other <> "GET" ->
         installed_plugins other options
         = default [] (GraphQLServerOptions.plugins options)).
Proof.
  intros Hmethod E1 E2 Hop.
  pose proof (guard_is_thrown doc Hmethod E1 E2 Hop) as Hstages.
  split; [|split; [|split]].
  - rewrite (runHttpQuery_pipeline _ _ _ _ _ _ _ _ translated cloned).
    unfold processGraphQLRequest. by rewrite Hstages.
  - by rewrite Hstages.
  - unfold installed_plugins. by rewrite Hmethod.
  - intros other Hother. unfold installed_plugins.
    by destruct (String.eqb_spec (HTTPGraphQLRequest.method other) "GET").
Qed.

End SingleOperation.



Lemma GET_supports_only_query_witness :
  (runHttpQuery processGraphQLRequest
     (Examples.get_ (VObj [("query", VStr "mutation { bump }")]))
     Examples.context0 Examples.options Examples.heap0).2
  = inl (EHttpQueryError
           (HttpQueryError.mk 405 "GET supports only query operation" false
              (Some {[ "Allow" := "POST" ]}))).
Proof.
  destruct (GET_supports_only_query
              (Examples.get_ (VObj [("query", VStr "mutation { bump }")]))
              Examples.context0 Examples.options Examples.heap0
              (GraphQLRequest.mk (VStr "mutation { bump }") VUndefined
                 VUndefined VUndefined
                 (Examples.get_ (VObj [("query", VStr "mutation { bump }")])))
              "mutation { bump }" initial_partialResponse
              (cloneObject Examples.context0 Examples.heap0).1 4%positive
              eq_refl eq_refl eq_refl eq_refl
              (OpMutation : @document Examples.execution)
              eq_refl eq_refl eq_refl
              ltac:(discriminate))
    as [Hthrown _].
  rewrite Hthrown. reflexivity.
Defined.

(** ** The batch coordinator *)

Section BatchProperties.

Variable run : HTTPGraphQLRequest.t -> error + HTTPGraphQLResponse.t.
Variable batchRequest : BatchRequest.t.

Local Abbreviation bodies := (BatchRequest.body batchRequest).
Local Abbreviation single := (BatchRequest.singleRequest batchRequest).

Hypothesis all_complete :
  forallb (Batch.completes run batchRequest) bodies = true.

Lemma completes_lookup (i : nat) (body : value) :
  bodies !! i = Some body ->
  exists response text,
    run (single body) = inr response
    /\ HTTPGraphQLResponse.completeBody response = Some text
    /\ Batch.operationBody run batchRequest body = text.
Proof.
  intros Hi. apply list_elem_of_lookup_2, list_elem_of_In in Hi.
  pose proof (proj1 (forallb_forall _ _) all_complete body Hi) as Hc.
  unfold Batch.completes, Batch.operationBody in *.
  destruct (run (single body)) as [e|response]; [done|].
  destruct (HTTPGraphQLResponse.completeBody response) as [text|] eqn:E; [|done].
  by exists response, text.
Qed.

Lemma resume_one (i : nat) (st : Batch.state) :
  Batch.resume run batchRequest i st
  = Batch.mkState
      (Batch.merge_into (Batch.combinedResponse st)
         (Batch.responses run batchRequest [i]))
      (Batch.fill run batchRequest (Batch.responseBodies st) i)
      (Batch.rejection st).
Proof.
  unfold Batch.resume, Batch.fill, Batch.responses. cbn [omap list_omap].
  destruct (bodies !! i) as [body|] eqn:Hi.
  - destruct (completes_lookup i body Hi) as (response & text & -> & -> & _).
    unfold Batch.merge_into. cbn [fold_left HTTPGraphQLResponse.statusCode
      HTTPGraphQLResponse.headers HTTPGraphQLResponse.completeBody
      HTTPGraphQLResponse.bodyChunks].
    by rewrite Map_set_all_map_to_list.
  - by destruct st as [[] ? ?].
Qed.

Lemma merge_into_app (combined : HTTPGraphQLResponse.t)
  (rs1 rs2 : list HTTPGraphQLResponse.t) :
  Batch.merge_into combined (rs1 ++ rs2)
  = Batch.merge_into (Batch.merge_into combined rs1) rs2.
Proof. unfold Batch.merge_into. by rewrite !fold_left_app. Qed.

Lemma resume_all (completion : list nat) (st : Batch.state) :
  fold_left (fun st i => Batch.resume run batchRequest i st) completion st
  = Batch.mkState
      (Batch.merge_into (Batch.combinedResponse st)
         (Batch.responses run batchRequest completion))
      (fold_left (Batch.fill run batchRequest) completion
         (Batch.responseBodies st))
      (Batch.rejection st).
Proof.
  revert st. induction completion as [|i rest IH]; intros st.
  - by destruct st as [[] ? ?].
  - cbn [fold_left]. rewrite IH, resume_one.
    cbn [Batch.combinedResponse Batch.responseBodies Batch.rejection].
    rewrite <- merge_into_app. unfold Batch.responses.
    by rewrite <- omap_app.
Qed.

Lemma fill_all (completion : list nat) (slots : list (option string)) :
  List.length (fold_left (Batch.fill run batchRequest) completion slots)
  = List.length slots
  /\ forall j body,
       bodies !! j = Some body -> (j < List.length slots)%nat ->
       fold_left (Batch.fill run batchRequest) completion slots !! j
       = if decide (j ∈ completion)
         then Some (Some (Batch.operationBody run batchRequest body))
         else slots !! j.
Proof.
  revert slots. induction completion as [|i rest IH]; intros slots.
  - split; [done|]. intros j body _ _.
    by rewrite decide_False by apply not_elem_of_nil.
  - cbn [fold_left].
    assert (Hfill :
      List.length (Batch.fill run batchRequest slots i) = List.length slots
      /\ forall j body,
           bodies !! j = Some body -> (j < List.length slots)%nat ->
           Batch.fill run batchRequest slots i !! j
           = if decide (j = i)
             then Some (Some (Batch.operationBody run batchRequest body))
             else slots !! j).
    { unfold Batch.fill.
      destruct (bodies !! i) as [body|] eqn:Hi.
      - destruct (completes_lookup i body Hi) as (response & text & -> & -> & Htext).
        split; [by rewrite length_insert|].
        intros j body' Hj Hlt. destruct (decide (j = i)) as [->|Hne].
        + rewrite list_lookup_insert_eq by done. congruence.
        + by rewrite list_lookup_insert_ne.
      - split; [done|]. intros j body' Hj _.
        rewrite decide_False; [done|]. congruence. }
    destruct Hfill as [Hlen Hfill].
    destruct (IH (Batch.fill run batchRequest slots i)) as [IHlen IHlookup].
    split; [congruence|].
    intros j body Hj Hlt. rewrite (IHlookup j body Hj) by lia.
    rewrite (Hfill j body Hj Hlt).
    destruct (decide (j ∈ rest)) as [Hin|Hnin].
    + by rewrite decide_True by (apply elem_of_cons; by right).
    + destruct (decide (j = i)) as [->|Hne].
      * by rewrite decide_True by (apply elem_of_cons; by left).
      * by rewrite decide_False by (by apply not_elem_of_cons).
Qed.

Lemma slots_filled (completion : list nat) :
  completion ≡ₚ seq 0 (List.length bodies) ->
  fold_left (Batch.fill run batchRequest) completion
    (replicate (List.length bodies) None)
  = (fun body => Some (Batch.operationBody run batchRequest body)) <$> bodies.
Proof.
  intros Hperm.
  destruct (fill_all completion (replicate (List.length bodies) None))
    as [Hlen Hlookup].
  rewrite length_replicate in Hlen, Hlookup.
  apply list_eq. intros j. rewrite list_lookup_fmap.
  destruct (bodies !! j) as [body|] eqn:Hj.
  - rewrite (Hlookup j body Hj) by (by eapply lookup_lt_Some).
    rewrite decide_True; [done|].
    rewrite Hperm. apply elem_of_seq. apply lookup_lt_Some in Hj. lia.
  - apply lookup_ge_None in Hj. apply lookup_ge_None. lia.
Qed.

Lemma runBatchHttpQuery_result (completion : list nat) :
  completion ≡ₚ seq 0 (List.length bodies) ->
  Batch.runBatchHttpQuery run batchRequest completion
  = Some (inr (HTTPGraphQLResponse.mk
                 (Batch.merged_statusCode
                    (Batch.responses run batchRequest completion))
                 (Batch.merged_headers
                    (Batch.responses run batchRequest completion))
                 (Some ("[" +:+ String.concat ","
                                  (Batch.operationBody run batchRequest <$> bodies)
                            +:+ "]"))
                 None)).
Proof.
  intros Hperm. unfold Batch.runBatchHttpQuery. rewrite resume_all.
  cbn [Batch.rejection Batch.responseBodies Batch.combinedResponse Batch.initial].
  rewrite (slots_filled completion Hperm).
  change (fun body => Some (Batch.operationBody run batchRequest body))
    with (Some ∘ Batch.operationBody run batchRequest).
  rewrite list_fmap_compose, (mapM_fmap_Some id Some) by done.
  reflexivity.
Qed.

Lemma merged_headers_snoc (rs : list HTTPGraphQLResponse.t)
  (r : HTTPGraphQLResponse.t) :
  Batch.merged_headers (rs ++ [r])
  = HTTPGraphQLResponse.headers r ∪ Batch.merged_headers rs.
Proof. unfold Batch.merged_headers. by rewrite fold_left_app. Qed.

Lemma merged_statusCode_snoc (rs : list HTTPGraphQLResponse.t)
  (r : HTTPGraphQLResponse.t) :
  Batch.merged_statusCode (rs ++ [r])
  = if status_truthy (HTTPGraphQLResponse.statusCode r)
    then HTTPGraphQLResponse.statusCode r
    else Batch.merged_statusCode rs.
Proof. unfold Batch.merged_statusCode. by rewrite fold_left_app. Qed.

Lemma merged_statusCode_silent (rs : list HTTPGraphQLResponse.t) :
  Forall (fun r => status_truthy (HTTPGraphQLResponse.statusCode r) = false) rs ->
  Batch.merged_statusCode rs = None.
Proof.
  induction rs as [|r rs IH] using rev_ind; [done|].
  intros Hall. apply Forall_app in Hall as [Hrs Hr].
  apply Forall_inv in Hr. cbv beta in Hr.
  rewrite merged_statusCode_snoc, Hr. by apply IH.
Qed.

Lemma responses_silent (indices : list nat) :
  forallb (Batch.silent_on_status run batchRequest) bodies = true ->
  Forall (fun r => status_truthy (HTTPGraphQLResponse.statusCode r) = false)
    (Batch.responses run batchRequest indices).
Proof.
  intros Hsilent. apply Forall_forall. intros r Hr.
  apply list_elem_of_omap in Hr as (i & _ & Hi).
  destruct (bodies !! i) as [body|] eqn:Hbody; [|done].
  apply list_elem_of_lookup_2, list_elem_of_In in Hbody.
  pose proof (proj1 (forallb_forall _ _) Hsilent body Hbody) as Hs.
  unfold Batch.silent_on_status in Hs.
  destruct (run (single body)) as [e|r']; [done|].
  injection Hi as ->. by apply negb_true_iff.
Qed.

(** C2, as the code has it.  The headers and the status code of the
    merged response are those of one pass over the responses in the
    order in which the calls settled: a response that settles later
    overwrites the headers of the earlier ones key by key, and their
    status code when it has one.  The body is in input order all the
    same. *)
Theorem batch_merge_follows_completion_order (completion : list nat) :
  completion ≡ₚ seq 0 (List.length bodies) ->
  Batch.runBatchHttpQuery run batchRequest completion
  = Some (inr (HTTPGraphQLResponse.mk
                 (Batch.merged_statusCode
                    (Batch.responses run batchRequest completion))
                 (Batch.merged_headers
                    (Batch.responses run batchRequest completion))
                 (Some ("[" +:+ String.concat ","
                                  (Batch.operationBody run batchRequest <$> bodies)
                            +:+ "]"))
                 None))
  /\ (forall rs r,
         Batch.merged_headers (rs ++ [r])
         = HTTPGraphQLResponse.headers r ∪ Batch.merged_headers rs
         /\ Batch.merged_statusCode (rs ++ [r])
            = if status_truthy (HTTPGraphQLResponse.statusCode r)
              then HTTPGraphQLResponse.statusCode r
              else Batch.merged_statusCode rs).
Proof.
  intros Hperm. split; [by apply runBatchHttpQuery_result|].
  intros rs r. split; [apply merged_headers_snoc | apply merged_statusCode_snoc].
Qed.

(** C3, as the code has it.  When no operation of the batch sets a status
    code, the response that [runBatchHttpQuery] returns has none: the
    coordinator assigns no default. *)
Theorem batch_leaves_status_unset (completion : list nat) :
  completion ≡ₚ seq 0 (List.length bodies) ->
  forallb (Batch.silent_on_status run batchRequest) bodies = true ->
  exists combined,
    Batch.runBatchHttpQuery run batchRequest completion = Some (inr combined)
    /\ HTTPGraphQLResponse.statusCode combined = None.
Proof.
  intros Hperm Hsilent. eexists. split; [by apply runBatchHttpQuery_result|].
  cbn [HTTPGraphQLResponse.statusCode].
  by apply merged_statusCode_silent, responses_silent.
Qed.

End BatchProperties.

Section BatchOutcome.

Variable run : HTTPGraphQLRequest.t -> error + HTTPGraphQLResponse.t.
Variable batchRequest : BatchRequest.t.

Local Abbreviation bodies := (BatchRequest.body batchRequest).
Local Abbreviation resume := (Batch.resume run batchRequest).

Lemma rejection_stays (completion : list nat) (st : Batch.state) :
  is_Some (Batch.rejection st) ->
  is_Some (Batch.rejection (fold_left (fun st i => resume i st) completion st)).
Proof.
  revert st. induction completion as [|i rest IH]; intros st Hst; [done|].
  cbn [fold_left]. apply IH. unfold Batch.resume, Batch.reject.
  destruct Hst as [first Hfirst].
  repeat case_match; cbn [Batch.rejection]; rewrite ?Hfirst; eauto.
Qed.

Lemma failure_rejects (completion : list nat) (st : Batch.state)
  (i : nat) (body : value) :
  i ∈ completion ->
  bodies !! i = Some body ->
  Batch.completes run batchRequest body = false ->
  is_Some (Batch.rejection (fold_left (fun st i => resume i st) completion st)).
Proof.
  intros Hin Hbody Hfails. revert st.
  induction completion as [|j rest IH]; intros st.
  { by apply elem_of_nil in Hin. }
  cbn [fold_left]. apply elem_of_cons in Hin as [<-|Hin]; [|by apply IH].
  apply rejection_stays. unfold Batch.resume, Batch.completes in *.
  rewrite Hbody. unfold Batch.reject.
  repeat case_match; try done; cbn [Batch.rejection]; eauto.
Qed.

Lemma forallb_false_lookup {A : Type} (f : A -> bool) (l : list A) :
  forallb f l = false -> exists i x, l !! i = Some x /\ f x = false.
Proof.
  induction l as [|x l IH]; [done|]. simpl.
  destruct (f x) eqn:Hx.
  - intros Hl. destruct (IH Hl) as (i & y & Hi & Hy). by exists (S i), y.
  - intros _. by exists 0%nat, x.
Qed.

Lemma batch_rejects (completion : list nat) :
  completion ≡ₚ seq 0 (List.length bodies) ->
  forallb (Batch.completes run batchRequest) bodies = false ->
  exists e, Batch.runBatchHttpQuery run batchRequest completion = Some (inl e).
Proof.
  intros Hperm Hfails.
  destruct (forallb_false_lookup _ _ Hfails) as (i & body & Hi & Hbody).
  assert (Hin : i ∈ completion).
  { rewrite Hperm. apply elem_of_seq. apply lookup_lt_Some in Hi. lia. }
  destruct (failure_rejects completion
              (Batch.initial (List.length bodies)) i body Hin Hi Hbody)
    as [e He].
  exists e. unfold Batch.runBatchHttpQuery. by rewrite He.
Qed.

(** C1.  Let the [N] calls settle in whatever order.  When each of them
    returns a response with a complete body, [runBatchHttpQuery] returns
    a response whose body is the bracketed, comma-joined list of the [N]
    serialized bodies in the order of the input array; and whenever
    [runBatchHttpQuery] returns a response, this is its body. *)
Theorem batch_body_follows_input_order (completion : list nat) :
  completion ≡ₚ seq 0 (List.length bodies) ->
  let body :=
    "[" +:+ String.concat "," (Batch.operationBody run batchRequest <$> bodies)
        +:+ "]" in
  List.length (Batch.operationBody run batchRequest <$> bodies)
  = List.length bodies
  /\ (forallb (Batch.completes run batchRequest) bodies = true ->
      exists combined,
        Batch.runBatchHttpQuery run batchRequest completion
        = Some (inr combined)
        /\ HTTPGraphQLResponse.completeBody combined = Some body)
  /\ (forall combined,
         Batch.runBatchHttpQuery run batchRequest completion
         = Some (inr combined) ->
         HTTPGraphQLResponse.completeBody combined = Some body).
Proof.
  intros Hperm body. split; [apply length_fmap|]. split.
  - intros Hall. eexists. split; [by apply runBatchHttpQuery_result|done].
  - intros combined Hresult.
    destruct (forallb (Batch.completes run batchRequest) bodies) eqn:Hall.
    + rewrite (runBatchHttpQuery_result run batchRequest Hall completion Hperm)
        in Hresult.
      by injection Hresult as <-.
    + destruct (batch_rejects completion Hperm Hall) as [e He]. congruence.
Qed.

End BatchOutcome.

Lemma batch_body_follows_input_order_witness :
  exists combined,
    Batch.runBatchHttpQuery Examples.run Examples.batch [1; 0]%nat
    = Some (inr combined)
    /\ HTTPGraphQLResponse.completeBody combined
       = Some ("[" +:+ String.concat ","
                        [Examples.data_body "a" 1; Examples.data_body "b" 2]
                   +:+ "]").
Proof.
  destruct (batch_body_follows_input_order Examples.run Examples.batch
              [1; 0]%nat (perm_swap _ _ _)) as (_ & Hreturns & _).
  apply Hreturns. reflexivity.
Defined.

Lemma batch_merge_follows_completion_order_witness :
  Batch.runBatchHttpQuery Examples.run Examples.batch [1; 0]%nat
  = Some (inr (HTTPGraphQLResponse.mk (Some 201) {[ "x-served-by" := "a" ]}
                 (Some ("[" +:+ String.concat ","
                                  [Examples.data_body "a" 1;
                                   Examples.data_body "b" 2]
                            +:+ "]"))
                 None)).
Proof.
  destruct (batch_merge_follows_completion_order Examples.run Examples.batch
              eq_refl [1; 0]%nat (perm_swap _ _ _)) as [Hresult _].
  rewrite Hresult. vm_compute. reflexivity.
Defined.

(** C2, as stated, fails.  In the batch of the operations [a] and [b],
    in this order, each with a header [x-served-by] and a status code of
    its own, the merged response has the header and the status of [b]
    when the calls settle in input order, and those of [a], the earlier
    operation of the input, when [b] settles first. *)
Lemma batch_merge_depends_on_completion_order :
  Batch.runBatchHttpQuery Examples.run Examples.batch [0; 1]%nat
  = Some (inr (HTTPGraphQLResponse.mk (Some 202) {[ "x-served-by" := "b" ]}
                 (Some ("[" +:+ String.concat ","
                                  [Examples.data_body "a" 1;
                                   Examples.data_body "b" 2]
                            +:+ "]"))
                 None))
  /\ Batch.runBatchHttpQuery Examples.run Examples.batch [1; 0]%nat
     = Some (inr (HTTPGraphQLResponse.mk (Some 201) {[ "x-served-by" := "a" ]}
                    (Some ("[" +:+ String.concat ","
                                     [Examples.data_body "a" 1;
                                      Examples.data_body "b" 2]
                               +:+ "]"))
                    None))
  /\ Batch.runBatchHttpQuery Examples.run Examples.batch [1; 0]%nat
     <> Batch.runBatchHttpQuery Examples.run Examples.batch [0; 1]%nat.
Proof.
  assert (E01 :
    Batch.runBatchHttpQuery Examples.run Examples.batch [0; 1]%nat
    = Some (inr (HTTPGraphQLResponse.mk (Some 202) {[ "x-served-by" := "b" ]}
                   (Some ("[" +:+ String.concat ","
                                    [Examples.data_body "a" 1;
                                     Examples.data_body "b" 2]
                              +:+ "]"))
                   None))) by (vm_compute; reflexivity).
  assert (E10 :
    Batch.runBatchHttpQuery Examples.run Examples.batch [1; 0]%nat
    = Some (inr (HTTPGraphQLResponse.mk (Some 201) {[ "x-served-by" := "a" ]}
                   (Some ("[" +:+ String.concat ","
                                    [Examples.data_body "a" 1;
                                     Examples.data_body "b" 2]
                              +:+ "]"))
                   None))) by (vm_compute; reflexivity).
  split; [exact E01|]. split; [exact E10|].
  rewrite E01, E10. intros E. discriminate E.
Qed.

Lemma batch_leaves_status_unset_witness :
  exists combined,
    Batch.runBatchHttpQuery Examples.run Examples.single [0]%nat
    = Some (inr combined)
    /\ HTTPGraphQLResponse.statusCode combined = None.
Proof.
  apply (batch_leaves_status_unset Examples.run Examples.single eq_refl
           [0]%nat); reflexivity.
Defined.

(** C3, as stated, fails.  The batch of one operation that sets no
    status code is answered without a status code, not with 200. *)
Lemma batch_status_is_not_defaulted :
  Batch.runBatchHttpQuery Examples.run Examples.single [0]%nat
  = Some (inr (HTTPGraphQLResponse.mk None
                 {[ "content-type" := "application/json" ]}
                 (Some ("[" +:+ Examples.data_body "hello" 0 +:+ "]"))
                 None))
  /\ HTTPGraphQLResponse.statusCode
       (HTTPGraphQLResponse.mk None
          {[ "content-type" := "application/json" ]}
          (Some ("[" +:+ Examples.data_body "hello" 0 +:+ "]")) None)
     <> Some 200.
Proof. split; [vm_compute; reflexivity | discriminate]. Qed.

(** ** The document store *)

Section DocumentStore.

Import LRU.

Context `{Engine} `{Serializer}.

Lemma total_app (es1 es2 : list entry) :
  total (es1 ++ es2) = total es1 + total es2.
Proof. induction es1 as [|e es1 IH]; simpl; lia. Qed.

Lemma removelast_snoc (es : list entry) :
  es <> [] -> exists e, es = removelast es ++ [e].
Proof.
  intros Hne. exists (List.last es (mkEntry "" VUndefined 0)).
  by apply app_removelast_last.
Qed.

Lemma length_removelast (es : list entry) :
  List.length (removelast es) = pred (List.length es).
Proof.
  destruct es as [|e es]; [done|].
  destruct (removelast_snoc (e :: es)) as [x Hx]; [done|].
  rewrite Hx at 2. rewrite length_app. simpl. lia.
Qed.

Lemma evict_nil (fuel : nat) (max : Z) : evict fuel max [] = [].
Proof. induction fuel as [|fuel IH]; simpl; [done|]. by destruct (max <? 0). Qed.

Lemma evict_total (fuel : nat) (max : Z) (es : list entry) :
  0 <= max -> (List.length es <= fuel)%nat -> total (evict fuel max es) <= max.
Proof.
  intros Hmax. revert es. induction fuel as [|fuel IH]; intros es Hlen; simpl.
  - by destruct es; [|simpl in Hlen; lia].
  - destruct (Z.ltb_spec max (total es)); [|done].
    apply IH. rewrite length_removelast. lia.
Qed.

(** What is dropped is a suffix of the list, its least recently used end,
    and nothing is dropped that could have stayed. *)
Lemma evict_suffix (fuel : nat) (max : Z) (es : list entry) :
  exists evicted,
    es = evict fuel max es ++ evicted
    /\ forall e rest, evicted = e :: rest ->
                      max < total (evict fuel max es ++ [e]).
Proof.
  revert es. induction fuel as [|fuel IH]; intros es; simpl.
  - exists []. split; [by rewrite app_nil_r|done].
  - destruct (Z.ltb_spec max (total es)) as [Hover|Hfits].
    + destruct es as [|e0 es0].
      { exists []. split; [by rewrite evict_nil|done]. }
      destruct (removelast_snoc (e0 :: es0)) as [x Hx]; [done|].
      destruct (IH (removelast (e0 :: es0))) as (evicted & Hsplit & Hmin).
      exists (evicted ++ [x]). split.
      * rewrite app_assoc, <- Hsplit. exact Hx.
      * intros e rest Hev. destruct evicted as [|e' evicted'].
        -- simpl in Hev. injection Hev as <- <-.
           rewrite app_nil_r in Hsplit. rewrite <- Hsplit, <- Hx. exact Hover.
        -- simpl in Hev. injection Hev as <- _. by eapply Hmin.
    + exists []. split; [by rewrite app_nil_r|done].
Qed.

Lemma jsonBytesSizeCalculator_nonneg (obj : value) (n : Z) :
  jsonBytesSizeCalculator obj = inr n -> 0 <= n.
Proof.
  unfold jsonBytesSizeCalculator, Buffer_byteLength.
  destruct (JSON_stringify obj); intros E; simplify_eq/=. lia.
Qed.

(** The length of a text: the bytes of its JSON string literal. *)
Lemma jsonBytesSizeCalculator_text (text : string) :
  jsonBytesSizeCalculator (VStr text) = inr (Buffer_byteLength (quote text)).
Proof. reflexivity. Qed.

Lemma without_total (k : string) (es : list entry) :
  Forall (fun e => 0 <= size e) es -> total (without k es) <= total es.
Proof.
  unfold without. induction 1 as [|e es He Hes IH]; [done|].
  rewrite filter_cons. destruct (decide (key e ≠ k)); simpl; lia.
Qed.

Lemma without_Forall (P : entry -> Prop) (k : string) (es : list entry) :
  Forall P es -> Forall P (without k es).
Proof.
  rewrite !Forall_forall. intros Hall e He.
  apply list_elem_of_filter in He as [_ He]. by apply Hall.
Qed.

Lemma without_absent (k : string) (es : list entry) :
  k ∉ key <$> es -> without k es = es.
Proof.
  unfold without. induction es as [|e es IH]; [done|].
  rewrite fmap_cons, not_elem_of_cons. intros [Hne Hnin].
  rewrite filter_cons, decide_True by done. by rewrite IH.
Qed.

Lemma without_keys (k : string) (es : list entry) :
  k ∉ key <$> without k es.
Proof.
  unfold without. rewrite list_elem_of_fmap. intros (e & -> & He).
  by apply list_elem_of_filter in He as [Hne _].
Qed.

Lemma without_NoDup (k : string) (es : list entry) :
  NoDup (key <$> es) -> NoDup (key <$> without k es).
Proof.
  unfold without. induction es as [|e es IH]; [done|].
  rewrite fmap_cons, NoDup_cons. intros [Hnin Hnd].
  rewrite filter_cons. destruct (decide (key e ≠ k)); [|by apply IH].
  rewrite fmap_cons. apply NoDup_cons. split; [|by apply IH].
  rewrite list_elem_of_fmap. intros (e' & Hk & He').
  apply list_elem_of_filter in He' as [_ He'].
  apply Hnin, list_elem_of_fmap. eauto.
Qed.

Lemma find_Some (k : string) (es : list entry) (e : entry) :
  NoDup (key <$> es) -> find k es = Some e ->
  e ∈ es /\ key e = k /\ total es = size e + total (without k es).
Proof.
  unfold without. induction es as [|e0 es IH]; [done|].
  rewrite fmap_cons, NoDup_cons. intros [Hnin Hnd]. simpl.
  rewrite filter_cons. destruct (decide (key e0 = k)) as [Hk|Hk].
  - intros [= ->]. rewrite decide_False by (by intros ?).
    fold (without k es). rewrite without_absent by congruence.
    split; [by left|done].
  - intros Hfind. destruct (IH Hnd Hfind) as (Hin & Hkey & Htotal).
    rewrite decide_True by done. simpl. split; [by right|]. split; [done|lia].
Qed.

Lemma sizes_nonneg (es : list entry) :
  Forall (fun e => set_by_Keyv e
                   /\ jsonBytesSizeCalculator (val e) = inr (size e)) es ->
  Forall (fun e => 0 <= size e) es.
Proof.
  intros Hall. eapply Forall_impl; [exact Hall|]. intros e [_ He].
  exact (jsonBytesSizeCalculator_nonneg _ _ He).
Qed.

Lemma store_ok_get (k : string) (c : t) :
  store_ok c -> store_ok (get k c).2.
Proof.
  intros (Hlen & Hmax & Hnd & Hsizes & Htotal). unfold get.
  destruct (find k (entries c)) as [e|] eqn:Hfind; [|done].
  destruct (find_Some k _ e Hnd Hfind) as (Hin & Hkey & Heq).
  unfold store_ok, length, with_entries in *. cbn [lengthCalculator max entries snd].
  split; [done|]. split; [done|]. split.
  { apply NoDup_cons. split; [rewrite Hkey; apply without_keys|].
    by apply without_NoDup. }
  split.
  { apply Forall_cons. split; [by eapply Forall_forall in Hsizes|].
    by apply without_Forall. }
  simpl. lia.
Qed.

Lemma store_ok_del (k : string) (c : t) :
  store_ok c -> store_ok (del k c).
Proof.
  intros (Hlen & Hmax & Hnd & Hsizes & Htotal).
  pose proof (without_total k (entries c) (sizes_nonneg _ Hsizes)) as Hless.
  unfold store_ok, length, del, with_entries in *.
  cbn [lengthCalculator max entries].
  split; [done|]. split; [done|]. split; [by apply without_NoDup|].
  split; [by apply without_Forall|lia].
Qed.

Lemma store_ok_reset (c : t) : store_ok c -> store_ok (reset c).
Proof.
  intros (Hlen & Hmax & _). unfold store_ok, length, reset, with_entries.
  cbn [lengthCalculator max entries total fold_right].
  split; [done|]. split; [done|]. split; [constructor|].
  split; [constructor|done].
Qed.

(** What [set] of [LRUCache] does to the entries: a value that is too
    long is not stored; otherwise the new entry is put in front and the
    least recently used entries are dropped, as few as it takes. *)
Lemma set_entries (k : string) (v : value) (c : t) (stored : bool) (c' : t) :
  set k v c = inr (stored, c') ->
  exists n,
    lengthCalculator c v = inr n
    /\ max c' = max c /\ lengthCalculator c' = lengthCalculator c
    /\ if max c <? n
       then stored = false /\ entries c' = without k (entries c)
       else stored = true
            /\ exists evicted,
                 mkEntry k v n :: without k (entries c) = entries c' ++ evicted
                 /\ forall e rest, evicted = e :: rest ->
                                   max c < total (entries c' ++ [e]).
Proof.
  unfold set. destruct (lengthCalculator c v) as [e|n]; [done|].
  destruct (max c <? n) eqn:Hlong; intros [= <- <-]; exists n; rewrite Hlong.
  - done.
  - split; [done|]. split; [done|]. split; [done|]. split; [done|].
    unfold trim. cbn [entries with_entries].
    destruct (evict_suffix
                (List.length (mkEntry k v n :: without k (entries c)))
                (max c) (mkEntry k v n :: without k (entries c)))
      as (evicted & Hsplit & Hmin).
    by exists evicted.
Qed.

Lemma store_ok_set (k : string) (v : value) (c : t) (stored : bool) (c' : t) :
  store_ok c ->
  set_by_Keyv (mkEntry k v 0) ->
  set k v c = inr (stored, c') -> store_ok c'.
Proof.
  intros Hok Hkeyv Hset.
  destruct (set_entries _ _ _ _ _ Hset) as (n & Hn & Hmax' & Hlen' & Hentries).
  pose proof Hok as (Hlen & Hmax & Hnd & Hsizes & Htotal).
  unfold store_ok, length. rewrite Hmax', Hlen'.
  split; [done|]. split; [done|].
  destruct (Z.ltb_spec (max c) n) as [Hlong|Hfits].
  - destruct Hentries as [_ ->].
    pose proof (without_total k (entries c) (sizes_nonneg _ Hsizes)).
    unfold length in Htotal.
    split; [by apply without_NoDup|]. split; [by apply without_Forall|lia].
  - destruct Hentries as (_ & evicted & Hsplit & _).
    assert (Hnd' : NoDup (key <$> mkEntry k v n :: without k (entries c))).
    { rewrite fmap_cons. apply NoDup_cons.
      split; [apply without_keys|by apply without_NoDup]. }
    assert (Hsizes' :
      Forall (fun e => set_by_Keyv e
                       /\ jsonBytesSizeCalculator (val e) = inr (size e))
        (mkEntry k v n :: without k (entries c))).
    { apply Forall_cons. split; [|by apply without_Forall].
      split; [exact Hkeyv|]. cbn [val size]. by rewrite <- Hlen. }
    rewrite Hsplit in Hnd', Hsizes'.
    rewrite fmap_app in Hnd'. apply NoDup_app in Hnd' as (Hnd' & _ & _).
    apply Forall_app in Hsizes' as [Hsizes' _].
    split; [exact Hnd'|]. split; [exact Hsizes'|].
    unfold set in Hset. rewrite Hn in Hset.
    destruct (Z.ltb_spec (max c) n); [lia|]. injection Hset as _ <-.
    cbn [entries with_entries]. by apply evict_total.
Qed.

(** The store after [get] of [Keyv]: the entry has been read, and
    perhaps deleted. *)
Lemma keyv_get_store (hash : string) (now : float) (c : t) :
  (KeyvLRU.get hash now c).2 = (get (KeyvLRU.keyPrefix hash) c).2
  \/ (KeyvLRU.get hash now c).2
     = del (KeyvLRU.keyPrefix hash) (get (KeyvLRU.keyPrefix hash) c).2.
Proof.
  unfold KeyvLRU.get.
  destruct (get (KeyvLRU.keyPrefix hash) c) as [found c'].
  cbn [snd].
  destruct (match found with VStr text => deserialize text | _ => found end);
    try (by left);
    (destruct (JS.get _ "expires"); try (by left);
     destruct (PrimFloat.ltb _ _); [by right|by left]).
Qed.

Lemma store_ok_apply (c : t) (op : KeyvLRU.operation) :
  store_ok c -> store_ok (KeyvLRU.apply c op).
Proof.
  intros Hok. destruct op as [hash now|hash document|hash|]; simpl.
  - destruct (keyv_get_store hash now c) as [-> | ->].
    + by apply store_ok_get.
    + by apply store_ok_del, store_ok_get.
  - unfold KeyvLRU.set.
    destruct (set _ _ c) as [e|[stored c']] eqn:Hset; [done|].
    eapply store_ok_set; [exact Hok| |exact Hset]. by exists hash, document.
  - by apply store_ok_del.
  - by apply store_ok_reset.
Qed.

Lemma store_ok_run (ops : list KeyvLRU.operation) (c : t) :
  store_ok c -> store_ok (KeyvLRU.run ops c).
Proof.
  unfold KeyvLRU.run. revert c.
  induction ops as [|op ops IH]; intros c Hok; [done|].
  simpl. by apply IH, store_ok_apply.
Qed.

Lemma apply_options (c : t) (op : KeyvLRU.operation) :
  max (KeyvLRU.apply c op) = max c
  /\ lengthCalculator (KeyvLRU.apply c op) = lengthCalculator c.
Proof.
  destruct op as [hash now|hash document|hash|]; simpl; try done.
  - destruct (keyv_get_store hash now c) as [-> | ->]; unfold get;
      by destruct (find _ (entries c)).
  - unfold KeyvLRU.set.
    destruct (set _ _ c) as [e|[stored c']] eqn:Hset; [done|].
    by destruct (set_entries _ _ _ _ _ Hset) as (n & _ & -> & -> & _).
Qed.

Lemma run_options (ops : list KeyvLRU.operation) (c : t) :
  max (KeyvLRU.run ops c) = max c
  /\ lengthCalculator (KeyvLRU.run ops c) = lengthCalculator c.
Proof.
  unfold KeyvLRU.run. revert c. induction ops as [|op ops IH]; intros c; [done|].
  simpl. destruct (IH (KeyvLRU.apply c op)) as [-> ->]. apply apply_options.
Qed.

(** C4, as the code has it.  Whatever gets, sets, deletes and clears a
    store of capacity [capacity] has seen, its total size, which is what
    [getTotalSize] returns, is within the capacity; every entry holds
    the text that [Keyv] has serialized from the record of a document,
    and its length is the byte length of the JSON string literal of this
    text.  A set of a value that is longer than the capacity stores
    nothing; any other set puts the entry in front of the others and
    drops entries from the least recently used end, and only while the
    total exceeds the capacity.  A get of a stored document that the
    serializer reads back returns the document and moves its entry to
    the front.  The capacity of [new KeyvLRU()] is 30 MiB. *)
Theorem document_store_within_capacity (capacity : Z)
  (ops : list KeyvLRU.operation) :
  0 <= capacity ->
  let store := KeyvLRU.run ops (mk capacity jsonBytesSizeCalculator []) in
  KeyvLRU.getTotalSize (KeyvLRU.OfLRU store) = inr (total (entries store))
  /\ total (entries store) <= capacity
  /\ Forall (fun e =>
               exists hash document,
                 key e = KeyvLRU.keyPrefix hash
                 /\ val e = VStr (serialize (KeyvLRU.record document))
                 /\ size e
                    = Buffer_byteLength
                        (quote (serialize (KeyvLRU.record document))))
       (entries store)
  /\ (forall hash document store',
         KeyvLRU.set hash document store = inr store' ->
         let n := Buffer_byteLength
                    (quote (serialize (KeyvLRU.record document))) in
         let e := mkEntry (KeyvLRU.keyPrefix hash) (KeyvLRU.stored document) n in
         if capacity <? n
         then entries store' = without (KeyvLRU.keyPrefix hash) (entries store)
         else exists evicted,
                e :: without (KeyvLRU.keyPrefix hash) (entries store)
                = entries store' ++ evicted
                /\ forall e' rest, evicted = e' :: rest ->
                                   capacity < total (entries store' ++ [e']))
  /\ (forall hash now document n,
         find (KeyvLRU.keyPrefix hash) (entries store)
         = Some (mkEntry (KeyvLRU.keyPrefix hash) (KeyvLRU.stored document) n) ->
         deserialize (serialize (KeyvLRU.record document))
         = KeyvLRU.record document ->
         KeyvLRU.get hash now store
         = (inr document,
            with_entries store
              (mkEntry (KeyvLRU.keyPrefix hash) (KeyvLRU.stored document) n
               :: without (KeyvLRU.keyPrefix hash) (entries store))))
  /\ max KeyvLRU.new = 31457280.
Proof.
  intros Hcap store.
  assert (Hok : store_ok store).
  { apply store_ok_run. unfold store_ok, length.
    cbn [lengthCalculator max entries total fold_right].
    split; [done|]. split; [done|]. split; [constructor|].
    split; [constructor|done]. }
  destruct (run_options ops (mk capacity jsonBytesSizeCalculator []))
    as [Hmax Hlength].
  fold store in Hmax, Hlength. cbn [max lengthCalculator] in Hmax, Hlength.
  destruct Hok as (_ & _ & Hnd & Hsizes & Htotal).
  unfold length in Htotal.
  split; [reflexivity|]. split; [lia|]. split.
  { eapply Forall_impl; [exact Hsizes|].
    intros e [(hash & document & Hkey & Hval) Hsize].
    exists hash, document. split; [done|]. split; [done|].
    rewrite Hval in Hsize. unfold KeyvLRU.stored in Hsize.
    rewrite jsonBytesSizeCalculator_text in Hsize. by injection Hsize. }
  split; [|split; [|reflexivity]].
  - intros hash document store'. unfold KeyvLRU.set.
    destruct (set _ _ store) as [e|[stored c']] eqn:Hset; [done|].
    intros [= <-].
    destruct (set_entries _ _ _ _ _ Hset) as (n & Hn & _ & _ & Hentries).
    rewrite Hlength in Hn. unfold KeyvLRU.stored in Hn.
    rewrite jsonBytesSizeCalculator_text in Hn. injection Hn as <-.
    rewrite Hmax in Hentries. cbv zeta.
    destruct (capacity <? _); [by destruct Hentries|].
    by destruct Hentries as [_ Hentries].
  - intros hash now document n Hfind Hread.
    unfold KeyvLRU.get, get. rewrite Hfind. cbn [val].
    unfold KeyvLRU.stored. cbv beta iota. rewrite !Hread. reflexivity.
Qed.

End DocumentStore.

Lemma document_store_within_capacity_witness :
  LRU.total
    (LRU.entries
       (KeyvLRU.run Examples.store_ops
          (LRU.mk 80 LRU.jsonBytesSizeCalculator [])))
  <= 80
  /\ LRU.key <$> LRU.entries
       (KeyvLRU.run Examples.store_ops
          (LRU.mk 80 LRU.jsonBytesSizeCalculator []))
     = ["apollo:c"; "apollo:a"].
Proof.
  split; [|vm_compute; reflexivity].
  destruct (document_store_within_capacity 80 Examples.store_ops)
    as (_ & Htotal & _); [lia|exact Htotal].
Defined.

(** C4, as stated, fails.  After the document of [query { hello }] has
    been set under its hash in a new store, as in the test of the document
    store, the total size is 508, whereas the JSON text of the document
    has 403 bytes: what is counted is the JSON string literal of the text
    of the record.  And in a store of capacity 40, which holds one short
    document, the set of a document that does not fit evicts nothing: the
    store is as it was. *)
Lemma store_counts_the_serialized_record :
  KeyvLRU.getTotalSize
    (KeyvLRU.OfLRU
       (KeyvLRU.run
          [KeyvLRU.OpSet Examples.hello_hash Examples.hello_document]
          KeyvLRU.new))
  = inr 508
  /\ LRU.jsonBytesSizeCalculator Examples.hello_document = inr 403
  /\ (let store :=
        KeyvLRU.run [KeyvLRU.OpSet "a" (VStr "aaaa")]
          (LRU.mk 40 LRU.jsonBytesSizeCalculator []) in
      LRU.key <$> LRU.entries store = ["apollo:a"]
      /\ LRU.length store = 39
      /\ LRU.jsonBytesSizeCalculator (KeyvLRU.stored (VStr "bbbbbbbb")) = inr 43
      /\ KeyvLRU.run [KeyvLRU.OpSet "b" (VStr "bbbbbbbb")] store = store).
Proof. repeat split; vm_compute; reflexivity. Qed.

(** ** The clone of the context *)

Section Clone.

Context `{Engine} `{Functions}.

Lemma own_absent (k : key) (props : list (key * property)) :
  k ∉ props.*1 -> own k props = None.
Proof.
  induction props as [|[k' p] rest IH]; [done|].
  rewrite fmap_cons, not_elem_of_cons. intros [Hne Hnin]. simpl.
  rewrite decide_False by done. by apply IH.
Qed.

Lemma own_elem (k : key) (p : property) (props : list (key * property)) :
  NoDup props.*1 -> (k, p) ∈ props -> own k props = Some p.
Proof.
  induction props as [|[k' p'] rest IH]; [by intros _ ?%elem_of_nil|].
  rewrite fmap_cons, NoDup_cons. intros [Hnin Hnd] Hin. simpl.
  apply elem_of_cons in Hin as [[= <- <-]|Hin].
  - by rewrite decide_True.
  - rewrite decide_False; [by apply IH|].
    intros ->. apply Hnin, list_elem_of_fmap. by exists (k, p).
Qed.

Lemma own_app (k : key) (props more : list (key * property)) :
  own k (props ++ more)
  = match own k props with
    | Some p => Some p
    | None => own k more
    end.
Proof.
  induction props as [|[k' p] rest IH]; [done|]. simpl.
  by destruct (decide (k' = k)).
Qed.

Lemma clone_properties_keys (k : key) (props : list (key * property)) :
  k ∈ (clone_properties props).*1 -> k ∈ props.*1.
Proof.
  unfold clone_properties. rewrite !list_elem_of_fmap.
  intros ([k' p'] & -> & Hin).
  apply list_elem_of_omap in Hin as ([k0 p0] & Hin & Hsome).
  exists (k0, p0). split; [|done].
  destruct p0 as [v w [|]|]; by simplify_eq/=.
Qed.

Lemma own_clone_properties (k : key) (props : list (key * property)) :
  NoDup props.*1 ->
  own k (clone_properties props)
  = match own k props with
    | Some (Data v _ true) => Some (Data v true true)
    | _ => None
    end.
Proof.
  induction props as [|[k' p] rest IH]; [done|].
  rewrite fmap_cons, NoDup_cons. intros [Hnin Hnd].
  unfold clone_properties. cbn [omap list_omap own fst snd].
  destruct (decide (k' = k)) as [->|Hne].
  - destruct p as [v w [|]|g s e]; cbn [own].
    + by rewrite decide_True.
    + apply own_absent. intros Hin. by apply Hnin, clone_properties_keys.
    + apply own_absent. intros Hin. by apply Hnin, clone_properties_keys.
  - destruct p as [v w [|]|g s e]; cbn [own];
      rewrite ?decide_False by done; by apply IH.
Qed.

Lemma clone_properties_app (props more : list (key * property)) :
  clone_properties (props ++ more)
  = clone_properties props ++ clone_properties more.
Proof. unfold clone_properties. apply omap_app. Qed.

Lemma own_update (k : key) (v v0 : slot) (w e : bool)
  (props : list (key * property)) :
  own k props = Some (Data v0 w e) ->
  own k (update k v props) = Some (Data v w e).
Proof.
  induction props as [|[k' p] rest IH]; [done|]. simpl.
  destruct (decide (k' = k)) as [->|Hne]; simpl.
  - intros [= ->]. by rewrite decide_True.
  - intros Hown. rewrite decide_False by done. by apply IH.
Qed.

Lemma own_Forall (P : property -> Prop) (k : key) (p : property)
  (props : list (key * property)) :
  Forall (fun kp => P kp.2) props -> own k props = Some p -> P p.
Proof.
  induction props as [|[k' p'] rest IH]; [done|].
  intros [Hhead Hrest]%Forall_cons. simpl.
  destruct (decide (k' = k)); [|by apply IH]. by intros [= <-].
Qed.

(** *** Prototype chains *)

Lemma closed_spec (h : heap) (l p : loc) (obj : object) :
  closed h = true -> h !! l = Some obj -> prototype obj = Some p ->
  is_Some (h !! p).
Proof.
  unfold closed. rewrite forallb_forall. intros Hall Hl Hp.
  specialize (Hall (l, obj)). cbn [snd] in Hall. rewrite Hp in Hall.
  eapply bool_decide_eq_true_1, Hall.
  apply list_elem_of_In, elem_of_map_to_list, Hl.
Qed.

Lemma chain_allocated (fuel : nat) (h : heap) (p : option loc) (l : loc) :
  l ∈ chain fuel h p -> is_Some (h !! l).
Proof.
  revert p. induction fuel as [|fuel IH]; intros p; [by intros ?%elem_of_nil|].
  destruct p as [l0|]; [|by intros ?%elem_of_nil]. simpl.
  destruct (h !! l0) as [obj|] eqn:Hl0; [|by intros ?%elem_of_nil].
  intros [->|Hin]%elem_of_cons; [by rewrite Hl0|by eapply IH].
Qed.

(** Two heaps that differ at most at [c], which no chain of the first
    leads to, have the same chains. *)
Lemma chain_off (c : loc) (h h' : heap) (fuel : nat) (p : option loc) :
  closed h = true -> h !! c = None ->
  (forall l, l <> c -> h' !! l = h !! l) ->
  (forall l, p = Some l -> is_Some (h !! l)) ->
  chain fuel h' p = chain fuel h p.
Proof.
  intros Hclosed Hc Hoff. revert p.
  induction fuel as [|fuel IH]; intros p Hp; [done|].
  destruct p as [l|]; [|done]. simpl.
  destruct (Hp l eq_refl) as [obj Hl].
  assert (Hne : l <> c) by (intros ->; congruence).
  rewrite Hoff, Hl by done. f_equal. apply IH.
  intros l' Hl'. by eapply closed_spec.
Qed.

Lemma lookup_property_off (c : loc) (h h' : heap) (k : key) (ls : list loc) :
  (forall l, l <> c -> h' !! l = h !! l) ->
  c ∉ ls ->
  lookup_property h' k ls = lookup_property h k ls.
Proof.
  intros Hoff. induction ls as [|l ls IH]; [done|].
  rewrite not_elem_of_cons. intros [Hne Hnin]. simpl.
  unfold GetOwnProperty. rewrite Hoff by done. by rewrite IH.
Qed.

Lemma lookup_property_owner (h : heap) (k : key) (ls : list loc)
  (owner : loc) (p : property) :
  lookup_property h k ls = Some (owner, p) -> owner ∈ ls.
Proof.
  induction ls as [|l ls IH]; [done|]. simpl.
  destruct (GetOwnProperty h l k).
  - intros [= <- _]. by left.
  - intros Hfound. right. by apply IH.
Qed.

Section Fresh.

(** The heap [h], a location [c] that is free in it, and the object
    that is being built at [c]. *)
Variables (h : heap) (c : loc) (proto : option loc).

Hypothesis no_dangling : closed h = true.
Hypothesis free : h !! c = None.
Hypothesis proto_allocated : forall l, proto = Some l -> is_Some (h !! l).

Lemma chain_of_new (acc : list (key * property)) :
  prototype_chain (<[c := mkObject proto true acc]> h) (Some c)
  = c :: prototype_chain h proto.
Proof.
  unfold prototype_chain. rewrite map_size_insert_None by done.
  cbn [chain]. rewrite lookup_insert_eq. cbn [prototype]. f_equal.
  apply (chain_off c); try done.
  intros l Hne. by rewrite lookup_insert_ne.
Qed.

Lemma new_not_inherited : c ∉ prototype_chain h proto.
Proof.
  intros Hin. apply chain_allocated in Hin as [obj Hobj]. congruence.
Qed.

Lemma lookup_property_of_new (acc : list (key * property)) (k : key) :
  lookup_property (<[c := mkObject proto true acc]> h) k
    (prototype_chain (<[c := mkObject proto true acc]> h) (Some c))
  = match own k acc with
    | Some p => Some (c, p)
    | None => lookup_property h k (prototype_chain h proto)
    end.
Proof.
  rewrite chain_of_new. cbn [lookup_property]. unfold GetOwnProperty at 1.
  rewrite lookup_insert_eq. cbn [properties].
  destruct (own k acc); [done|].
  apply (lookup_property_off c); [|apply new_not_inherited].
  intros l Hne. by rewrite lookup_insert_ne.
Qed.

(** An assignment to the new object that nothing hinders: a property of
    its own takes the value, otherwise a property is added. *)
Lemma Set_strict_new (acc : list (key * property)) (k : key) (v : slot) :
  unhindered h proto k = true ->
  Forall (fun kp => exists v0, kp.2 = Data v0 true true) acc ->
  Set_strict c k v (<[c := mkObject proto true acc]> h)
  = (<[c := mkObject proto true
             (match own k acc with
              | Some _ => update k v acc
              | None => acc ++ [(k, Data v true true)]
              end)]> h,
     inr tt).
Proof.
  intros Hfree Hdata. unfold Set_strict. rewrite lookup_property_of_new.
  destruct (own k acc) as [p|] eqn:Hown.
  - destruct (own_Forall (fun p => exists v0, p = Data v0 true true)
                _ _ _ Hdata Hown) as [v0 ->].
    rewrite decide_True by done.
    by rewrite alter_insert_eq.
  - unfold unhindered in Hfree.
    destruct (lookup_property h k (prototype_chain h proto))
      as [[owner [v0 [|] e|g s e]]|] eqn:Hfound; try done.
    + rewrite decide_False.
      * unfold CreateDataProperty. rewrite lookup_insert_eq. cbn.
        by rewrite insert_insert_eq.
      * intros ->. apply lookup_property_owner in Hfound.
        by apply new_not_inherited.
    + unfold CreateDataProperty. rewrite lookup_insert_eq. cbn.
      by rewrite insert_insert_eq.
Qed.

Variables (o : loc) (obj : object).

Hypothesis allocated : h !! o = Some obj.
Hypothesis keys_once : NoDup (properties obj).*1.

Lemma clone_properties_data (props : list (key * property)) :
  Forall (fun kp => exists v0, kp.2 = Data v0 true true)
    (clone_properties props).
Proof.
  apply Forall_forall. intros [k p] Hin.
  apply list_elem_of_omap in Hin as ([k0 p0] & _ & Hsome).
  destruct p0 as [v w [|]|]; simplify_eq/=. eauto.
Qed.

(** The loop of [Object.assign] over the properties [rest] of the
    source, when [done] have been copied. *)
Lemma assign_all (done rest : list (key * property)) :
  (forall k p, (k, p) ∈ rest -> own k (properties obj) = Some p) ->
  NoDup (done.*1 ++ rest.*1) ->
  forallb (fun kp => match kp.2 with
                     | Data _ _ true => unhindered h proto kp.1
                     | Data _ _ false => true
                     | Accessor _ _ e => negb e
                     end) rest = true ->
  assign_keys rest.*1 c o
    (<[c := mkObject proto true (clone_properties done)]> h)
  = (<[c := mkObject proto true (clone_properties (done ++ rest))]> h,
     inr tt).
Proof.
  assert (Hne : o <> c) by (intros ->; congruence).
  revert done. induction rest as [|[k p] rest IH]; intros done Hown Hnd Hplain.
  - by rewrite app_nil_r.
  - cbn [fmap list_fmap assign_keys fst]. unfold GetOwnProperty.
    rewrite lookup_insert_ne, allocated by done.
    rewrite (Hown k p) by (by left).
    apply andb_true_iff in Hplain as [Hp Hplain]. cbn [snd fst] in Hp.
    assert (Hnd' : NoDup ((done ++ [(k, p)]).*1 ++ rest.*1)).
    { by rewrite fmap_app, <- app_assoc. }
    assert (Hown' : forall k' p', (k', p') ∈ rest ->
                                  own k' (properties obj) = Some p').
    { intros k' p' Hin. apply Hown. by right. }
    specialize (IH (done ++ [(k, p)]) Hown' Hnd' Hplain).
    rewrite <- app_assoc in IH. cbn [app] in IH.
    destruct p as [v w [|]|g s e].
    + cbn [enumerable Get_own]. unfold bind at 1, ret at 1. unfold bind at 1.
      rewrite (Set_strict_new _ k v Hp (clone_properties_data done)).
      rewrite own_absent.
      * rewrite <- IH. rewrite clone_properties_app. reflexivity.
      * intros Hin%clone_properties_keys.
        apply NoDup_app in Hnd as (_ & Hdisjoint & _).
        apply (Hdisjoint k Hin). rewrite fmap_cons. by left.
    + cbn [enumerable]. rewrite <- IH. rewrite clone_properties_app.
      unfold clone_properties at 2. cbn [omap list_omap snd].
      by rewrite app_nil_r.
    + apply negb_true_iff in Hp. subst e. cbn [enumerable].
      rewrite <- IH. rewrite clone_properties_app.
      unfold clone_properties at 2. cbn [omap list_omap snd].
      by rewrite app_nil_r.
Qed.

End Fresh.

Lemma cloneObject_target (o h : _) (h' : heap) (c : loc) :
  cloneObject o h = (h', inr c) -> c = fresh (dom h).
Proof.
  unfold cloneObject, bind, Object_getPrototypeOf, Object_create, Object_assign,
    bind, ret.
  destruct (assign_keys _ _ _ _) as [h2 [e|[]]]; [done|]. by intros [= _ <-].
Qed.

(** An assignment to a writable data property of the object itself
    changes this property and nothing else. *)
Lemma Set_strict_own (h : heap) (c : loc) (obj : object) (k : key)
  (v v0 : slot) (e : bool) :
  h !! c = Some obj ->
  own k (properties obj) = Some (Data v0 true e) ->
  Set_strict c k v h
  = (<[c := mkObject (prototype obj) (extensible obj)
               (update k v (properties obj))]> h,
     inr tt).
Proof.
  intros Hc Hown. unfold Set_strict, prototype_chain.
  assert (Hsize : exists n, size h = S n).
  { destruct (size h) as [|n] eqn:Hsize; [|by eauto].
    apply map_size_empty_iff in Hsize. subst h. by rewrite lookup_empty in Hc. }
  destruct Hsize as [n ->]. cbn [chain]. rewrite Hc. cbn [lookup_property].
  unfold GetOwnProperty. rewrite Hc, Hown. rewrite decide_True by done.
  f_equal. apply map_eq. intros l. destruct (decide (l = c)) as [->|Hne].
  - by rewrite lookup_alter_eq, lookup_insert_eq, Hc.
  - by rewrite lookup_alter_ne, lookup_insert_ne.
Qed.

End Clone.

Section Contexts.

Context `{Engine} `{Functions} `{Host}.

Variables (h : heap) (o : loc) (obj : object).

Hypothesis allocated : h !! o = Some obj.
Hypothesis keys_once : NoDup (properties obj).*1.
Hypothesis no_dangling : closed h = true.
Hypothesis nothing_hinders : plain h obj = true.

Lemma prototype_allocated (l : loc) :
  prototype obj = Some l -> is_Some (h !! l).
Proof. intros Hl. by eapply closed_spec. Qed.

Lemma fresh_free : h !! fresh (dom h) = None.
Proof. apply not_elem_of_dom, is_fresh. Qed.

Lemma cloneObject_plain :
  cloneObject o h
  = (<[fresh (dom h) :=
         mkObject (prototype obj) true (clone_properties (properties obj))]> h,
     inr (fresh (dom h))).
Proof.
  pose proof fresh_free as Hfree.
  assert (Hne : o <> fresh (dom h)) by (intros E; rewrite <- E in Hfree; congruence).
  unfold cloneObject, bind, Object_getPrototypeOf, Object_create, Object_assign.
  rewrite allocated. unfold bind, OwnPropertyKeys.
  rewrite lookup_insert_ne, allocated by done.
  change (@nil (key * property)) with (clone_properties []).
  rewrite (assign_all h (fresh (dom h)) (prototype obj) no_dangling Hfree
             prototype_allocated o obj allocated [] (properties obj));
    [done| |done|exact nothing_hinders].
  intros k p Hin. by apply own_elem.
Qed.

(** C10, as the code has it.  Let the enumerable own properties of the
    object be data properties, and let no object on its prototype chain
    have a read-only property or an accessor under one of their names.
    Then the clone is a new object, with the prototype of the original,
    whose own enumerable properties hold the very values and references
    of the original; nothing else on the heap changes, so the objects
    referred to are shared.  An assignment to a top-level property of the
    clone that nothing on the prototype chain hinders is seen by no other
    object, the original included.  The clone made for another operation
    at a later time is yet another object, and an assignment to a data
    property of its own changes no other object.  The clone is the
    context that [runHttpQuery] hands to the pipeline. *)
Theorem cloneObject_is_a_shallow_copy :
  exists h' c,
    cloneObject o h = (h', inr c)
    /\ c <> o
    /\ h !! c = None
    /\ is_Some (h' !! c)
    /\ (Object_getPrototypeOf c h').2 = (Object_getPrototypeOf o h).2
    /\ (forall k, own_enumerable h' c k = own_enumerable h o k)
    /\ (forall l, l <> c -> h' !! l = h !! l)
    /\ (forall k v,
           unhindered h (prototype obj) k = true ->
           exists h'',
             Set_strict c k v h' = (h'', inr tt)
             /\ own_enumerable h'' c k = Some v
             /\ forall l, l <> c -> h'' !! l = h !! l)
    /\ (forall o2 h2 h3 c2,
           is_Some (h2 !! c) ->
           cloneObject o2 h2 = (h3, inr c2) ->
           c2 <> c
           /\ forall clone k v v0 e,
                h3 !! c2 = Some clone ->
                own k (properties clone) = Some (Data v0 true e) ->
                exists h4,
                  Set_strict c2 k v h3 = (h4, inr tt)
                  /\ forall l, l <> c2 -> h4 !! l = h3 !! l)
    /\ (forall (process : pipeline) httpRequest options graphqlRequest,
           Translate httpRequest = inr graphqlRequest ->
           (runHttpQuery process httpRequest o options h).1
           = (process (pipeline_options httpRequest options)
                (GraphQLRequestContext.mk graphqlRequest initial_partialResponse
                   c (effective_debug options))
                h').1).
Proof.
  pose proof fresh_free as Hfree. pose proof cloneObject_plain as Hclone.
  set (c := fresh (dom h)) in *.
  assert (Hne : c <> o) by (intros E; rewrite E in Hfree; congruence).
  eexists _, c. split; [exact Hclone|]. split; [done|]. split; [done|].
  split; [by rewrite lookup_insert_eq|].
  split.
  { unfold Object_getPrototypeOf. cbn [snd].
    by rewrite lookup_insert_eq, allocated. }
  split.
  { intros k. unfold own_enumerable, GetOwnProperty.
    rewrite lookup_insert_eq, allocated. cbn [properties].
    rewrite own_clone_properties by done.
    by destruct (own k (properties obj)) as [[v w [|]|g s e]|]. }
  split; [by intros l Hl; rewrite lookup_insert_ne|].
  split.
  { intros k v Hk.
    eexists. split.
    { apply (Set_strict_new h c (prototype obj) no_dangling Hfree
               prototype_allocated _ k v Hk).
      apply clone_properties_data. }
    split.
    - unfold own_enumerable, GetOwnProperty. rewrite lookup_insert_eq.
      cbn [properties].
      destruct (own k (clone_properties (properties obj))) as [p|] eqn:Hown.
      + destruct (own_Forall (fun p => exists v0, p = Data v0 true true)
                    _ _ _ (clone_properties_data (properties obj)) Hown)
          as [v0 ->].
        by rewrite (own_update k v v0 true true).
      + rewrite own_app, Hown. simpl. by rewrite decide_True.
    - intros l Hl. by rewrite lookup_insert_ne. }
  split.
  { intros o2 h2 h3 c2 Hc Hclone2.
    apply cloneObject_target in Hclone2 as Hc2.
    assert (Hne2 : c2 <> c).
    { intros E. rewrite E in Hc2.
      pose proof (is_fresh (dom h2)) as Hfresh. rewrite <- Hc2 in Hfresh.
      by apply Hfresh, elem_of_dom. }
    split; [done|]. intros clone k v v0 e Hclone3 Hown.
    eexists. split; [by eapply Set_strict_own|].
    intros l Hl. by rewrite lookup_insert_ne. }
  intros process httpRequest options graphqlRequest Htranslated.
  rewrite (runHttpQuery_pipeline _ _ _ _ _ _ _ _ Htranslated Hclone).
  unfold requestContext_of.
  destruct (process _ _ _) as [h2 [e|response]]; [done|]. cbn [fst].
  destruct (truthy _ && is_undefined _); [|done].
  by destruct (GraphQLResponse.http response).
Qed.

End Contexts.

Lemma cloneObject_is_a_shallow_copy_witness :
  exists h' c,
    cloneObject Examples.context0 Examples.heap0 = (h', inr c)
    /\ c <> Examples.context0
    /\ own_enumerable h' c (KString "dataSources") = Some (Ref 2%positive)
    /\ own_enumerable h' c (KString "secret") = None.
Proof.
  destruct (cloneObject_is_a_shallow_copy Examples.heap0 Examples.context0
              (mkObject (Some 1%positive) true
                 [(KString "user", Data (Prim (VStr "ada")) true true);
                  (KString "dataSources", Data (Ref 2%positive) true true);
                  (KString "secret", Data (Prim (VNum 7)) true false)])
              eq_refl ltac:(apply (bool_decide_unpack _); vm_compute; exact I)
              eq_refl eq_refl)
    as (h' & c & Hclone & Hne & _ & _ & _ & Hprops & _).
  exists h', c. split; [exact Hclone|]. split; [exact Hne|].
  rewrite !Hprops. split; reflexivity.
Defined.

(** C10, as stated, fails.  The clone of an object with a property [x],
    whose prototype has a read-only property [x], is not made: the
    assignment throws.  The clone of an object with a property [y], whose
    prototype has an accessor [y], has no property [y]: the setter took
    the assignment.  The clone of an object with an accessor [z], whose
    getter throws, is not made either. *)
Lemma cloneObject_meets_accessors_and_read_only_properties :
  (cloneObject 2%positive Examples.heap1).2
  = inl (raise (ReadOnlyProperty (KString "x")))
  /\ (exists h',
        cloneObject 3%positive Examples.heap1 = (h', inr 5%positive)
        /\ own_enumerable Examples.heap1 3%positive (KString "y")
           = Some (Prim (VNum 1))
        /\ own_enumerable h' 5%positive (KString "y") = None)
  /\ (cloneObject 4%positive Examples.heap1).2
     = inl (EError "Error" "boom").
Proof.
  split; [vm_compute; reflexivity|]. split; [|vm_compute; reflexivity].
  eexists. split; [vm_compute; reflexivity|].
  split; vm_compute; reflexivity.
Qed.

(** * Further properties of the code *)

(** ** runHttpQuery.ts: the translator *)

Section TranslatorEdges.

Context `{Engine} `{Functions} `{Host}.

Variables (process : pipeline) (httpRequest : HTTPGraphQLRequest.t)
          (context : loc) (options : GraphQLServerOptions.t) (h : heap).

(** X1.  A request whose method is neither ['POST'] nor ['GET'], in
    exactly this spelling, makes [runHttpQuery] throw the 405 with the
    header [Allow: GET, POST]; the pipeline is not run and the heap is
    untouched. *)
Theorem unsupported_method_is_rejected :
  HTTPGraphQLRequest.method httpRequest <> "POST" ->
  HTTPGraphQLRequest.method httpRequest <> "GET" ->
  runHttpQuery process httpRequest context options h
  = (h, inl (EHttpQueryError
               (HttpQueryError.mk 405
                  "Apollo Server supports only GET/POST requests." false
                  (Some {[ "Allow" := "GET, POST" ]})))).
Proof.
  intros Hpost Hget. apply runHttpQuery_translation_error. unfold Translate.
  destruct (String.eqb_spec (HTTPGraphQLRequest.method httpRequest) "POST");
    [done|].
  by destruct (String.eqb_spec (HTTPGraphQLRequest.method httpRequest) "GET").
Qed.

(** X2.  A GET request whose search parameters are not an object with at
    least one key makes [runHttpQuery] throw the 400 [GET query missing.],
    whatever its body is. *)
Theorem GET_query_missing :
  HTTPGraphQLRequest.method httpRequest = "GET" ->
  (forall k v rest,
      HTTPGraphQLRequest.searchParams httpRequest <> VObj ((k, v) :: rest)) ->
  runHttpQuery process httpRequest context options h
  = (h, inl (EHttpQueryError (HttpQueryError.new 400 "GET query missing."))).
Proof.
  intros Hmethod Hparams. apply runHttpQuery_translation_error.
  unfold Translate. rewrite Hmethod. simpl.
  destruct (isNonEmptyStringRecord _) eqn:E; [|reflexivity].
  apply isNonEmptyStringRecord_spec in E as (k & v & rest & E).
  by destruct (Hparams k v rest).
Qed.

Lemma isStringRecord_match (o : value) :
  isStringRecord o = match o with VObj _ => true | _ => false end.
Proof.
  unfold isStringRecord. destruct o; simpl; rewrite ?andb_false_r; reflexivity.
Qed.

Lemma jsonParsedField_invalid (o : value) (fieldName text : string) :
  get o fieldName = VStr text -> text <> "" ->
  jsonParsedFieldIfNonEmptyString o fieldName
  = match JSON_parse text with
    | None =>
        inl (EHttpQueryError (HttpQueryError.new 400
               ("The " +:+ fieldName +:+
                " search parameter contains invalid JSON.")))
    | Some (VObj props) => inr (VObj props)
    | Some _ =>
        inl (EHttpQueryError (HttpQueryError.new 400
               ("The " +:+ fieldName +:+
                " search parameter should contain a JSON-encoded object.")))
    end.
Proof.
  intros Hget Hne. unfold jsonParsedFieldIfNonEmptyString. rewrite Hget.
  cbn [truthy]. destruct (String.eqb_spec text ""); [done|]. cbn [negb].
  destruct (JSON_parse text) as [parsed|]; [|reflexivity].
  rewrite isStringRecord_match. by destruct parsed.
Qed.

(** X3.  In a GET request that has passed the checks of the search
    parameters and of [query], a [variables] parameter that is a
    non-empty string must be the JSON text of an object: when
    [JSON.parse] throws, [runHttpQuery] throws the 400 about invalid
    JSON, and when the parsed value is not a plain object (an array,
    [null], a number, ...) it throws the 400 about the JSON-encoded
    object. *)
Theorem GET_variables_must_be_a_JSON_object (text : string) :
  HTTPGraphQLRequest.method httpRequest = "GET" ->
  isNonEmptyStringRecord (HTTPGraphQLRequest.searchParams httpRequest) = true ->
  ensureQueryIsStringOrMissing
    (get (HTTPGraphQLRequest.searchParams httpRequest) "query") = None ->
  get (HTTPGraphQLRequest.searchParams httpRequest) "variables" = VStr text ->
  text <> "" ->
  (forall props, JSON_parse text <> Some (VObj props)) ->
  runHttpQuery process httpRequest context options h
  = (h, inl (EHttpQueryError
               (HttpQueryError.new 400
                  (match JSON_parse text with
                   | None => "The variables search parameter contains invalid JSON."
                   | Some _ =>
                       "The variables search parameter should contain a JSON-encoded object."
                   end)))).
Proof.
  intros Hmethod Hparams Hquery Hvars Hne Hobj.
  apply runHttpQuery_translation_error. unfold Translate.
  rewrite Hmethod. simpl. rewrite Hparams, Hquery. simpl.
  rewrite (jsonParsedField_invalid _ _ text Hvars Hne).
  destruct (JSON_parse text) as [[]|]; try reflexivity.
  by destruct (Hobj props).
Qed.

(** X4.  The [extensions] parameter of a GET request is examined after
    [variables]: when [variables] is accepted, an [extensions] parameter
    that is a non-empty string and not the JSON text of an object makes
    [runHttpQuery] throw the 400 that names [extensions]. *)
Theorem GET_extensions_are_checked_after_variables (text : string)
  (variables : value) :
  HTTPGraphQLRequest.method httpRequest = "GET" ->
  isNonEmptyStringRecord (HTTPGraphQLRequest.searchParams httpRequest) = true ->
  ensureQueryIsStringOrMissing
    (get (HTTPGraphQLRequest.searchParams httpRequest) "query") = None ->
  jsonParsedFieldIfNonEmptyString
    (HTTPGraphQLRequest.searchParams httpRequest) "variables" = inr variables ->
  get (HTTPGraphQLRequest.searchParams httpRequest) "extensions" = VStr text ->
  text <> "" ->
  (forall props, JSON_parse text <> Some (VObj props)) ->
  runHttpQuery process httpRequest context options h
  = (h, inl (EHttpQueryError
               (HttpQueryError.new 400
                  (match JSON_parse text with
                   | None => "The extensions search parameter contains invalid JSON."
                   | Some _ =>
                       "The extensions search parameter should contain a JSON-encoded object."
                   end)))).
Proof.
  intros Hmethod Hparams Hquery Hvars Hext Hne Hobj.
  apply runHttpQuery_translation_error. unfold Translate.
  rewrite Hmethod. simpl. rewrite Hparams, Hquery. simpl. rewrite Hvars.
  rewrite (jsonParsedField_invalid _ _ text Hext Hne).
  destruct (JSON_parse text) as [[]|]; try reflexivity.
  by destruct (Hobj props).
Qed.

Lemma fieldIfString_typed (o : value) (fieldName : string) :
  fieldIfString o fieldName = VUndefined
  \/ exists s, fieldIfString o fieldName = VStr s.
Proof.
  unfold fieldIfString. destruct (get o fieldName); simpl; eauto.
Qed.

Lemma fieldIfRecord_typed (o : value) (fieldName : string) :
  fieldIfRecord o fieldName
  = match get o fieldName with
    | VObj props => VObj props
    | _ => VUndefined
    end.
Proof.
  unfold fieldIfRecord. rewrite isStringRecord_match.
  by destruct (get o fieldName).
Qed.

Lemma jsonParsedField_typed (o : value) (fieldName : string) (v : value) :
  jsonParsedFieldIfNonEmptyString o fieldName = inr v ->
  v = VUndefined \/ exists props, v = VObj props.
Proof.
  unfold jsonParsedFieldIfNonEmptyString.
  destruct (get o fieldName); try (intros [= <-]; by left).
  destruct (truthy (VStr s)); [|intros [= <-]; by left].
  destruct (JSON_parse s) as [parsed|]; [|done].
  destruct (isStringRecord parsed) eqn:E; [|done].
  intros [= <-]. right. by apply isStringRecord_spec.
Qed.

(** X5.  Whatever the translator accepts, it hands on well typed: the
    method was ['POST'] or ['GET'], [query] and [operationName] are
    strings or [undefined], [variables] and [extensions] are plain objects
    or [undefined], and [http] is the request itself. *)
Theorem translated_request_is_well_typed (graphqlRequest : GraphQLRequest.t) :
  Translate httpRequest = inr graphqlRequest ->
  (HTTPGraphQLRequest.method httpRequest = "POST"
   \/ HTTPGraphQLRequest.method httpRequest = "GET")
  /\ (GraphQLRequest.query graphqlRequest = VUndefined
      \/ exists s, GraphQLRequest.query graphqlRequest = VStr s)
  /\ (GraphQLRequest.operationName graphqlRequest = VUndefined
      \/ exists s, GraphQLRequest.operationName graphqlRequest = VStr s)
  /\ (GraphQLRequest.variables graphqlRequest = VUndefined
      \/ exists props, GraphQLRequest.variables graphqlRequest = VObj props)
  /\ (GraphQLRequest.extensions graphqlRequest = VUndefined
      \/ exists props, GraphQLRequest.extensions graphqlRequest = VObj props)
  /\ GraphQLRequest.http graphqlRequest = httpRequest.
Proof.
  unfold Translate.
  destruct (String.eqb_spec (HTTPGraphQLRequest.method httpRequest) "POST")
    as [Hpost|_].
  - destruct (negb _); [done|].
    destruct (ensureQueryIsStringOrMissing _); [done|]. intros [= <-].
    cbn [GraphQLRequest.query GraphQLRequest.operationName
         GraphQLRequest.variables GraphQLRequest.extensions GraphQLRequest.http].
    rewrite !fieldIfRecord_typed.
    repeat split; eauto using fieldIfString_typed.
    + destruct (get _ "variables"); eauto.
    + destruct (get _ "extensions"); eauto.
  - destruct (String.eqb_spec (HTTPGraphQLRequest.method httpRequest) "GET")
      as [Hget|_]; [|done].
    destruct (negb _); [done|].
    destruct (ensureQueryIsStringOrMissing _); [done|].
    destruct (jsonParsedFieldIfNonEmptyString _ "variables")
      as [|variables] eqn:Hv; [done|].
    destruct (jsonParsedFieldIfNonEmptyString _ "extensions")
      as [|extensions] eqn:He; [done|].
    intros [= <-].
    cbn [GraphQLRequest.query GraphQLRequest.operationName
         GraphQLRequest.variables GraphQLRequest.extensions GraphQLRequest.http].
    repeat split;
      eauto using fieldIfString_typed, jsonParsedField_typed.
Qed.

(** X6.  A POST request whose body is an object with at least one key and
    whose [query] is a string or falsy is always translated: an
    [operationName] that is not a string and [variables] or [extensions]
    that are not plain objects (arrays, Buffers, [null], primitives) are
    dropped, not reported. *)
Theorem POST_drops_fields_of_the_wrong_type (k : string) (v : value)
  (rest : list (string * value)) :
  let body := VObj ((k, v) :: rest) in
  HTTPGraphQLRequest.method httpRequest = "POST" ->
  HTTPGraphQLRequest.body httpRequest = body ->
  truthy (get body "query") = false \/ is_string (get body "query") = true ->
  Translate httpRequest
  = inr (GraphQLRequest.mk
           (match get body "query" with VStr s => VStr s | _ => VUndefined end)
           (match get body "operationName" with
            | VStr s => VStr s
            | _ => VUndefined
            end)
           (match get body "variables" with
            | VObj props => VObj props
            | _ => VUndefined
            end)
           (match get body "extensions" with
            | VObj props => VObj props
            | _ => VUndefined
            end)
           httpRequest).
Proof.
  intros body Hmethod Hbody Hquery. unfold Translate.
  rewrite Hmethod, Hbody. fold body. simpl String.eqb. cbv iota.
  replace (isNonEmptyStringRecord body) with true by reflexivity.
  cbn [negb].
  assert (Hpass : ensureQueryIsStringOrMissing (get body "query") = None).
  { unfold ensureQueryIsStringOrMissing.
    destruct Hquery as [-> | ->]; [done|]. by rewrite orb_true_r. }
  rewrite Hpass, !fieldIfRecord_typed. unfold fieldIfString.
  do 2 f_equal.
  - by destruct (get body "query").
  - by destruct (get body "operationName").
Qed.

End TranslatorEdges.

Lemma unsupported_method_is_rejected_witness :
  runHttpQuery processGraphQLRequest
    (HTTPGraphQLRequest.mk "post" ∅ "/graphql" (VObj [])
       (VObj [("query", VStr "{ hello }")]))
    Examples.context0 Examples.options Examples.heap0
  = (Examples.heap0,
     inl (EHttpQueryError
            (HttpQueryError.mk 405
               "Apollo Server supports only GET/POST requests." false
               (Some {[ "Allow" := "GET, POST" ]})))).
Proof. apply unsupported_method_is_rejected; discriminate. Defined.

Lemma GET_query_missing_witness :
  runHttpQuery processGraphQLRequest
    (HTTPGraphQLRequest.mk "GET" ∅ "/graphql" (VObj [])
       (VObj [("query", VStr "{ hello }")]))
    Examples.context0 Examples.options Examples.heap0
  = (Examples.heap0,
     inl (EHttpQueryError (HttpQueryError.new 400 "GET query missing."))).
Proof. apply GET_query_missing; [reflexivity | discriminate]. Defined.

Lemma GET_variables_must_be_a_JSON_object_witness :
  runHttpQuery processGraphQLRequest
    (Examples.get_ (VObj [("query", VStr "{ hello }");
                          ("variables", VStr "{oops")]))
    Examples.context0 Examples.options Examples.heap0
  = (Examples.heap0,
     inl (EHttpQueryError
            (HttpQueryError.new 400
               "The variables search parameter contains invalid JSON."))).
Proof.
  refine (GET_variables_must_be_a_JSON_object processGraphQLRequest
            (Examples.get_ (VObj [("query", VStr "{ hello }");
                                  ("variables", VStr "{oops")]))
            Examples.context0 Examples.options Examples.heap0 "{oops"
            eq_refl eq_refl eq_refl eq_refl _ _);
    discriminate.
Defined.

Lemma GET_extensions_are_checked_after_variables_witness :
  runHttpQuery processGraphQLRequest
    (Examples.get_ (VObj [("query", VStr "{ hello }");
                          ("variables", VStr "{}");
                          ("extensions", VStr "nope")]))
    Examples.context0 Examples.options Examples.heap0
  = (Examples.heap0,
     inl (EHttpQueryError
            (HttpQueryError.new 400
               "The extensions search parameter contains invalid JSON."))).
Proof.
  refine (GET_extensions_are_checked_after_variables processGraphQLRequest
            (Examples.get_ (VObj [("query", VStr "{ hello }");
                                  ("variables", VStr "{}");
                                  ("extensions", VStr "nope")]))
            Examples.context0 Examples.options Examples.heap0 "nope" (VObj [])
            eq_refl eq_refl eq_refl eq_refl eq_refl _ _);
    discriminate.
Defined.

Lemma translated_request_is_well_typed_witness :
  GraphQLRequest.variables
    (GraphQLRequest.mk (VStr "{ hello }") VUndefined (VObj []) VUndefined
       (Examples.get_ (VObj [("query", VStr "{ hello }");
                             ("variables", VStr "{}")])))
  = VUndefined
  \/ exists props,
       GraphQLRequest.variables
         (GraphQLRequest.mk (VStr "{ hello }") VUndefined (VObj []) VUndefined
            (Examples.get_ (VObj [("query", VStr "{ hello }");
                                  ("variables", VStr "{}")])))
       = VObj props.
Proof.
  destruct (translated_request_is_well_typed (H1 := Examples.host)
              (Examples.get_ (VObj [("query", VStr "{ hello }");
                                    ("variables", VStr "{}")]))
              (GraphQLRequest.mk (VStr "{ hello }") VUndefined (VObj [])
                 VUndefined
                 (Examples.get_ (VObj [("query", VStr "{ hello }");
                                       ("variables", VStr "{}")])))
              eq_refl)
    as (_ & _ & _ & Hvariables & _).
  exact Hvariables.
Defined.

Lemma POST_drops_fields_of_the_wrong_type_witness :
  Translate
    (Examples.post (VObj [("query", VStr "{ hello }");
                          ("operationName", VNum 7);
                          ("variables", VArr [VNum 1]);
                          ("extensions", VStr "x")]))
  = inr (GraphQLRequest.mk (VStr "{ hello }") VUndefined VUndefined VUndefined
           (Examples.post (VObj [("query", VStr "{ hello }");
                                 ("operationName", VNum 7);
                                 ("variables", VArr [VNum 1]);
                                 ("extensions", VStr "x")]))).
Proof.
  apply (POST_drops_fields_of_the_wrong_type
           (Examples.post (VObj [("query", VStr "{ hello }");
                                 ("operationName", VNum 7);
                                 ("variables", VArr [VNum 1]);
                                 ("extensions", VStr "x")]))
           "query" (VStr "{ hello }")
           [("operationName", VNum 7); ("variables", VArr [VNum 1]);
            ("extensions", VStr "x")]);
    [reflexivity | reflexivity | right; reflexivity].
Defined.

(** ** runHttpQuery.ts: errors *)

Section ErrorShaping.

Context `{Engine} `{Functions} `{Host}.

Lemma Map_set_all_union (supplied : option (gmap string string))
  (m : gmap string string) :
  Map_set_all (match supplied with
               | Some hs => map_to_list hs
               | None => []
               end) m
  = default ∅ supplied ∪ m.
Proof.
  destruct supplied as [hs|]; simpl.
  - apply Map_set_all_map_to_list.
  - by rewrite (left_id_L ∅ (∪)).
Qed.

(** X7.  The error that [throwHttpGraphQLError] throws is an
    [HttpQueryError] marked as a GraphQL error, with the given status; its
    message is the JSON object with the formatted errors first and the
    extensions after them when they are truthy, followed by a newline;
    its headers are the given ones over the default
    [Content-Type: application/json]. *)
Theorem throwHttpGraphQLError_shape (statusCode : Z) (errors : list error)
  (debug : option bool) (extensions : value)
  (headers : option (gmap string string)) :
  throwHttpGraphQLError statusCode errors (Some debug) extensions headers
  = EHttpQueryError
      (HttpQueryError.mk statusCode
         (with_newline
            (object_literal
               (field "errors" (formatApolloErrors errors debug)
                ++ (if truthy extensions then field "extensions" extensions
                    else []))))
         true
         (Some (default ∅ headers ∪ {[ "Content-Type" := "application/json" ]}))).
Proof.
  unfold throwHttpGraphQLError.
  rewrite Map_set_all_union, prettyJSONStringify_object, members_cons.
  do 4 f_equal. destruct (truthy extensions); [|done].
  by rewrite members_cons, app_nil_r.
Qed.

Variables (process : pipeline) (httpRequest : HTTPGraphQLRequest.t)
          (context : loc) (options : GraphQLServerOptions.t) (h : heap)
          (graphqlRequest : GraphQLRequest.t) (h1 : heap) (clone : loc).

Hypothesis translated : Translate httpRequest = inr graphqlRequest.

Hypothesis cloned : cloneObject context h = (h1, inr clone).

(** X8.  When the pipeline throws, [runHttpQuery] throws: an
    [HttpQueryError] as it is, and any other error wrapped in an
    [HttpQueryError] with status 500, the header
    [Content-Type: application/json] alone, and the errors formatted
    with the [debug] setting in force as its message. *)
Theorem pipeline_error_is_rethrown_or_wrapped (h2 : heap) (e : error) :
  process (pipeline_options httpRequest options)
    (requestContext_of graphqlRequest clone options) h1 = (h2, inl e) ->
  runHttpQuery process httpRequest context options h
  = (h2,
     inl (match e with
          | EHttpQueryError _ => e
          | EError _ _ =>
              EHttpQueryError
                (HttpQueryError.mk 500
                   (with_newline
                      (object_literal
                         (field "errors"
                            (formatApolloErrors [e]
                               (Some (effective_debug options))))))
                   true
                   (Some {[ "Content-Type" := "application/json" ]}))
          end)).
Proof.
  intros Hthrown.
  rewrite (runHttpQuery_pipeline _ _ _ _ _ _ _ _ translated cloned), Hthrown.
  unfold rethrown. destruct e as [e'|name message]; [done|].
  cbn [isHttpQueryError]. unfold throwHttpGraphQLError.
  rewrite prettyJSONStringify_object, members_cons. cbn [truthy members].
  by rewrite app_nil_r.
Qed.

(** X9.  The response to a pipeline response with errors and without
    data always has a status code that is not zero, the complete body and
    no body chunks; it has every header of the partial response, and the
    header [content-type], which is [application/json] unless the partial
    response says otherwise. *)
Theorem error_response_has_status_and_content_type (h2 : heap)
  (response : GraphQLResponse.t) (http : HTTPResponsePartial.t) :
  process (pipeline_options httpRequest options)
    (requestContext_of graphqlRequest clone options) h1 = (h2, inr response) ->
  truthy (GraphQLResponse.errors response) = true ->
  GraphQLResponse.data response = VUndefined ->
  GraphQLResponse.http response = Some http ->
  exists r,
    runHttpQuery process httpRequest context options h = (h2, inr (Response r))
    /\ status_truthy (HTTPGraphQLResponse.statusCode r) = true
    /\ is_Some (HTTPGraphQLResponse.completeBody r)
    /\ HTTPGraphQLResponse.bodyChunks r = None
    /\ (forall k v,
           HTTPResponsePartial.headers http !! k = Some v ->
           HTTPGraphQLResponse.headers r !! k = Some v)
    /\ HTTPGraphQLResponse.headers r !! "content-type"
       = Some (default "application/json"
                 (HTTPResponsePartial.headers http !! "content-type")).
Proof.
  intros Hresponse Herrors Hdata Hhttp.
  rewrite (runHttpQuery_pipeline _ _ _ _ _ _ _ _ translated cloned), Hresponse.
  rewrite Herrors, Hdata, Hhttp. eexists. split; [reflexivity|].
  unfold error_only_response.
  cbn [HTTPGraphQLResponse.statusCode HTTPGraphQLResponse.completeBody
       HTTPGraphQLResponse.bodyChunks HTTPGraphQLResponse.headers].
  split.
  { unfold status_or, status_truthy.
    destruct (HTTPResponsePartial.statusCode http) as [n|]; [|done].
    by destruct (Z.eqb_spec n 0) as [->|Hn]; [|apply negb_true_iff, Z.eqb_neq]. }
  split; [by eexists|]. split; [done|]. split.
  - intros k v Hk. by apply lookup_union_Some_l.
  - rewrite lookup_union.
    destruct (HTTPResponsePartial.headers http !! "content-type"); [done|].
    by rewrite lookup_singleton_eq.
Qed.

End ErrorShaping.

Lemma pipeline_error_is_rethrown_or_wrapped_witness :
  (runHttpQuery Examples.throwing_pipeline
     (Examples.post (VObj [("query", VStr "{ hello }")]))
     Examples.context0 Examples.options Examples.heap0).2
  = inl (EHttpQueryError
           (HttpQueryError.mk 500
              (with_newline
                 (object_literal
                    [quote "errors" +:+ ":" +:+ "[" +:+
                     object_literal [quote "message" +:+ ":" +:+ quote "boom"]
                     +:+ "]"]))
              true (Some {[ "Content-Type" := "application/json" ]}))).
Proof.
  rewrite (pipeline_error_is_rethrown_or_wrapped (H1 := Examples.host)
             Examples.throwing_pipeline
             (Examples.post (VObj [("query", VStr "{ hello }")]))
             Examples.context0 Examples.options Examples.heap0
             (GraphQLRequest.mk (VStr "{ hello }") VUndefined VUndefined
                VUndefined (Examples.post (VObj [("query", VStr "{ hello }")])))
             (cloneObject Examples.context0 Examples.heap0).1 4%positive
             eq_refl eq_refl
             (cloneObject Examples.context0 Examples.heap0).1
             (EError "Error" "boom") eq_refl).
  reflexivity.
Defined.

Lemma error_response_has_status_and_content_type_witness :
  exists r,
    runHttpQuery Examples.refusing_pipeline
      (Examples.post (VObj [("query", VStr "{ hello }")]))
      Examples.context0 Examples.options Examples.heap0
    = ((cloneObject Examples.context0 Examples.heap0).1, inr (Response r))
    /\ status_truthy (HTTPGraphQLResponse.statusCode r) = true
    /\ HTTPGraphQLResponse.headers r !! "x-reason" = Some "refused".
Proof.
  destruct (error_response_has_status_and_content_type (H1 := Examples.host)
              Examples.refusing_pipeline
              (Examples.post (VObj [("query", VStr "{ hello }")]))
              Examples.context0 Examples.options Examples.heap0
              (GraphQLRequest.mk (VStr "{ hello }") VUndefined VUndefined
                 VUndefined (Examples.post (VObj [("query", VStr "{ hello }")])))
              (cloneObject Examples.context0 Examples.heap0).1 4%positive
              eq_refl eq_refl
              (cloneObject Examples.context0 Examples.heap0).1
              _ _ eq_refl eq_refl eq_refl eq_refl)
    as (r & Hr & Hstatus & _ & _ & Hheaders & _).
  exists r. split; [exact Hr|]. split; [exact Hstatus|].
  apply Hheaders. reflexivity.
Defined.

(** ** runHttpQuery.ts: the clone of the context and the end of the function *)

Section Endings.

Context `{Engine} `{Functions} `{Host}.

Variables (process : pipeline) (httpRequest : HTTPGraphQLRequest.t)
          (context : loc) (options : GraphQLServerOptions.t) (h : heap)
          (graphqlRequest : GraphQLRequest.t).

Hypothesis translated : Translate httpRequest = inr graphqlRequest.

(** X23.  When the copy of the context throws (an assignment that a
    read-only property of the prototype chain refuses, a getter or a
    setter that throws), [runHttpQuery] does not run the pipeline and
    throws: an [HttpQueryError] as it is, and any other error wrapped in
    an [HttpQueryError] with status 500. *)
Theorem clone_failure_is_rethrown_or_wrapped (h1 : heap) (e : error) :
  cloneObject context h = (h1, inl e) ->
  runHttpQuery process httpRequest context options h
  = (h1,
     inl (match e with
          | EHttpQueryError _ => e
          | EError _ _ =>
              EHttpQueryError
                (HttpQueryError.mk 500
                   (with_newline
                      (object_literal
                         (field "errors"
                            (formatApolloErrors [e]
                               (Some (effective_debug options))))))
                   true
                   (Some {[ "Content-Type" := "application/json" ]}))
          end)).
Proof.
  intros Hclone.
  rewrite (runHttpQuery_clone_fails _ _ _ _ _ _ _ _ translated Hclone).
  unfold rethrown. destruct e as [e'|name message]; [done|].
  cbn [isHttpQueryError]. unfold throwHttpGraphQLError.
  rewrite prettyJSONStringify_object, members_cons. cbn [truthy members].
  by rewrite app_nil_r.
Qed.

(** X24.  When the pipeline answers with data, or without errors,
    [runHttpQuery] makes the body of the response and then returns
    nothing: the statement after the [try] block evaluates the identifier
    [responseInit], which has no binding, and the function ends with the
    [ReferenceError] of the engine, whatever the response is. *)
Theorem answered_operation_ends_in_ReferenceError (h1 h2 : heap) (clone : loc)
  (response : GraphQLResponse.t) :
  cloneObject context h = (h1, inr clone) ->
  process (pipeline_options httpRequest options)
    (requestContext_of graphqlRequest clone options) h1 = (h2, inr response) ->
  truthy (GraphQLResponse.errors response) = false
  \/ GraphQLResponse.data response <> VUndefined ->
  runHttpQuery process httpRequest context options h
  = (h2, inl (EError "ReferenceError" (error_message (NotDefined "responseInit")))).
Proof.
  intros Hclone Hresponse Hanswered.
  rewrite (runHttpQuery_pipeline _ _ _ _ _ _ _ _ translated Hclone), Hresponse.
  replace (truthy (GraphQLResponse.errors response)
           && is_undefined (GraphQLResponse.data response)) with false; [done|].
  destruct Hanswered as [-> | Hdata]; [done|].
  rewrite andb_comm. by destruct (GraphQLResponse.data response).
Qed.

End Endings.

Lemma clone_failure_is_rethrown_or_wrapped_witness :
  (runHttpQuery Examples.throwing_pipeline
     (Examples.post (VObj [("query", VStr "{ hello }")]))
     2%positive Examples.options Examples.heap1).2
  = inl (EHttpQueryError
           (HttpQueryError.mk 500
              (with_newline
                 (object_literal
                    [quote "errors" +:+ ":" +:+ "[" +:+
                     object_literal
                       [quote "message" +:+ ":" +:+
                        quote "Cannot assign to read only property 'x' of object '#<Object>'"]
                     +:+ "]"]))
              true (Some {[ "Content-Type" := "application/json" ]}))).
Proof.
  rewrite (clone_failure_is_rethrown_or_wrapped (H1 := Examples.host)
             Examples.throwing_pipeline
             (Examples.post (VObj [("query", VStr "{ hello }")]))
             2%positive Examples.options Examples.heap1
             (GraphQLRequest.mk (VStr "{ hello }") VUndefined VUndefined
                VUndefined (Examples.post (VObj [("query", VStr "{ hello }")])))
             eq_refl
             (cloneObject 2%positive Examples.heap1).1
             (raise (ReadOnlyProperty (KString "x"))) eq_refl).
  reflexivity.
Defined.

Lemma answered_operation_ends_in_ReferenceError_witness :
  (runHttpQuery processGraphQLRequest
     (Examples.post (VObj [("query", VStr "{ hello }")]))
     Examples.context0 Examples.options Examples.heap0).2
  = inl (EError "ReferenceError" "responseInit is not defined").
Proof.
  rewrite (answered_operation_ends_in_ReferenceError
             (H := Examples.engine) (H0 := Examples.functions)
             (H1 := Examples.host)
             (@processGraphQLRequest Examples.execution)
             (Examples.post (VObj [("query", VStr "{ hello }")]))
             Examples.context0 Examples.options Examples.heap0
             (GraphQLRequest.mk (VStr "{ hello }") VUndefined VUndefined
                VUndefined (Examples.post (VObj [("query", VStr "{ hello }")])))
             eq_refl
             (cloneObject Examples.context0 Examples.heap0).1
             (cloneObject Examples.context0 Examples.heap0).1 4%positive
             (GraphQLResponse.mk VUndefined (VObj [("hello", VStr "world")])
                VUndefined (Some initial_partialResponse))
             eq_refl eq_refl (or_introl eq_refl)).
  reflexivity.
Defined.

(** ** httpBatching.ts: edges *)

Section BatchEdges.

Variable run : HTTPGraphQLRequest.t -> error + HTTPGraphQLResponse.t.
Variable batchRequest : BatchRequest.t.

Local Abbreviation bodies := (BatchRequest.body batchRequest).
Local Abbreviation resume := (Batch.resume run batchRequest).
Local Abbreviation failure := (callback_failure run batchRequest).

(** X10.  A batch without operations is answered, not refused: the body
    is the empty array, and there is no header and no status code. *)
Theorem empty_batch_is_answered (completion : list nat) :
  bodies = [] ->
  Batch.runBatchHttpQuery run batchRequest completion
  = Some (inr (HTTPGraphQLResponse.mk None ∅ (Some "[]") None)).
Proof.
  intros Hempty. unfold Batch.runBatchHttpQuery. rewrite Hempty.
  assert (Hfold :
    fold_left (fun st i => resume i st) completion (Batch.initial 0)
    = Batch.initial 0).
  { generalize (Batch.initial 0).
    induction completion as [|i rest IH]; intros st; [done|].
    cbn [fold_left]. unfold Batch.resume at 2. rewrite Hempty.
    rewrite lookup_nil. apply IH. }
  cbn [List.length]. by rewrite Hfold.
Qed.

Lemma resume_rejection (i : nat) (st : Batch.state) :
  Batch.rejection (resume i st)
  = match Batch.rejection st with
    | Some first => Some first
    | None => bodies !! i ≫= failure
    end.
Proof.
  unfold Batch.resume, callback_failure, Batch.reject.
  destruct (bodies !! i) as [body|]; simpl.
  - destruct (run _) as [e|response]; simpl; [done|].
    destruct (HTTPGraphQLResponse.completeBody response); simpl; [|done].
    by destruct (Batch.rejection st).
  - by destruct (Batch.rejection st).
Qed.

Lemma rejection_kept (completion : list nat) (st : Batch.state) (e : error) :
  Batch.rejection st = Some e ->
  Batch.rejection (fold_left (fun st i => resume i st) completion st) = Some e.
Proof.
  revert st. induction completion as [|i rest IH]; intros st Hst; [done|].
  cbn [fold_left]. apply IH. by rewrite resume_rejection, Hst.
Qed.

Lemma rejection_none (completion : list nat) (st : Batch.state) :
  Batch.rejection st = None ->
  (forall j body, j ∈ completion -> bodies !! j = Some body ->
                  failure body = None) ->
  Batch.rejection (fold_left (fun st i => resume i st) completion st) = None.
Proof.
  revert st. induction completion as [|i rest IH]; intros st Hst Hok; [done|].
  cbn [fold_left]. apply IH.
  - rewrite resume_rejection, Hst.
    destruct (bodies !! i) as [body|] eqn:Hi; [|done]. simpl.
    apply (Hok i body); [by left|done].
  - intros j body Hj. apply Hok. by right.
Qed.

(** X11.  The batch fails with the error of the first callback to fail
    in the order of completion, whatever the position of its operation in
    the input and whatever becomes of the calls that settle later or
    never: the error thrown by [runHttpQuery], or the error about
    incremental delivery when the response has no complete body. *)
Theorem batch_fails_with_first_failure (settled later : list nat) (i : nat)
  (body : value) (e : error) :
  bodies !! i = Some body ->
  failure body = Some e ->
  (forall j body', j ∈ settled -> bodies !! j = Some body' ->
                   failure body' = None) ->
  Batch.runBatchHttpQuery run batchRequest (settled ++ i :: later)
  = Some (inl e).
Proof.
  intros Hi He Hsettled. unfold Batch.runBatchHttpQuery.
  rewrite fold_left_app. cbn [fold_left].
  rewrite (rejection_kept later _ e); [done|].
  rewrite resume_rejection, rejection_none by done.
  by rewrite Hi.
Qed.

Lemma resume_slot (i j : nat) (st : Batch.state) :
  i <> j ->
  Batch.responseBodies (resume i st) !! j = Batch.responseBodies st !! j.
Proof.
  intros Hne. unfold Batch.resume, Batch.reject.
  destruct (bodies !! i) as [body|]; [|done].
  destruct (run _) as [e|response]; [done|].
  destruct (HTTPGraphQLResponse.completeBody response); [|done].
  cbn [Batch.responseBodies]. by rewrite list_lookup_insert_ne.
Qed.

Lemma slot_untouched (completion : list nat) (j : nat) (st : Batch.state) :
  j ∉ completion ->
  Batch.responseBodies (fold_left (fun st i => resume i st) completion st) !! j
  = Batch.responseBodies st !! j.
Proof.
  revert st. induction completion as [|i rest IH]; intros st Hj; [done|].
  apply not_elem_of_cons in Hj as [Hne Hj].
  cbn [fold_left]. rewrite IH by done. by apply resume_slot.
Qed.

(** X12.  [runBatchHttpQuery] returns a response only when every call
    has settled: no response is made of a part of the operations. *)
Theorem batch_waits_for_every_call (completion : list nat)
  (combined : HTTPGraphQLResponse.t) (i : nat) :
  Batch.runBatchHttpQuery run batchRequest completion = Some (inr combined) ->
  (i < List.length bodies)%nat ->
  i ∈ completion.
Proof.
  unfold Batch.runBatchHttpQuery. intros Hresult Hi.
  destruct (decide (i ∈ completion)) as [|Hnot]; [done|]. exfalso.
  destruct (Batch.rejection _); [done|].
  destruct (mapM id _) as [slots|] eqn:Hslots; [|done].
  apply mapM_Some_1 in Hslots.
  pose proof (slot_untouched completion i
                (Batch.initial (List.length bodies)) Hnot) as Hslot.
  cbn [Batch.initial Batch.responseBodies] in Hslot.
  rewrite lookup_replicate_2 in Hslot by done.
  destruct (Forall2_lookup_l _ _ _ _ _ Hslots Hslot) as (text & _ & Htext).
  discriminate Htext.
Qed.

End BatchEdges.

Lemma empty_batch_is_answered_witness :
  Batch.runBatchHttpQuery Examples.run
    (BatchRequest.mk "POST" ∅ "/graphql" (VObj []) []) [3; 0]%nat
  = Some (inr (HTTPGraphQLResponse.mk None ∅ (Some "[]") None)).
Proof. apply empty_batch_is_answered. reflexivity. Defined.

Lemma batch_fails_with_first_failure_witness :
  Batch.runBatchHttpQuery Examples.run Examples.broken_batch [2; 1]%nat
  = Some (inl (EHttpQueryError (HttpQueryError.new 400 POST_body_message))).
Proof.
  apply (batch_fails_with_first_failure Examples.run Examples.broken_batch
           [2%nat] [] 1%nat (VNum 0)); [reflexivity | reflexivity |].
  intros j body' Hj. apply list_elem_of_singleton in Hj as ->.
  intros [= <-]. reflexivity.
Defined.

Lemma batch_waits_for_every_call_witness : 0%nat ∈ [1; 0]%nat.
Proof.
  apply (batch_waits_for_every_call Examples.run Examples.batch [1; 0]%nat
           (HTTPGraphQLResponse.mk (Some 201) {[ "x-served-by" := "a" ]}
              (Some ("[" +:+ String.concat ","
                               [Examples.data_body "a" 1;
                                Examples.data_body "b" 2]
                         +:+ "]"))
              None)
           0%nat); [vm_compute; reflexivity | simpl; lia].
Defined.

Section BatchMerge.

Variable run : HTTPGraphQLRequest.t -> error + HTTPGraphQLResponse.t.
Variable batchRequest : BatchRequest.t.

Local Abbreviation bodies := (BatchRequest.body batchRequest).
Local Abbreviation single := (BatchRequest.singleRequest batchRequest).

Hypothesis all_complete :
  forallb (Batch.completes run batchRequest) bodies = true.

Lemma merged_headers_origin (rs : list HTTPGraphQLResponse.t)
  (k v : string) :
  Batch.merged_headers rs !! k = Some v ->
  exists r, r ∈ rs /\ HTTPGraphQLResponse.headers r !! k = Some v.
Proof.
  induction rs as [|r rs IH] using rev_ind; [done|].
  rewrite merged_headers_snoc, lookup_union_Some_raw.
  intros [Hr | [_ Hrs]].
  - exists r. split; [|done]. apply elem_of_app. right. by left.
  - destruct (IH Hrs) as (r' & Hin & Hk). exists r'. split; [|done].
    apply elem_of_app. by left.
Qed.

Lemma merged_headers_present (rs : list HTTPGraphQLResponse.t)
  (r : HTTPGraphQLResponse.t) (k : string) :
  r ∈ rs -> is_Some (HTTPGraphQLResponse.headers r !! k) ->
  is_Some (Batch.merged_headers rs !! k).
Proof.
  induction rs as [|r' rs IH] using rev_ind; [by intros ?%elem_of_nil|].
  rewrite merged_headers_snoc, lookup_union_is_Some, elem_of_app.
  intros [Hin | Hin] Hk.
  - right. by apply IH.
  - apply list_elem_of_singleton in Hin as ->. by left.
Qed.

Lemma merged_statusCode_origin (rs : list HTTPGraphQLResponse.t) (n : Z) :
  Batch.merged_statusCode rs = Some n ->
  n <> 0 /\ exists r, r ∈ rs /\ HTTPGraphQLResponse.statusCode r = Some n.
Proof.
  induction rs as [|r rs IH] using rev_ind; [done|].
  rewrite merged_statusCode_snoc.
  destruct (status_truthy (HTTPGraphQLResponse.statusCode r)) eqn:Hr.
  - intros Hn. rewrite Hn in Hr. simpl in Hr.
    split; [by apply Z.eqb_neq, negb_true_iff|].
    exists r. split; [|done]. apply elem_of_app. right. by left.
  - intros Hn. destruct (IH Hn) as (Hne & r' & Hin & Hstatus).
    split; [done|]. exists r'. split; [|done]. apply elem_of_app. by left.
Qed.

Lemma responses_origin (indices : list nat) (r : HTTPGraphQLResponse.t) :
  r ∈ Batch.responses run batchRequest indices ->
  exists body, body ∈ bodies /\ run (single body) = inr r.
Proof.
  intros Hr. apply list_elem_of_omap in Hr as (i & _ & Hi).
  destruct (bodies !! i) as [body|] eqn:Hbody; [|done].
  exists body. split; [by eapply list_elem_of_lookup_2|].
  by destruct (run (single body)) as [|r']; [|injection Hi as ->].
Qed.

Lemma responses_present (completion : list nat) (body : value)
  (r : HTTPGraphQLResponse.t) :
  completion ≡ₚ seq 0 (List.length bodies) ->
  body ∈ bodies -> run (single body) = inr r ->
  r ∈ Batch.responses run batchRequest completion.
Proof.
  intros Hperm Hbody Hr. apply list_elem_of_lookup in Hbody as [i Hi].
  apply list_elem_of_omap. exists i. split.
  - rewrite Hperm. apply elem_of_seq. apply lookup_lt_Some in Hi. lia.
  - by rewrite Hi, Hr.
Qed.

(** X13.  When every call returns a complete body, the merged response
    is made of the responses of the operations and of nothing else, in
    whatever order the calls settle: each of its headers is a header of
    some operation, with the value that operation gave it; a header that
    some operation sets is present; and its status code, when it has one,
    is the status code of some operation and is not zero. *)
Theorem batch_response_is_made_of_the_operations (completion : list nat) :
  completion ≡ₚ seq 0 (List.length bodies) ->
  exists combined,
    Batch.runBatchHttpQuery run batchRequest completion = Some (inr combined)
    /\ (forall k v,
           HTTPGraphQLResponse.headers combined !! k = Some v ->
           exists body r,
             body ∈ bodies /\ run (single body) = inr r
             /\ HTTPGraphQLResponse.headers r !! k = Some v)
    /\ (forall body r k,
           body ∈ bodies -> run (single body) = inr r ->
           is_Some (HTTPGraphQLResponse.headers r !! k) ->
           is_Some (HTTPGraphQLResponse.headers combined !! k))
    /\ (forall n,
           HTTPGraphQLResponse.statusCode combined = Some n ->
           n <> 0
           /\ exists body r,
                body ∈ bodies /\ run (single body) = inr r
                /\ HTTPGraphQLResponse.statusCode r = Some n).
Proof.
  intros Hperm. eexists.
  split; [exact (runBatchHttpQuery_result run batchRequest all_complete
                   completion Hperm)|].
  cbn [HTTPGraphQLResponse.headers HTTPGraphQLResponse.statusCode].
  split; [|split].
  - intros k v Hk. destruct (merged_headers_origin _ k v Hk) as (r & Hin & Hr).
    destruct (responses_origin _ r Hin) as (body & Hbody & Hrun). eauto.
  - intros body r k Hbody Hrun Hk.
    eapply merged_headers_present; [|exact Hk].
    by eapply responses_present.
  - intros n Hn. destruct (merged_statusCode_origin _ n Hn) as (Hne & r & Hin & Hr).
    split; [done|].
    destruct (responses_origin _ r Hin) as (body & Hbody & Hrun). eauto.
Qed.

End BatchMerge.

Lemma batch_response_is_made_of_the_operations_witness :
  exists combined,
    Batch.runBatchHttpQuery Examples.run Examples.batch [1; 0]%nat
    = Some (inr combined)
    /\ is_Some (HTTPGraphQLResponse.headers combined !! "x-served-by").
Proof.
  destruct (batch_response_is_made_of_the_operations Examples.run
              Examples.batch eq_refl [1; 0]%nat (perm_swap _ _ _))
    as (combined & Hresult & _ & Hpresent & _).
  exists combined. split; [exact Hresult|].
  apply (Hpresent Examples.body_a
           (HTTPGraphQLResponse.mk (Some 201) {[ "x-served-by" := "a" ]}
              (Some (Examples.data_body "a" 1)) None) "x-served-by").
  - by left.
  - reflexivity.
  - by eexists.
Defined.

(** ** [cloneObject]: what the clone holds *)

(** X14.  Let the enumerable own properties of an object be data
    properties, and let no object on its prototype chain have a read-only
    property or an accessor under one of their names.  Then the own
    properties of the clone are the enumerable own properties of the
    original, in the same order, with the same values, and all of them
    writable and enumerable, also where the original is read-only; the
    clone can be extended and its prototype is that of the original; a
    property of the original that is not enumerable is not an own property
    of the clone. *)
Theorem clone_holds_the_enumerable_properties `{Engine} `{Functions}
  (h : heap) (o : loc) (obj : object) :
  h !! o = Some obj ->
  NoDup (properties obj).*1 ->
  closed h = true ->
  plain h obj = true ->
  exists h' c,
    cloneObject o h = (h', inr c)
    /\ h' !! c
       = Some (mkObject (prototype obj) true
                 (omap (fun kp => match kp.2 with
                                  | Data v _ true => Some (kp.1, Data v true true)
                                  | _ => None
                                  end) (properties obj)))
    /\ (forall k v, (k, Data v false true) ∈ properties obj ->
                    GetOwnProperty h' c k = Some (Data v true true))
    /\ (forall k p,
           own k (properties obj) = Some p -> enumerable p = false ->
           GetOwnProperty h' c k = None).
Proof.
  intros Hobj Hkeys Hclosed Hplain.
  eexists _, _. split; [by apply cloneObject_plain|].
  split; [by rewrite lookup_insert_eq|].
  unfold GetOwnProperty. rewrite lookup_insert_eq. cbn [properties]. split.
  - intros k v Hin. rewrite own_clone_properties by done.
    by rewrite (own_elem _ _ _ Hkeys Hin).
  - intros k p Hk Hp. rewrite own_clone_properties, Hk by done.
    by destruct p as [v w [|]|g s e].
Qed.

Lemma clone_holds_the_enumerable_properties_witness :
  exists h' c,
    cloneObject Examples.context0 Examples.heap0 = (h', inr c)
    /\ h' !! c
       = Some (mkObject (Some 1%positive) true
                 [(KString "user", Data (Prim (VStr "ada")) true true);
                  (KString "dataSources", Data (Ref 2%positive) true true)]).
Proof.
  destruct (clone_holds_the_enumerable_properties Examples.heap0
              Examples.context0
              (mkObject (Some 1%positive) true
                 [(KString "user", Data (Prim (VStr "ada")) true true);
                  (KString "dataSources", Data (Ref 2%positive) true true);
                  (KString "secret", Data (Prim (VNum 7)) true false)])
              eq_refl ltac:(apply (bool_decide_unpack _); vm_compute; exact I)
              eq_refl eq_refl)
    as (h' & c & Hclone & Hheld & _).
  exists h', c. split; [exact Hclone|]. rewrite Hheld. reflexivity.
Defined.

(** ** The Express middleware *)

Lemma find_first {A : Type} (f : A -> bool) (l : list A) (x : A) :
  List.find f l = Some x <->
  exists before after,
    l = before ++ x :: after /\ f x = true
    /\ Forall (fun y => f y = false) before.
Proof.
  induction l as [|y l IH]; simpl.
  - split; [done|]. intros (before & after & E & _). by destruct before.
  - destruct (f y) eqn:Hy.
    + split.
      * intros [= ->]. by exists [], l.
      * intros ([|z before] & after & E & Hx & Hbefore).
        -- by injection E as ->.
        -- injection E as -> _. apply Forall_cons in Hbefore as [Hz _].
           congruence.
    + rewrite IH. split.
      * intros (before & after & -> & Hx & Hbefore).
        exists (y :: before), after.
        split; [done|]. split; [done|]. by constructor.
      * intros ([|z before] & after & E & Hx & Hbefore).
        -- injection E as -> _. congruence.
        -- injection E as -> ->. apply Forall_cons in Hbefore as [_ Hbefore].
           by exists before, after.
Qed.

(** X15.  [prefersHtml] holds exactly for a GET request among whose
    accepted types [text/html] comes before any [application/json]. *)
Theorem prefersHtml_spec (req : Express.Request) (types : list string) :
  Express.prefersHtml req types = true <->
  Express.method req = "GET"
  /\ exists before after,
       types = before ++ ("text/html" :: after)
       /\ ("text/html" ∉ before) /\ ("application/json" ∉ before).
Proof.
  unfold Express.prefersHtml.
  destruct (String.eqb_spec (Express.method req) "GET") as [Hget|Hget];
    cbn [negb]; [|split; [done|by intros [? _]]].
  set (f := fun x => String.eqb x "text/html" || String.eqb x "application/json").
  assert (Hbefore : forall before,
             Forall (fun y => f y = false) before <->
             ("text/html" ∉ before) /\ ("application/json" ∉ before)).
  { intros before. rewrite Forall_forall. subst f. split.
    - intros Hall. split; intros Hin; by specialize (Hall _ Hin).
    - intros [Hhtml Hjson] y Hy. apply orb_false_intro.
      + destruct (String.eqb_spec y "text/html"); [by subst|done].
      + destruct (String.eqb_spec y "application/json"); [by subst|done]. }
  split.
  - destruct (List.find f types) as [x|] eqn:Hfind; [|done].
    intros Hx. apply String.eqb_eq in Hx as ->.
    apply find_first in Hfind as (before & after & -> & _ & Hall).
    split; [done|]. exists before, after. split; [done|]. by apply Hbefore.
  - intros (_ & before & after & -> & Hhtml & Hjson).
    assert (Hfind : List.find f (before ++ ("text/html" :: after))
                    = Some "text/html").
    { apply find_first. exists before, after.
      split; [done|]. split; [done|]. by apply Hbefore. }
    by rewrite Hfind.
Qed.

Lemma request_headers_lookup (entries : list (string * Express.HeaderValue))
  (acc : gmap string string) (k : string) :
  NoDup entries.*1 ->
  fold_left (fun headers kv =>
               match kv.2 with
               | Express.HUndefined => headers
               | Express.HString s => <[kv.1 := s]> headers
               | Express.HArray values =>
                   <[kv.1 := String.concat ", " values]> headers
               end) entries acc !! k
  = match (list_to_map entries : gmap string Express.HeaderValue) !! k with
    | Some (Express.HString s) => Some s
    | Some (Express.HArray values) => Some (String.concat ", " values)
    | Some Express.HUndefined => acc !! k
    | None => acc !! k
    end.
Proof.
  revert acc. induction entries as [|[k' v] rest IH]; intros acc Hnd; [done|].
  rewrite fmap_cons in Hnd. apply NoDup_cons in Hnd as [Hk' Hnd].
  cbn [fold_left list_to_map foldr fst snd uncurry]. rewrite IH by done.
  destruct (decide (k' = k)) as [->|Hne].
  - rewrite lookup_insert_eq.
    rewrite (not_elem_of_list_to_map_1 _ _ Hk').
    destruct v; by rewrite ?lookup_insert_eq.
  - rewrite lookup_insert_ne by done.
    destruct (list_to_map rest !! k) as [[]|]; try done;
      destruct v; by rewrite ?lookup_insert_ne.
Qed.

(** X16.  The headers handed to [runHttpQuery] are those of the request:
    a header with one value has this value, a header with several values
    has them joined with a comma and a space, and a header whose value is
    [undefined] is absent, like one that the request does not have. *)
Theorem request_headers_spec (entries : list (string * Express.HeaderValue))
  (k : string) :
  NoDup entries.*1 ->
  Express.request_headers entries !! k
  = match (list_to_map entries : gmap string Express.HeaderValue) !! k with
    | Some (Express.HString s) => Some s
    | Some (Express.HArray values) => Some (String.concat ", " values)
    | Some Express.HUndefined | None => None
    end.
Proof.
  intros Hnd. unfold Express.request_headers.
  rewrite request_headers_lookup by done.
  by destruct (list_to_map entries !! k) as [[]|].
Qed.

Lemma request_headers_spec_witness :
  Express.request_headers
    [("accept", Express.HArray ["text/html"; "application/json"]);
     ("x-trace", Express.HUndefined);
     ("host", Express.HString "example.org")] !! "accept"
  = Some "text/html, application/json".
Proof.
  rewrite request_headers_spec;
    [reflexivity | apply (bool_decide_unpack _); vm_compute; exact I].
Defined.

Section Middleware.

Context `{Engine} `{Host} `{Strings}.

Variables (landingPage : option string)
          (requestOptions : GraphQLServerOptions.t)
          (initial_statusCode : option Z)
          (req : Express.Request) (types : list string)
          (contextFunction : Express.thrown + loc)
          (run : loc -> HTTPGraphQLRequest.t -> error + HTTPGraphQLResponse.t).

Local Abbreviation handler :=
  (Express.handler landingPage requestOptions initial_statusCode req types
     contextFunction run).

Hypothesis no_landing_page :
  landingPage = None \/ Express.prefersHtml req types = false.

Lemma handler_skips_landing_page (completion : list nat) :
  handler completion
  = if negb (truthy (Express.body req)) then
      Some ([Express.set_statusCode (Some 500);
             Express.send (Some Express.body_not_set)], None)
    else
      Express.handler None requestOptions initial_statusCode req types
        contextFunction run completion.
Proof.
  unfold Express.handler.
  destruct no_landing_page as [-> | ->]; [|destruct landingPage];
    by destruct (negb (truthy (Express.body req))).
Qed.

(** When the landing page is not served and [req.body] is falsy
    ([undefined], [null], [false], [0], the empty string), the handler
    sets the status 500 and sends the text about the body parser; the
    context function and [runHttpQuery] play no part, and the handler
    does not throw. *)
Theorem missing_body_is_answered_with_500 (completion : list nat) :
  truthy (Express.body req) = false ->
  handler completion
  = Some ([Express.set_statusCode (Some 500);
           Express.send (Some Express.body_not_set)], None).
Proof. intros Hbody. by rewrite handler_skips_landing_page, Hbody. Qed.

(** X17.  When the context function throws an error object whose
    [message] takes the assignment, the handler does not throw:
    it sets the header [Content-Type: application/json], the status 400
    when the error has [extensions] with a truthy [code] other than
    ['INTERNAL_SERVER_ERROR'] and 500 otherwise, and sends the JSON object
    of the formatted error, whose message now starts with
    [Context creation failed: ]. *)
Theorem context_failure_is_rendered (completion : list nat) (e : error)
  (extensions : value) :
  truthy (Express.body req) = true ->
  contextFunction = inl (Express.ErrorObject e extensions None) ->
  handler completion
  = Some ([Express.setHeader "Content-Type" "application/json";
           Express.set_statusCode
             (Some (if truthy extensions
                       && truthy (get extensions "code")
                       && negb (match get extensions "code" with
                                | VStr code =>
                                    String.eqb code "INTERNAL_SERVER_ERROR"
                                | _ => false
                                end)
                    then 400 else 500));
           Express.send
             (Some (with_newline
                      (object_literal
                         (field "errors"
                            (formatApolloErrors
                               [Express.context_creation_failed e]
                               (Some (effective_debug requestOptions)))))))],
          None).
Proof.
  intros Hbody Hcontext. rewrite handler_skips_landing_page, Hbody.
  cbn [negb]. unfold Express.handler. rewrite Hbody, Hcontext. cbn [negb].
  unfold Express.context_failure, throwHttpGraphQLError, Express.handleError.
  cbn [isHttpQueryError_name negb
       HttpQueryError.headers HttpQueryError.statusCode HttpQueryError.message
       truthy Map_set_all fold_left].
  rewrite map_to_list_singleton, prettyJSONStringify_object, members_cons.
  cbn [members]. by rewrite app_nil_r.
Qed.

(** X22.  When the context function throws what is not an object
    ([undefined], [null], a boolean, a number, a string), or an error
    object whose [message] refuses the assignment with an error that is
    not named ['HttpQueryError'], the handler makes no call on [res] and
    throws: the [TypeError] for the property [message], or what the
    assignment has thrown. *)
Theorem context_failure_is_rethrown (completion : list nat)
  (t : Express.thrown) :
  truthy (Express.body req) = true ->
  contextFunction = inl t ->
  match t with
  | Express.Primitive _ => True
  | Express.ErrorObject _ _ (Some refused) => isHttpQueryError_name refused = false
  | Express.ErrorObject _ _ None => False
  end ->
  handler completion
  = Some ([],
          Some (match t with
                | Express.Primitive Express.PUndefined =>
                    raise (PropertyOfNothing VUndefined "message")
                | Express.Primitive Express.PNull =>
                    raise (PropertyOfNothing VNull "message")
                | Express.Primitive p =>
                    raise (PropertyOfPrimitive (Express.value_of p) "message")
                | Express.ErrorObject e _ refused => default e refused
                end)).
Proof.
  intros Hbody Hcontext Ht. rewrite handler_skips_landing_page, Hbody.
  cbn [negb]. unfold Express.handler. rewrite Hbody, Hcontext. cbn [negb].
  unfold Express.context_failure, Express.handleError.
  destruct t as [[| |b|x|s]|e extensions [refused|]]; try done.
  by rewrite Ht.
Qed.

End Middleware.

Lemma missing_body_is_answered_with_500_witness :
  Express.handler (Some "<html></html>") Examples.options (Some 200)
    (ExpressExamples.request VNull) ["text/html"]
    (inr Examples.context0) ExpressExamples.run []
  = Some ([Express.set_statusCode (Some 500);
           Express.send (Some Express.body_not_set)], None).
Proof.
  apply missing_body_is_answered_with_500; [right|]; reflexivity.
Defined.

Lemma context_failure_is_rendered_witness :
  Express.handler None Examples.options (Some 200)
    (ExpressExamples.request Examples.body_a) []
    (inl (Express.ErrorObject (EError "AuthenticationError" "no token")
            (VObj [("code", VStr "UNAUTHENTICATED")]) None))
    ExpressExamples.run [0%nat]
  = Some ([Express.setHeader "Content-Type" "application/json";
           Express.set_statusCode (Some 400);
           Express.send
             (Some (with_newline
                      (object_literal
                         [quote "errors" +:+ ":" +:+ "[" +:+
                          object_literal
                            [quote "message" +:+ ":" +:+
                             quote "Context creation failed: no token"]
                          +:+ "]"])))],
          None).
Proof.
  rewrite (context_failure_is_rendered (H0 := Examples.host) None
             Examples.options (Some 200)
             (ExpressExamples.request Examples.body_a) []
             (inl (Express.ErrorObject
                     (EError "AuthenticationError" "no token")
                     (VObj [("code", VStr "UNAUTHENTICATED")]) None))
             ExpressExamples.run (or_introl eq_refl) [0%nat]
             (EError "AuthenticationError" "no token")
             (VObj [("code", VStr "UNAUTHENTICATED")]) eq_refl eq_refl).
  reflexivity.
Defined.

Lemma context_failure_is_rethrown_witness :
  Express.handler None Examples.options (Some 200)
    (ExpressExamples.request Examples.body_a) []
    (inl (Express.Primitive Express.PUndefined))
    ExpressExamples.run [0%nat]
  = Some ([], Some (raise (PropertyOfNothing VUndefined "message"))).
Proof.
  apply (context_failure_is_rethrown None Examples.options (Some 200)
           (ExpressExamples.request Examples.body_a) []
           (inl (Express.Primitive Express.PUndefined))
           ExpressExamples.run (or_introl eq_refl) [0%nat]
           (Express.Primitive Express.PUndefined) eq_refl eq_refl I).
Defined.

Lemma statusCode_after_app (initial : option Z) (log1 log2 : list Express.call) :
  Express.statusCode_after initial (log1 ++ log2)
  = Express.statusCode_after (Express.statusCode_after initial log1) log2.
Proof. unfold Express.statusCode_after. by rewrite fold_left_app. Qed.

Lemma statusCode_after_headers (initial : option Z)
  (entries : list (string * string)) :
  Express.statusCode_after initial
    ((fun kv => Express.setHeader kv.1 kv.2) <$> entries)
  = initial.
Proof. induction entries as [|kv rest IH]; [done|]. exact IH. Qed.

Lemma statusCode_after_response (initial : option Z)
  (response : HTTPGraphQLResponse.t) :
  Express.statusCode_after initial (Express.response_calls response)
  = if status_truthy (HTTPGraphQLResponse.statusCode response)
    then HTTPGraphQLResponse.statusCode response
    else initial.
Proof.
  unfold Express.response_calls.
  rewrite statusCode_after_app, statusCode_after_headers.
  by destruct (status_truthy _).
Qed.

Lemma statusCode_after_responses (initial : option Z)
  (rs : list HTTPGraphQLResponse.t) :
  Express.statusCode_after initial (List.concat (Express.response_calls <$> rs))
  = match Batch.merged_statusCode rs with
    | Some n => Some n
    | None => initial
    end.
Proof.
  induction rs as [|r rs IH] using rev_ind; [done|].
  rewrite fmap_app, List.concat_app, statusCode_after_app, IH.
  cbn [fmap list_fmap List.concat]. rewrite app_nil_r, statusCode_after_response.
  rewrite merged_statusCode_snoc.
  destruct (status_truthy (HTTPGraphQLResponse.statusCode r)) eqn:Hr; [|done].
  by destruct (HTTPGraphQLResponse.statusCode r).
Qed.

Section MiddlewareAnswers.

Context `{Engine} `{Host} `{Strings}.

Variables (landingPage : option string)
          (requestOptions : GraphQLServerOptions.t)
          (initial_statusCode : option Z)
          (req : Express.Request) (types : list string)
          (contextFunction : Express.thrown + loc)
          (run : loc -> HTTPGraphQLRequest.t -> error + HTTPGraphQLResponse.t)
          (context : loc).

Local Abbreviation handler :=
  (Express.handler landingPage requestOptions initial_statusCode req types
     contextFunction run).
Local Abbreviation bodies := (Express.requestBodies req).
Local Abbreviation batchRequest := (Express.batchRequest req).
Local Abbreviation resume := (Express.resume req run context).

Hypothesis no_landing_page :
  landingPage = None \/ Express.prefersHtml req types = false.
Hypothesis body_set : truthy (Express.body req) = true.
Hypothesis context_made : contextFunction = inr context.

Lemma handler_runs (completion : list nat) :
  handler completion
  = let st :=
      fold_left (fun st i => resume i st) completion
        (Express.mkState [] (replicate (List.length bodies) None) None) in
    match Express.rejection st with
    | Some e => Some (Express.log st, Some e)
    | None =>
        match mapM id (Express.responseBodies st) with
        | None => None
        | Some responseBodies =>
            Some (Express.log st
                  ++ (if status_truthy
                           (Express.statusCode_after initial_statusCode
                              (Express.log st))
                      then []
                      else [Express.set_statusCode (Some 200)])
                  ++ [Express.send
                        (if Array_isArray (Express.body req)
                         then Some ("[" +:+ String.concat ","
                                              (default "" <$> responseBodies)
                                        +:+ "]")
                         else mjoin (head responseBodies))],
                  None)
        end
    end.
Proof.
  rewrite (handler_skips_landing_page landingPage requestOptions
             initial_statusCode req types contextFunction run no_landing_page).
  rewrite body_set. cbn [negb]. unfold Express.handler.
  by rewrite body_set, context_made.
Qed.

Section AllComplete.

Hypothesis all_complete :
  forallb (Batch.completes (run context) batchRequest) bodies = true.

Lemma express_resume_one (i : nat) (st : Express.state) :
  resume i st
  = Express.mkState
      (Express.log st
       ++ List.concat (Express.response_calls
                         <$> Batch.responses (run context) batchRequest [i]))
      (match bodies !! i with
       | Some body =>
           <[i := Some (Some (Batch.operationBody (run context)
                                batchRequest body))]>
             (Express.responseBodies st)
       | None => Express.responseBodies st
       end)
      (Express.rejection st).
Proof.
  unfold Express.resume, Batch.responses. cbn [omap list_omap].
  change (BatchRequest.body batchRequest) with bodies.
  destruct (bodies !! i) as [body|] eqn:Hi.
  - destruct (completes_lookup (run context) batchRequest all_complete
                i body Hi) as (response & text & Hrun & Hbody & Htext).
    change (BatchRequest.singleRequest batchRequest body)
      with (Express.request req body) in Hrun |- *.
    rewrite Hrun, Hbody, Htext. cbn [fmap list_fmap List.concat].
    by rewrite app_nil_r.
  - cbn [fmap list_fmap List.concat]. rewrite app_nil_r. by destruct st.
Qed.

Lemma express_resume_all (completion : list nat) (st : Express.state) :
  let st' := fold_left (fun st i => resume i st) completion st in
  Express.log st'
  = Express.log st
    ++ List.concat (Express.response_calls
                 <$> Batch.responses (run context) batchRequest completion)
  /\ Express.rejection st' = Express.rejection st
  /\ List.length (Express.responseBodies st')
     = List.length (Express.responseBodies st)
  /\ forall j body,
       bodies !! j = Some body ->
       (j < List.length (Express.responseBodies st))%nat ->
       Express.responseBodies st' !! j
       = if decide (j ∈ completion)
         then Some (Some (Some (Batch.operationBody (run context)
                                  batchRequest body)))
         else Express.responseBodies st !! j.
Proof.
  revert st. induction completion as [|i rest IH]; intros st.
  - cbn [fold_left]. rewrite app_nil_r.
    split; [done|]. split; [done|]. split; [done|].
    intros j body _ _. by rewrite decide_False by apply not_elem_of_nil.
  - cbn [fold_left]. cbv zeta in IH.
    destruct (IH (resume i st)) as (IHlog & IHrej & IHlen & IHslots).
    rewrite IHlog, IHrej, IHlen. clear IH IHlog IHrej IHlen.
    rewrite express_resume_one in *.
    cbn [Express.log Express.rejection Express.responseBodies] in *.
    assert (Hlen :
      List.length
        (match bodies !! i with
         | Some body =>
             <[i := Some (Some (Batch.operationBody (run context)
                                  batchRequest body))]>
               (Express.responseBodies st)
         | None => Express.responseBodies st
         end)
      = List.length (Express.responseBodies st)).
    { destruct (bodies !! i); [apply length_insert|done]. }
    split.
    { rewrite <- app_assoc, <- List.concat_app, <- fmap_app.
      unfold Batch.responses. by rewrite <- omap_app. }
    split; [done|]. split; [done|].
    intros j body Hj Hlt. rewrite (IHslots j body Hj) by lia.
    destruct (decide (j ∈ rest)) as [Hin|Hnin].
    + by rewrite decide_True by (apply elem_of_cons; by right).
    + destruct (decide (j = i)) as [->|Hne].
      * rewrite decide_True by (apply elem_of_cons; by left).
        rewrite Hj. by rewrite list_lookup_insert_eq.
      * rewrite decide_False by (by apply not_elem_of_cons).
        destruct (bodies !! i); [|done]. by rewrite list_lookup_insert_ne.
Qed.

Lemma handler_answers (completion : list nat) :
  completion ≡ₚ seq 0 (List.length bodies) ->
  handler completion
  = Some (List.concat (Express.response_calls
                    <$> Batch.responses (run context) batchRequest completion)
          ++ (if status_truthy
                   (match Batch.merged_statusCode
                            (Batch.responses (run context) batchRequest
                               completion) with
                    | Some n => Some n
                    | None => initial_statusCode
                    end)
              then []
              else [Express.set_statusCode (Some 200)])
          ++ [Express.send
                (if Array_isArray (Express.body req)
                 then Some ("[" +:+ String.concat ","
                                      (Batch.operationBody (run context)
                                         batchRequest <$> bodies)
                                +:+ "]")
                 else head (Batch.operationBody (run context) batchRequest
                              <$> bodies))],
          None).
Proof.
  intros Hperm. rewrite handler_runs. cbv zeta.
  destruct (express_resume_all completion
              (Express.mkState [] (replicate (List.length bodies) None) None))
    as (Hlog & Hrej & Hlen & Hslots).
  cbv zeta in Hlog, Hrej, Hlen, Hslots.
  cbn [Express.log Express.rejection Express.responseBodies] in *.
  rewrite length_replicate in Hlen, Hslots.
  rewrite Hrej, Hlog. cbn [app].
  assert (Hfilled :
    Express.responseBodies
      (fold_left (fun st i => resume i st) completion
         (Express.mkState [] (replicate (List.length bodies) None) None))
    = (fun body => Some (Some (Batch.operationBody (run context)
                                 batchRequest body))) <$> bodies).
  { apply list_eq. intros j. rewrite list_lookup_fmap.
    destruct (bodies !! j) as [body|] eqn:Hj.
    - rewrite (Hslots j body Hj) by (by eapply lookup_lt_Some).
      rewrite decide_True; [done|].
      rewrite Hperm. apply elem_of_seq. apply lookup_lt_Some in Hj. lia.
    - apply lookup_ge_None in Hj. apply lookup_ge_None. lia. }
  rewrite Hfilled.
  change (fun body => Some (Some (Batch.operationBody (run context)
                                    batchRequest body)))
    with (Some ∘ (Some ∘ Batch.operationBody (run context) batchRequest)).
  rewrite list_fmap_compose, (mapM_fmap_Some id Some) by done.
  rewrite statusCode_after_responses.
  rewrite <- !list_fmap_compose.
  do 4 f_equal. destruct (Array_isArray (Express.body req)); [done|].
  by destruct bodies.
Qed.

(** X19.  For a request whose body is an array, when every call returns
    a complete body, the handler, in whatever order the calls settle,
    ends with one [send] of the very body that [runBatchHttpQuery] makes
    of the same operations; and the status of [res] is then the status
    code of that merged response when it has one, else the status that
    [res] had when it was truthy, else 200. *)
Theorem middleware_sends_the_batch_body (completion : list nat) :
  Array_isArray (Express.body req) = true ->
  completion ≡ₚ seq 0 (List.length bodies) ->
  exists combined calls,
    Batch.runBatchHttpQuery (run context) batchRequest completion
    = Some (inr combined)
    /\ handler completion
       = Some (calls
               ++ [Express.send (HTTPGraphQLResponse.completeBody combined)],
               None)
    /\ Express.statusCode_after initial_statusCode calls
       = Some (status_or
                 (match HTTPGraphQLResponse.statusCode combined with
                  | Some n => Some n
                  | None => initial_statusCode
                  end) 200).
Proof.
  intros Harray Hperm. eexists. eexists.
  split; [exact (runBatchHttpQuery_result (run context) batchRequest
                   all_complete completion Hperm)|].
  rewrite (handler_answers completion Hperm), Harray.
  cbn [HTTPGraphQLResponse.completeBody HTTPGraphQLResponse.statusCode].
  split; [by rewrite app_assoc|].
  rewrite statusCode_after_app, statusCode_after_responses.
  set (current := match Batch.merged_statusCode _ with
                  | Some n => Some n
                  | None => initial_statusCode
                  end).
  unfold status_truthy, status_or. destruct current as [n|]; [|done].
  by destruct (Z.eqb_spec n 0).
Qed.

End AllComplete.

Lemma requestBodies_single :
  Array_isArray (Express.body req) = false -> bodies = [Express.body req].
Proof. unfold Express.requestBodies. by destruct (Express.body req). Qed.

(** X18.  For a request whose body is not an array, when the call
    returns a response with a complete body, the handler sets the headers
    of the response, sets its status code if it has one and otherwise
    200 if [res] has no truthy status, and sends the body as it is,
    without brackets. *)
Theorem middleware_sends_the_single_body (response : HTTPGraphQLResponse.t)
  (text : string) :
  Array_isArray (Express.body req) = false ->
  run context (Express.request req (Express.body req)) = inr response ->
  HTTPGraphQLResponse.completeBody response = Some text ->
  handler [0%nat]
  = Some (((fun kv => Express.setHeader kv.1 kv.2)
             <$> map_to_list (HTTPGraphQLResponse.headers response))
          ++ (if status_truthy (HTTPGraphQLResponse.statusCode response)
              then [Express.set_statusCode
                      (HTTPGraphQLResponse.statusCode response)]
              else if status_truthy initial_statusCode then []
                   else [Express.set_statusCode (Some 200)])
          ++ [Express.send (Some text)],
          None).
Proof.
  intros Harray Hrun Hbody.
  pose proof (requestBodies_single Harray) as Hbodies.
  assert (Hall :
    forallb (Batch.completes (run context) batchRequest) bodies = true).
  { rewrite Hbodies. cbn [forallb]. unfold Batch.completes.
    change (BatchRequest.singleRequest batchRequest (Express.body req))
      with (Express.request req (Express.body req)).
    by rewrite Hrun, Hbody. }
  rewrite (handler_answers Hall [0%nat]) by (by rewrite Hbodies).
  rewrite Harray, Hbodies. unfold Batch.responses, Batch.operationBody.
  change (BatchRequest.body batchRequest) with bodies. rewrite Hbodies.
  cbn [omap list_omap lookup list_lookup fmap list_fmap head].
  change (BatchRequest.singleRequest batchRequest (Express.body req))
    with (Express.request req (Express.body req)).
  rewrite Hrun, Hbody.
  cbn [List.concat default Batch.merged_statusCode fold_left id].
  change (List.concat (Express.response_calls <$> [response]))
    with (Express.response_calls response ++ []).
  rewrite app_nil_r. unfold Express.response_calls.
  rewrite <- app_assoc. do 2 f_equal.
  destruct (status_truthy (HTTPGraphQLResponse.statusCode response)) eqn:Hs.
  - destruct (HTTPGraphQLResponse.statusCode response); [|done].
    cbn [app]. by rewrite Hs.
  - by destruct (status_truthy initial_statusCode).
Qed.

Lemma handler_first (i : nat) :
  handler [i]
  = let st :=
      resume i (Express.mkState [] (replicate (List.length bodies) None) None) in
    match Express.rejection st with
    | Some e => Some (Express.log st, Some e)
    | None =>
        match mapM id (Express.responseBodies st) with
        | None => None
        | Some responseBodies =>
            Some (Express.log st
                  ++ (if status_truthy
                           (Express.statusCode_after initial_statusCode
                              (Express.log st))
                      then []
                      else [Express.set_statusCode (Some 200)])
                  ++ [Express.send
                        (if Array_isArray (Express.body req)
                         then Some ("[" +:+ String.concat ","
                                              (default "" <$> responseBodies)
                                        +:+ "]")
                         else mjoin (head responseBodies))],
                  None)
        end
    end.
Proof. by rewrite handler_runs. Qed.

(** X20.  When the call of a request whose body is not an array throws
    an [HttpQueryError], the handler renders it, with its headers, its
    status and its message as the body, and then goes on to the end of
    the handler, where it calls [send] once more, with [undefined]. *)
Theorem protocol_error_is_sent_and_then_undefined (e : HttpQueryError.t) :
  Array_isArray (Express.body req) = false ->
  run context (Express.request req (Express.body req))
  = inl (EHttpQueryError e) ->
  handler [0%nat]
  = Some (((fun kv => Express.setHeader kv.1 kv.2)
             <$> match HttpQueryError.headers e with
                 | Some hs => map_to_list hs
                 | None => []
                 end)
          ++ [Express.set_statusCode (Some (HttpQueryError.statusCode e));
              Express.send (Some (HttpQueryError.message e))]
          ++ (if HttpQueryError.statusCode e =? 0
              then [Express.set_statusCode (Some 200)] else [])
          ++ [Express.send None],
          None).
Proof.
  intros Harray Hrun. rewrite handler_first. cbv zeta.
  unfold Express.resume. rewrite (requestBodies_single Harray).
  cbn [lookup list_lookup List.length replicate]. rewrite Hrun.
  cbn [Express.handleError isHttpQueryError_name negb Express.rejection
       Express.responseBodies Express.log app insert list_insert mapM
       mbind option_bind mret option_ret id head mjoin option_join].
  rewrite Harray, !statusCode_after_app, statusCode_after_headers.
  cbn [Express.statusCode_after fold_left status_truthy].
  rewrite <- !app_assoc. cbn [app].
  by destruct (HttpQueryError.statusCode e =? 0).
Qed.

(** X21.  When the call of an operation throws an error that is not
    called [HttpQueryError], [handleError] throws it again and the
    handler ends with this error, having made no call on [res] for this
    operation. *)
Theorem other_error_ends_the_handler (i : nat) (body : value) (e : error) :
  bodies !! i = Some body ->
  run context (Express.request req body) = inl e ->
  isHttpQueryError_name e = false ->
  handler [i] = Some ([], Some e).
Proof.
  intros Hi Hrun Hname. rewrite handler_first. cbv zeta.
  unfold Express.resume, Express.handleError. by rewrite Hi, Hrun, Hname.
Qed.

End MiddlewareAnswers.

Lemma middleware_sends_the_single_body_witness :
  Express.handler None Examples.options (Some 200)
    (ExpressExamples.request Examples.body_a) []
    (inr Examples.context0) ExpressExamples.run [0%nat]
  = Some ([Express.setHeader "x-served-by" "a";
           Express.set_statusCode (Some 201);
           Express.send (Some (Examples.data_body "a" 1))], None).
Proof.
  rewrite (middleware_sends_the_single_body (H0 := Examples.host)
             (H1 := ExpressExamples.strings) None Examples.options (Some 200)
             (ExpressExamples.request Examples.body_a) []
             (inr Examples.context0) ExpressExamples.run Examples.context0
             (or_introl eq_refl) eq_refl eq_refl
             (HTTPGraphQLResponse.mk (Some 201) {[ "x-served-by" := "a" ]}
                (Some (Examples.data_body "a" 1)) None)
             (Examples.data_body "a" 1) eq_refl eq_refl eq_refl).
  vm_compute. reflexivity.
Defined.

Lemma middleware_sends_the_batch_body_witness :
  exists combined calls,
    Batch.runBatchHttpQuery (ExpressExamples.run Examples.context0)
      (Express.batchRequest
         (ExpressExamples.request (VArr [Examples.body_a; Examples.body_b])))
      [1; 0]%nat
    = Some (inr combined)
    /\ Express.handler None Examples.options None
         (ExpressExamples.request (VArr [Examples.body_a; Examples.body_b])) []
         (inr Examples.context0) ExpressExamples.run [1; 0]%nat
       = Some (calls
               ++ [Express.send (HTTPGraphQLResponse.completeBody combined)],
               None)
    /\ Express.statusCode_after None calls
       = Some (status_or
                 (match HTTPGraphQLResponse.statusCode combined with
                  | Some n => Some n
                  | None => None
                  end) 200).
Proof.
  apply (middleware_sends_the_batch_body (H0 := Examples.host)
           (H1 := ExpressExamples.strings) None Examples.options None
           (ExpressExamples.request (VArr [Examples.body_a; Examples.body_b]))
           [] (inr Examples.context0) ExpressExamples.run Examples.context0
           (or_introl eq_refl) eq_refl eq_refl eq_refl [1; 0]%nat eq_refl
           (perm_swap _ _ _)).
Defined.

Lemma protocol_error_is_sent_and_then_undefined_witness :
  Express.handler None Examples.options (Some 200)
    (ExpressExamples.request (VObj [("x", VNum 1)])) []
    (inr Examples.context0) ExpressExamples.run [0%nat]
  = Some ([Express.set_statusCode (Some 400);
           Express.send (Some POST_body_message);
           Express.send None], None).
Proof.
  rewrite (protocol_error_is_sent_and_then_undefined (H0 := Examples.host)
             (H1 := ExpressExamples.strings) None Examples.options (Some 200)
             (ExpressExamples.request (VObj [("x", VNum 1)])) []
             (inr Examples.context0) ExpressExamples.run Examples.context0
             (or_introl eq_refl) eq_refl eq_refl
             (HttpQueryError.new 400 POST_body_message) eq_refl eq_refl).
  reflexivity.
Defined.

Lemma other_error_ends_the_handler_witness :
  Express.handler None Examples.options (Some 200)
    (ExpressExamples.request (VArr [Examples.body_a; Examples.body_b])) []
    (inr Examples.context0) ExpressExamples.failing_run [1%nat]
  = Some ([], Some (EError "Error" "boom")).
Proof.
  apply (other_error_ends_the_handler (H0 := Examples.host)
           (H1 := ExpressExamples.strings) None Examples.options (Some 200)
           (ExpressExamples.request (VArr [Examples.body_a; Examples.body_b]))
           [] (inr Examples.context0) ExpressExamples.failing_run
           Examples.context0 (or_introl eq_refl) eq_refl eq_refl
           1%nat Examples.body_b (EError "Error" "boom")
           eq_refl eq_refl eq_refl).
Defined.
